(** * DPI simulator: packet classification, extractors and metrics

    A shallow embedding of [tools/dpi-simulator/dpi_simulator.py]:
    the three protocol extractors, the domain matcher, the four
    blocking strategies and the per-packet decision procedure with
    its statistics.

    Conventions of the embedding.
    - Python [bytes] is [list byte]; offsets and lengths, which the
      code only ever adds, are [nat]; 32-bit fields, ports, sequence
      numbers and counters are [N] or [Z].
    - Python [str] obtained from [decode('ascii', errors='ignore')]
      is [string]: every character is below 128.  That is all the text
      the packet path ever handles; text from elsewhere (the lines of
      the blocklist file) is covered as far as it is ASCII.
    - A Python exception is the [Raise] outcome of the [exc] monad;
      [try ... except Exception] is [try_except].
    - Calls into scapy, netfilterqueue, [time] and [datetime] are
      inputs of the model (what the parse produced, whether [send]
      raised, what the clock read, from which delay on [time.sleep]
      refuses) and outputs in an event trace (verdicts, injected
      segments, sleeps, log records).
    - A Python [float] is [PyFloat]: a rational, an infinity or nan.
    - The simulator is shared by two threads.  The definitions up to
      [run_steps] take every packet and every command in one step;
      [Threads] cuts the packet path into its reads and writes and
      lets the commands of the API thread in between. *)

From Stdlib Require Import ZArith NArith List Bool Lia QArith.
From Stdlib.Strings Require Import String Ascii Byte.
From stdpp Require Import base gmap strings list.
Import ListNotations.

Close Scope Q_scope.
Open Scope string_scope.
Open Scope list_scope.
Open Scope nat_scope.

(** ** Exceptions *)

Inductive exn : Type :=
  | IndexError
  | StructError
  | ValueError
  | KeyError
  | AttributeError
  | UnicodeDecodeError
  | ScapyError
  | SendError
  | SleepError.

Inductive exc (A : Type) : Type :=
  | Ret (a : A)
  | Raise (e : exn).
Arguments Ret {A} a.
Arguments Raise {A} e.

#[global] Instance exc_ret : MRet exc := fun A a => Ret a.
#[global] Instance exc_bind : MBind exc := fun A B f m =>
  match m with
  | Ret a => f a
  | Raise e => Raise e
  end.

(** [try: body except Exception: handler] *)
Definition try_except {A} (body : exc A) (handler : exn -> exc A) : exc A :=
  match body with
  | Ret a => Ret a
  | Raise e => handler e
  end.

(** ** Python bytes *)

Definition bytes := list byte.

(** [payload[i]] for a non-negative index. *)
Definition index (payload : bytes) (i : nat) : exc nat :=
  match nth_error payload i with
  | Some b => Ret (Byte.to_nat b)
  | None => Raise IndexError
  end.

(** [payload[a:b]] for non-negative bounds; slicing never raises. *)
Definition slice (payload : bytes) (a b : nat) : bytes :=
  firstn (b - a) (skipn a payload).

(** [struct.unpack('!H', s)[0]] *)
Definition unpack_H (s : bytes) : exc nat :=
  match s with
  | [hi; lo] => Ret (256 * Byte.to_nat hi + Byte.to_nat lo)
  | _ => Raise StructError
  end.

(** [struct.unpack('!I', s)[0]] *)
Definition unpack_I (s : bytes) : exc N :=
  match s with
  | [b3; b2; b1; b0] =>
      Ret (16777216 * Byte.to_N b3 + 65536 * Byte.to_N b2
           + 256 * Byte.to_N b1 + Byte.to_N b0)%N
  | _ => Raise StructError
  end.

(** [s.decode('ascii', errors='ignore')]: bytes above 127 are dropped. *)
Fixpoint decode_ascii_ignore (s : bytes) : string :=
  match s with
  | [] => EmptyString
  | b :: s' =>
      if Byte.to_nat b <? 128
      then String (ascii_of_byte b) (decode_ascii_ignore s')
      else decode_ascii_ignore s'
  end.

(** ** Python str *)

Definition lower_char (c : ascii) : ascii :=
  let n := nat_of_ascii c in
  if (65 <=? n) && (n <=? 90) then ascii_of_nat (n + 32) else c.

(** [s.lower()] on ASCII text. *)
Fixpoint lower (s : string) : string :=
  match s with
  | EmptyString => EmptyString
  | String c s' => String (lower_char c) (lower s')
  end.

(** [s.startswith(p)] *)
Fixpoint startswith (s p : string) : bool :=
  match p, s with
  | EmptyString, _ => true
  | String _ _, EmptyString => false
  | String a p', String b s' => Ascii.eqb a b && startswith s' p'
  end.

(** [s.endswith(p)] *)
Fixpoint endswith (s p : string) : bool :=
  String.eqb s p ||
  match s with
  | EmptyString => false
  | String _ s' => endswith s' p
  end.

(** Whitespace of [str.isspace], [str.strip] and the regex class [\s]
    on ASCII text: TAB LF VT FF CR, FS GS RS US, and space. *)
Definition is_space (c : ascii) : bool :=
  let n := nat_of_ascii c in
  ((9 <=? n) && (n <=? 13)) || ((28 <=? n) && (n <=? 32)).

Fixpoint lstrip (s : string) : string :=
  match s with
  | EmptyString => EmptyString
  | String c s' => if is_space c then lstrip s' else s
  end.

Fixpoint rstrip (s : string) : string :=
  match s with
  | EmptyString => EmptyString
  | String c s' =>
      match rstrip s' with
      | EmptyString => if is_space c then EmptyString else String c EmptyString
      | r => String c r
      end
  end.

(** [s.strip()] *)
Definition strip (s : string) : string := rstrip (lstrip s).

(** [c in s] for a one-character [c]. *)
Fixpoint contains_char (c : ascii) (s : string) : bool :=
  match s with
  | EmptyString => false
  | String a s' => Ascii.eqb a c || contains_char c s'
  end.

(** [s.split(c)[0]]: the text before the first [c]. *)
Fixpoint split_head (c : ascii) (s : string) : string :=
  match s with
  | EmptyString => EmptyString
  | String a s' => if Ascii.eqb a c then EmptyString else String a (split_head c s')
  end.

(** Truthiness of an [Optional[str]]: neither [None] nor empty. *)
Definition truthy (o : option string) : bool :=
  match o with
  | Some (String _ _) => true
  | _ => false
  end.

(** ** ProtocolExtractors *)

(** The [while] loop of [_extract_sni] over the extensions list.  Each
    turn either leaves the loop or advances [offset] by at least four
    while [offset + 4 <= len(payload)], so [len(payload)] turns are
    always enough ([sni_scan_fuel] below); [break] and the end of the
    loop both fall through to the final [return None]. *)
Fixpoint sni_scan (fuel : nat) (payload : bytes) (extensions_end offset : nat)
  : exc (option string) :=
  match fuel with
  | O => Ret None
  | S fuel' =>
      if (offset + 4 <=? extensions_end) && (offset + 4 <=? length payload) then
        ext_type ← unpack_H (slice payload offset (offset + 2));
        ext_len ← unpack_H (slice payload (offset + 2) (offset + 4));
        let offset := offset + 4 in
        if (ext_type =? 0) && (offset + ext_len <=? length payload) then
          if length payload <? offset + 2 then Ret None else
          sni_list_len ← unpack_H (slice payload offset (offset + 2));
          let offset := offset + 2 in
          if length payload <? offset + 1 then Ret None else
          sni_type ← index payload offset;
          let offset := offset + 1 in
          if sni_type =? 0 then
            if length payload <? offset + 2 then Ret None else
            sni_len ← unpack_H (slice payload offset (offset + 2));
            let offset := offset + 2 in
            if offset + sni_len <=? length payload
            then Ret (Some (decode_ascii_ignore (slice payload offset (offset + sni_len))))
            else Ret None
          else Ret None
        else sni_scan fuel' payload extensions_end (offset + ext_len)
      else Ret None
  end.

(** The body of the [try] block of [_extract_sni]. *)
Definition extract_sni_body (payload : bytes) : exc (option string) :=
  if length payload <? 43 then Ret None else
  content_type ← index payload 0;
  if negb (content_type =? 22) then Ret None else
  handshake_type ← index payload 5;
  if negb (handshake_type =? 1) then Ret None else
  let offset := 43 in
  if length payload <=? offset then Ret None else
  session_id_len ← index payload offset;
  let offset := offset + (1 + session_id_len) in
  if length payload <? offset + 2 then Ret None else
  cipher_suites_len ← unpack_H (slice payload offset (offset + 2));
  let offset := offset + (2 + cipher_suites_len) in
  if length payload <? offset + 1 then Ret None else
  compression_len ← index payload offset;
  let offset := offset + (1 + compression_len) in
  if length payload <? offset + 2 then Ret None else
  extensions_len ← unpack_H (slice payload offset (offset + 2));
  let offset := offset + 2 in
  let extensions_end := offset + extensions_len in
  sni_scan (length payload) payload extensions_end offset.

Definition _extract_sni (payload : bytes) : exc (option string) :=
  try_except (extract_sni_body payload) (fun _ => Ret None).

(** The regular expression [Host:\s*([^\r\n]+)] under [re.IGNORECASE],
    piece by piece.  [re_tag] matches the literal and returns the rest
    of the text. *)
Fixpoint re_tag (pat s : string) : option string :=
  match pat, s with
  | EmptyString, _ => Some s
  | String _ _, EmptyString => None
  | String a pat', String b s' =>
      if Ascii.eqb (lower_char a) (lower_char b) then re_tag pat' s' else None
  end.

Definition is_crlf (c : ascii) : bool :=
  Ascii.eqb c "013"%char || Ascii.eqb c "010"%char.

(** [[^\r\n]*], greedy. *)
Fixpoint re_line (s : string) : string :=
  match s with
  | EmptyString => EmptyString
  | String c s' => if is_crlf c then EmptyString else String c (re_line s')
  end.

(** [([^\r\n]+)] *)
Definition re_group (s : string) : option string :=
  match re_line s with
  | EmptyString => None
  | g => Some g
  end.

(** [\s*([^\r\n]+)]: the star takes as much white space as it can and
    gives it back one character at a time while the group fails. *)
Fixpoint re_ws_group (s : string) : option string :=
  match s with
  | EmptyString => None
  | String c s' =>
      if is_space c then
        match re_ws_group s' with
        | Some g => Some g
        | None => re_group s
        end
      else re_group s
  end.

Definition re_match_host (s : string) : option string :=
  match re_tag "Host:" s with
  | Some rest => re_ws_group rest
  | None => None
  end.

(** [re.search(r'Host:\s*([^\r\n]+)', data, re.IGNORECASE)], giving
    [match.group(1)]: the leftmost position where the pattern matches. *)
Fixpoint re_search_host (data : string) : option string :=
  match re_match_host data with
  | Some g => Some g
  | None =>
      match data with
      | EmptyString => None
      | String _ data' => re_search_host data'
      end
  end.

Definition http_methods : list string :=
  ["GET "; "POST "; "HEAD "; "PUT "; "DELETE "; "CONNECT "].

(** The body of the [try] block of [_extract_http_host]. *)
Definition extract_http_host_body (payload : bytes) : exc (option string) :=
  let data := decode_ascii_ignore payload in
  if negb (existsb (fun m => startswith data m) http_methods) then Ret None else
  match re_search_host data with
  | Some group1 =>
      let host := strip group1 in
      let host := if contains_char ":" host then split_head ":" host else host in
      Ret (Some host)
  | None => Ret None
  end.

Definition _extract_http_host (payload : bytes) : exc (option string) :=
  try_except (extract_http_host_body payload) (fun _ => Ret None).

(** The body of the [try] block of [_is_quic_initial]. *)
Definition is_quic_initial_body (payload : bytes) : exc bool :=
  if length payload <? 6 then Ret false else
  b0 ← index payload 0;
  if Nat.land b0 128 =? 0 then Ret false else
  b0 ← index payload 0;
  if Nat.land b0 64 =? 0 then Ret false else
  b0 ← index payload 0;
  let packet_type := Nat.shiftr (Nat.land b0 48) 4 in
  if negb (packet_type =? 0) then Ret false else
  version ← unpack_I (slice payload 1 5);
  if (version =? 0)%N then Ret false else
  Ret true.

Definition _is_quic_initial (payload : bytes) : exc bool :=
  try_except (is_quic_initial_body payload) (fun _ => Ret false).

(** ** DomainMatcher *)

(** [blocked_domains] is a Python [set]; its iteration order is not
    specified, so the model takes the members in whatever order a list
    gives them. *)
Definition _is_domain_blocked (blocked_domains : list string) (domain : string) : bool :=
  let domain := lower domain in
  if existsb (String.eqb domain) blocked_domains then true
  else existsb (fun blocked => endswith domain ("." ++ blocked)) blocked_domains.

(** ** Data model *)

Inductive BlockMode : Type := DROP | RST | MITM | THROTTLE.

(** A Python [float].  The finite values are taken among the
    rationals, of which the doubles are some. *)
Inductive PyFloat : Type :=
  | Finite (q : Q)
  | Inf
  | NegInf
  | NaN.

(** [BlockMode(value)]; an unknown value raises [ValueError]. *)
Definition BlockMode_of_value (v : string) : exc BlockMode :=
  if String.eqb v "drop" then Ret DROP
  else if String.eqb v "rst" then Ret RST
  else if String.eqb v "mitm" then Ret MITM
  else if String.eqb v "throttle" then Ret THROTTLE
  else Raise ValueError.

Record DomainMetrics : Type := {
  dm_blocked : Z;
  dm_passed : Z;
  last_blocked : option string;
  block_types : gmap string Z
}.

Record SimulatorStats : Type := {
  total_packets : Z;
  blocked_sni : Z;
  blocked_http : Z;
  blocked_quic : Z;
  passed : Z;
  start_time : string;
  domain_metrics : gmap string DomainMetrics
}.

(** [DomainMetrics()] *)
Definition DomainMetrics_new : DomainMetrics :=
  {| dm_blocked := 0; dm_passed := 0; last_blocked := None; block_types := ∅ |}.

(** [SimulatorStats()], created when the clock reads [now]. *)
Definition SimulatorStats_new (now : string) : SimulatorStats :=
  {| total_packets := 0; blocked_sni := 0; blocked_http := 0; blocked_quic := 0;
     passed := 0; start_time := now; domain_metrics := ∅ |}.

Record DPISimulator : Type := {
  blocked_domains : list string;
  stats : SimulatorStats;
  mode : BlockMode;
  running : bool;
  mitm_redirect : string;
  throttle_delay : PyFloat
}.

Definition set_stats (f : SimulatorStats -> SimulatorStats) (self : DPISimulator)
  : DPISimulator :=
  {| blocked_domains := blocked_domains self; stats := f (stats self);
     mode := mode self; running := running self;
     mitm_redirect := mitm_redirect self; throttle_delay := throttle_delay self |}.

Definition set_mode (m : BlockMode) (self : DPISimulator) : DPISimulator :=
  {| blocked_domains := blocked_domains self; stats := stats self;
     mode := m; running := running self;
     mitm_redirect := mitm_redirect self; throttle_delay := throttle_delay self |}.

Definition set_running (b : bool) (self : DPISimulator) : DPISimulator :=
  {| blocked_domains := blocked_domains self; stats := stats self;
     mode := mode self; running := b;
     mitm_redirect := mitm_redirect self; throttle_delay := throttle_delay self |}.

Definition incr_total_packets (s : SimulatorStats) : SimulatorStats :=
  {| total_packets := total_packets s + 1; blocked_sni := blocked_sni s;
     blocked_http := blocked_http s; blocked_quic := blocked_quic s;
     passed := passed s; start_time := start_time s;
     domain_metrics := domain_metrics s |}.

Definition incr_blocked_sni (s : SimulatorStats) : SimulatorStats :=
  {| total_packets := total_packets s; blocked_sni := blocked_sni s + 1;
     blocked_http := blocked_http s; blocked_quic := blocked_quic s;
     passed := passed s; start_time := start_time s;
     domain_metrics := domain_metrics s |}.

Definition incr_blocked_http (s : SimulatorStats) : SimulatorStats :=
  {| total_packets := total_packets s; blocked_sni := blocked_sni s;
     blocked_http := blocked_http s + 1; blocked_quic := blocked_quic s;
     passed := passed s; start_time := start_time s;
     domain_metrics := domain_metrics s |}.

Definition incr_blocked_quic (s : SimulatorStats) : SimulatorStats :=
  {| total_packets := total_packets s; blocked_sni := blocked_sni s;
     blocked_http := blocked_http s; blocked_quic := blocked_quic s + 1;
     passed := passed s; start_time := start_time s;
     domain_metrics := domain_metrics s |}.

Definition incr_passed (s : SimulatorStats) : SimulatorStats :=
  {| total_packets := total_packets s; blocked_sni := blocked_sni s;
     blocked_http := blocked_http s; blocked_quic := blocked_quic s;
     passed := passed s + 1; start_time := start_time s;
     domain_metrics := domain_metrics s |}.

Definition set_domain_metrics (f : gmap string DomainMetrics -> gmap string DomainMetrics)
  (s : SimulatorStats) : SimulatorStats :=
  {| total_packets := total_packets s; blocked_sni := blocked_sni s;
     blocked_http := blocked_http s; blocked_quic := blocked_quic s;
     passed := passed s; start_time := start_time s;
     domain_metrics := f (domain_metrics s) |}.

(** *** What scapy hands over

    [IP(packet.get_payload())] as the code looks at it: the addresses,
    the transport layer ([haslayer(TCP)], [haslayer(UDP)]) and the
    [Raw] layer if there is one. *)

Record TCP : Type := {
  tcp_sport : Z;
  tcp_dport : Z;
  tcp_seq : Z;
  tcp_ack : option Z
}.

Record UDP : Type := {
  udp_sport : Z;
  udp_dport : Z
}.

Inductive Transport : Type :=
  | HasTCP (tcp : TCP)
  | HasUDP (udp : UDP)
  | NoTransport.

Record IP : Type := {
  ip_src : string;
  ip_dst : string;
  transport : Transport;
  raw_load : option bytes
}.

(** One intercepted packet together with what the outside world does
    while it is processed: the result of [IP(packet.get_payload())]
    (which may raise), whether scapy's [send] raises, the reading of
    [datetime.now().isoformat()], and the delay in seconds from which
    on the platform's [time.sleep] refuses to wait. *)
Record Packet : Type := {
  get_payload_IP : exc IP;
  send_raises : bool;
  now : string;
  sleep_limit : Q
}.

(** *** Effects *)

Inductive Verdict : Type := Accept | Drop.

Record Segment : Type := {
  seg_src : string;
  seg_dst : string;
  seg_sport : Z;
  seg_dport : Z;
  seg_seq : Z;
  seg_ack : Z;
  seg_flags : string
}.

(** The observable actions of the packet path, in the order in which
    they happen.  [logger.debug] lines are left out. *)
Inductive Event : Type :=
  | EvVerdict (v : Verdict)
  | EvSend (seg : Segment)
  | EvSleep (secs : PyFloat)
  | EvLogBlock (block_type : string) (src dst : string * Z)
               (domain : option string) (m : BlockMode)
  | EvLogError (e : exn).

(** State of the simulator, a trace of events, and exceptions.  A
    raise keeps the state changes and the events that came before it,
    as in Python. *)
Definition M (A : Type) : Type :=
  DPISimulator -> exc A * DPISimulator * list Event.

#[global] Instance M_ret : MRet M := fun A a self => (Ret a, self, []).

#[global] Instance M_bind : MBind M := fun A B k m self =>
  match m self with
  | (Ret a, self', t) =>
      match k a self' with
      | (r, self'', t') => (r, self'', t ++ t')
      end
  | (Raise e, self', t) => (Raise e, self', t)
  end.

Definition raise {A} (e : exn) : M A := fun self => (Raise e, self, []).
Definition lift {A} (r : exc A) : M A := fun self => (r, self, []).
Definition get_self : M DPISimulator := fun self => (Ret self, self, []).
Definition modify (f : DPISimulator -> DPISimulator) : M unit :=
  fun self => (Ret tt, f self, []).
Definition emit (ev : Event) : M unit := fun self => (Ret tt, self, [ev]).

(** [try: body except Exception as e: handler] *)
Definition try_catch {A} (body : M A) (handler : exn -> M A) : M A := fun self =>
  match body self with
  | (Ret a, self', t) => (Ret a, self', t)
  | (Raise e, self', t) =>
      match handler e self' with
      | (r, self'', t') => (r, self'', t ++ t')
      end
  end.

(** ** MetricsStore *)

Definition bump_block_type (block_type : string) (bt : gmap string Z) : gmap string Z :=
  <[block_type := (default 0 (bt !! block_type) + 1)%Z]> bt.

Definition metrics_blocked (now : string) (block_type : option string)
  (metrics : DomainMetrics) : DomainMetrics :=
  {| dm_blocked := dm_blocked metrics + 1;
     dm_passed := dm_passed metrics;
     last_blocked := Some now;
     block_types :=
       match block_type with
       | Some (String c bt) => bump_block_type (String c bt) (block_types metrics)
       | _ => block_types metrics
       end |}.

Definition metrics_passed (metrics : DomainMetrics) : DomainMetrics :=
  {| dm_blocked := dm_blocked metrics;
     dm_passed := dm_passed metrics + 1;
     last_blocked := last_blocked metrics;
     block_types := block_types metrics |}.

Definition _update_domain_metrics (now : string) (domain : string) (blocked : bool)
  (block_type : option string) : M unit :=
  self ← get_self;
  (match domain_metrics (stats self) !! domain with
   | None => modify (set_stats (set_domain_metrics (<[domain := DomainMetrics_new]>)))
   | Some _ => mret tt
   end);;
  self ← get_self;
  match domain_metrics (stats self) !! domain with
  | None => raise KeyError
  | Some metrics =>
      let metrics :=
        if blocked then metrics_blocked now block_type metrics
        else metrics_passed metrics in
      modify (set_stats (set_domain_metrics (<[domain := metrics]>)))
  end.

(** ** ActionDispatcher *)

Definition _log_block_event (block_type : string) (src dst : string * Z)
  (domain : option string) : M unit :=
  self ← get_self;
  emit (EvLogBlock block_type src dst domain (mode self)).

(** scapy's [send(rst_packet, verbose=False)] *)
Definition send (raises : bool) (seg : Segment) : M unit :=
  emit (EvSend seg);;
  if raises then raise SendError else mret tt.

Definition _send_rst (raises : bool) (ip_packet : IP) : M unit :=
  try_catch
    (match transport ip_packet with
     | HasTCP tcp =>
         let rst_packet :=
           {| seg_src := ip_dst ip_packet;
              seg_dst := ip_src ip_packet;
              seg_sport := tcp_dport tcp;
              seg_dport := tcp_sport tcp;
              seg_seq := match tcp_ack tcp with
                         | Some a => if (a =? 0)%Z then 0%Z else a
                         | None => 0%Z
                         end;
              seg_ack := (tcp_seq tcp + 1)%Z;
              seg_flags := "RA" |} in
         send raises rst_packet
     | _ => mret tt
     end)
    (fun e => emit (EvLogError e)).

(** The largest delay that CPython can hold at all: [time.sleep]
    converts its argument to a signed 64-bit count of nanoseconds. *)
Definition time_max : Q := (9223372036854775808 # 1000000000)%Q.

(** Whether [time.sleep(secs)] waits.  It raises at once, and waits
    not at all, on nan, on a negative number, on an infinity and on a
    number of [time_max] seconds or more; below [time_max] the
    platform can still refuse (the deadline has to fit its clock), and
    [limit] is the delay from which on it does. *)
Definition sleep_takes (limit : Q) (secs : PyFloat) : bool :=
  match secs with
  | Finite q =>
      Qle_bool 0 q && negb (Qle_bool time_max q) && negb (Qle_bool limit q)
  | Inf | NegInf | NaN => false
  end.

(** [time.sleep(secs)].  [SleepError] stands for the exception raised
    on a delay that is not taken: [ValueError], [OverflowError] or
    [OSError], by value, version and platform. *)
Definition sleep (limit : Q) (secs : PyFloat) : M unit :=
  if sleep_takes limit secs then emit (EvSleep secs) else raise SleepError.

Definition _apply_throttle (limit : Q) : M unit :=
  self ← get_self;
  sleep limit (throttle_delay self).

(** [ip_packet[TCP].sport if ip_packet.haslayer(TCP) else ip_packet[UDP].sport],
    and the same for [dport]; indexing a layer that is not there raises. *)
Definition ports (ip_packet : IP) : M (Z * Z) :=
  match transport ip_packet with
  | HasTCP tcp => mret (tcp_sport tcp, tcp_dport tcp)
  | HasUDP udp => mret (udp_sport udp, udp_dport udp)
  | NoTransport => raise IndexError
  end.

Definition _block_packet (packet : Packet) (ip_packet : IP) (block_type : string)
  (domain : option string) : M unit :=
  sd ← ports ip_packet;
  let src := (ip_src ip_packet, sd.1) in
  let dst := (ip_dst ip_packet, sd.2) in
  _log_block_event block_type src dst domain;;
  _update_domain_metrics (now packet)
    (match domain with Some (String c d) => String c d | _ => "unknown" end)
    true (Some block_type);;
  self ← get_self;
  match mode self with
  | DROP => emit (EvVerdict Drop)
  | RST => _send_rst (send_raises packet) ip_packet;; emit (EvVerdict Drop)
  | MITM => emit (EvVerdict Drop)
  | THROTTLE => _apply_throttle (sleep_limit packet);; emit (EvVerdict Accept)
  end.

(** ** PacketClassifier *)

(** The last two statements of the [try] block. *)
Definition pass_packet : M unit :=
  modify (set_stats incr_passed);;
  emit (EvVerdict Accept).

(** [if sni and self._is_domain_blocked(sni)] and what follows; the
    result tells whether the branch ended in [return]. *)
Definition check_domain (packet : Packet) (ip_packet : IP) (block_type : string)
  (incr : SimulatorStats -> SimulatorStats) (name : option string) : M bool :=
  self ← get_self;
  match name with
  | Some (String c d) =>
      if _is_domain_blocked (blocked_domains self) (String c d) then
        modify (set_stats incr);;
        _block_packet packet ip_packet block_type name;;
        mret true
      else mret false
  | _ => mret false
  end.

Definition process_packet (packet : Packet) : M unit :=
  modify (set_stats incr_total_packets);;
  try_catch
    (ip_packet ← lift (get_payload_IP packet);
     match transport ip_packet with
     | HasTCP tcp =>
         match raw_load ip_packet with
         | Some payload =>
             returned ←
               (if (tcp_dport tcp =? 443)%Z then
                  sni ← lift (_extract_sni payload);
                  check_domain packet ip_packet "SNI" incr_blocked_sni sni
                else mret false);
             if returned : bool then mret tt else
             returned ←
               (if (tcp_dport tcp =? 80)%Z then
                  host ← lift (_extract_http_host payload);
                  check_domain packet ip_packet "HTTP" incr_blocked_http host
                else mret false);
             if returned : bool then mret tt else
             pass_packet
         | None => pass_packet
         end
     | HasUDP udp =>
         match (udp_dport udp =? 443)%Z, raw_load ip_packet with
         | true, Some payload =>
             quic ← lift (_is_quic_initial payload);
             if quic : bool then
               modify (set_stats incr_blocked_quic);;
               _block_packet packet ip_packet "QUIC" None
             else pass_packet
         | _, _ => pass_packet
         end
     | NoTransport => pass_packet
     end)
    (fun e => emit (EvLogError e);; emit (EvVerdict Accept)).

(** ** ControlPlane *)

Inductive Command : Type :=
  | PostMode (new_mode : option string)
  | PostStop
  | PostResetStats (now : string).

(** [APIHandler.do_POST] on a running simulator, as far as it touches
    the simulator. *)
Definition do_POST (c : Command) (self : DPISimulator) : DPISimulator :=
  match c with
  | PostMode (Some (String ch v)) =>
      match BlockMode_of_value (String ch v) with
      | Ret m => set_mode m self
      | Raise _ => self
      end
  | PostMode _ => self
  | PostStop => set_running false self
  | PostResetStats now => set_stats (fun _ => SimulatorStats_new now) self
  end.

(** What happens to a simulator when every packet is processed in one
    step: packets arrive and commands come in, one at a time.  The
    commands that come in while a packet is processed are the matter of
    [Threads] below. *)
Inductive Step : Type :=
  | Intercept (packet : Packet)
  | Control (c : Command).

Definition step (self : DPISimulator) (s : Step) : DPISimulator :=
  match s with
  | Intercept packet => (process_packet packet self).1.2
  | Control c => do_POST c self
  end.

Definition run_steps (self : DPISimulator) (steps : list Step) : DPISimulator :=
  fold_left step steps self.

(** [DPISimulator(...)] with the domain list already loaded. *)
Definition DPISimulator_new (domains : list string) (m : BlockMode) (delay : PyFloat)
  (now : string) : DPISimulator :=
  {| blocked_domains := domains; stats := SimulatorStats_new now; mode := m;
     running := false; mitm_redirect := "127.0.0.1:8080"; throttle_delay := delay |}.

(** The verdicts issued in a trace. *)
Definition verdicts (t : list Event) : list Verdict :=
  omap (fun ev => match ev with EvVerdict v => Some v | _ => None end) t.

(** The segments handed to [send] in a trace. *)
Definition injections (t : list Event) : list Segment :=
  omap (fun ev => match ev with EvSend s => Some s | _ => None end) t.

(** The counter equation of the statistics. *)
Definition counters_balanced (s : SimulatorStats) : Prop :=
  total_packets s = (blocked_sni s + blocked_http s + blocked_quic s + passed s)%Z.

(** ** A TLS ClientHello on the wire

    The serialisation of a ClientHello with a server_name extension,
    used to state what the SNI extractor finds.  One TLS record holds
    one handshake message. *)

Definition u8 (n : nat) : byte := default x00 (Byte.of_nat n).

Definition u16 (n : nat) : bytes := [u8 (n / 256); u8 (n mod 256)].

Definition u24 (n : nat) : bytes :=
  [u8 (n / 256 / 256); u8 ((n / 256) mod 256); u8 (n mod 256)].

(** [s.encode('ascii')] *)
Fixpoint encode_ascii (s : string) : bytes :=
  match s with
  | EmptyString => []
  | String c s' => byte_of_ascii c :: encode_ascii s'
  end.

Fixpoint is_ascii (s : string) : bool :=
  match s with
  | EmptyString => true
  | String c s' => (nat_of_ascii c <? 128) && is_ascii s'
  end.

Record Extension : Type := {
  ext_type : nat;
  ext_data : bytes
}.

Definition encode_ext (e : Extension) : bytes :=
  u16 (ext_type e) ++ u16 (length (ext_data e)) ++ ext_data e.

Definition encode_exts (es : list Extension) : bytes :=
  flat_map encode_ext es.

(** A server_name list with the single entry [host_name(0)]. *)
Definition server_name_data (host : string) : bytes :=
  u16 (3 + length (encode_ascii host)) ++ [x00]
  ++ u16 (length (encode_ascii host)) ++ encode_ascii host.

Definition server_name_ext (host : string) : Extension :=
  {| ext_type := 0; ext_data := server_name_data host |}.

Record ClientHello : Type := {
  record_version : byte * byte;
  client_version : byte * byte;
  random : bytes;
  session_id : bytes;
  cipher_suites : bytes;
  compression_methods : bytes;
  exts_before : list Extension;
  server_name : string;
  exts_after : list Extension
}.

Definition encode_extensions (ch : ClientHello) : bytes :=
  encode_exts (exts_before ch)
  ++ encode_ext (server_name_ext (server_name ch))
  ++ encode_exts (exts_after ch).

Definition encode_hello (ch : ClientHello) : bytes :=
  [(client_version ch).1; (client_version ch).2]
  ++ random ch
  ++ [u8 (length (session_id ch))] ++ session_id ch
  ++ u16 (length (cipher_suites ch)) ++ cipher_suites ch
  ++ [u8 (length (compression_methods ch))] ++ compression_methods ch
  ++ u16 (length (encode_extensions ch)) ++ encode_extensions ch.

Definition encode_handshake (ch : ClientHello) : bytes :=
  [x01] ++ u24 (length (encode_hello ch)) ++ encode_hello ch.

Definition encode_record (ch : ClientHello) : bytes :=
  [x16; (record_version ch).1; (record_version ch).2]
  ++ u16 (length (encode_handshake ch)) ++ encode_handshake ch.

(** Every length fits the field that carries it, no extension before
    server_name has its type code, and the host name is ASCII. *)
Definition well_formed (ch : ClientHello) : Prop :=
  length (random ch) = 32
  ∧ length (session_id ch) < 256
  ∧ length (cipher_suites ch) < 256 * 256
  ∧ length (compression_methods ch) < 256
  ∧ Forall (fun e => ext_type e ≠ 0 ∧ ext_type e < 256 * 256
                     ∧ length (ext_data e) < 256 * 256) (exts_before ch)
  ∧ length (encode_extensions ch) < 256 * 256
  ∧ is_ascii (server_name ch) = true.

(** The offset just past the last byte of the host name. *)
Definition hostname_end (ch : ClientHello) : nat :=
  43 + (1 + length (session_id ch)) + (2 + length (cipher_suites ch))
  + (1 + length (compression_methods ch)) + 2
  + length (encode_exts (exts_before ch)) + 4 + 2 + 1 + 2
  + length (encode_ascii (server_name ch)).

(** [rest] is what [payload] holds from offset [off] on. *)
Definition at_offset (payload : bytes) (off : nat) (rest : bytes) : Prop :=
  exists pre, payload = pre ++ rest /\ length pre = off.

(** ** The packet path in closed form

    Definitions used to describe the outcome of [process_packet]
    without the monad; [process_packet_run] proves them equal. *)

(** What [process_packet] decides about a parsed packet: the block
    type, the counter to bump and the domain handed to
    [_block_packet], or [None] when the packet is let through. *)
Definition name_hit (B : list string) (block_type : string)
  (incr : SimulatorStats -> SimulatorStats) (name : exc (option string))
  : option (string * (SimulatorStats -> SimulatorStats) * option string) :=
  match name with
  | Ret (Some (String c d)) =>
      if _is_domain_blocked B (String c d)
      then Some (block_type, incr, Some (String c d))
      else None
  | _ => None
  end.

Definition classify (B : list string) (ip_packet : IP)
  : option (string * (SimulatorStats -> SimulatorStats) * option string) :=
  match transport ip_packet, raw_load ip_packet with
  | HasTCP tcp, Some payload =>
      match (if (tcp_dport tcp =? 443)%Z
             then name_hit B "SNI" incr_blocked_sni (_extract_sni payload)
             else None) with
      | Some hit => Some hit
      | None =>
          if (tcp_dport tcp =? 80)%Z
          then name_hit B "HTTP" incr_blocked_http (_extract_http_host payload)
          else None
      end
  | HasUDP udp, Some payload =>
      if (udp_dport udp =? 443)%Z then
        match _is_quic_initial payload with
        | Ret true => Some ("QUIC", incr_blocked_quic, None)
        | _ => None
        end
      else None
  | _, _ => None
  end.

Definition metrics_key (domain : option string) : string :=
  match domain with
  | Some (String c d) => String c d
  | _ => "unknown"
  end.

(** The statistics after [_update_domain_metrics(key, blocked=True, block_type)]. *)
Definition record_block (now key block_type : string) (s : SimulatorStats)
  : SimulatorStats :=
  set_domain_metrics
    (fun dm => <[key := metrics_blocked now (Some block_type)
                          (default DomainMetrics_new (dm !! key))]> dm) s.

Definition rst_for (ip_packet : IP) (tcp : TCP) : Segment :=
  {| seg_src := ip_dst ip_packet;
     seg_dst := ip_src ip_packet;
     seg_sport := tcp_dport tcp;
     seg_dport := tcp_sport tcp;
     seg_seq := match tcp_ack tcp with
                | Some a => if (a =? 0)%Z then 0%Z else a
                | None => 0%Z
                end;
     seg_ack := (tcp_seq tcp + 1)%Z;
     seg_flags := "RA" |}.

(** The events of the mode dispatch of [_block_packet], the handler of
    [process_packet] included. *)
Definition action_trace (m : BlockMode) (limit : Q) (delay : PyFloat) (raises : bool)
  (ip_packet : IP) : list Event :=
  match m with
  | DROP | MITM => [EvVerdict Drop]
  | RST =>
      match transport ip_packet with
      | HasTCP tcp =>
          EvSend (rst_for ip_packet tcp)
          :: (if raises then [EvLogError SendError] else []) ++ [EvVerdict Drop]
      | _ => [EvVerdict Drop]
      end
  | THROTTLE =>
      if sleep_takes limit delay then [EvSleep delay; EvVerdict Accept]
      else [EvLogError SleepError; EvVerdict Accept]
  end.

Definition endpoints (ip_packet : IP) : (string * Z) * (string * Z) :=
  match transport ip_packet with
  | HasTCP tcp => ((ip_src ip_packet, tcp_sport tcp), (ip_dst ip_packet, tcp_dport tcp))
  | HasUDP udp => ((ip_src ip_packet, udp_sport udp), (ip_dst ip_packet, udp_dport udp))
  | NoTransport => ((ip_src ip_packet, 0%Z), (ip_dst ip_packet, 0%Z))
  end.

Definition process_packet_result (packet : Packet) (self : DPISimulator)
  : exc unit * DPISimulator * list Event :=
  let counted := set_stats incr_total_packets self in
  match get_payload_IP packet with
  | Raise e => (Ret tt, counted, [EvLogError e; EvVerdict Accept])
  | Ret ip_packet =>
      match classify (blocked_domains self) ip_packet with
      | None => (Ret tt, set_stats incr_passed counted, [EvVerdict Accept])
      | Some (block_type, incr, domain) =>
          (Ret tt,
           set_stats (fun s => record_block (now packet) (metrics_key domain)
                                 block_type (incr s)) counted,
           EvLogBlock block_type (endpoints ip_packet).1 (endpoints ip_packet).2
             domain (mode self)
           :: action_trace (mode self) (sleep_limit packet) (throttle_delay self)
                (send_raises packet) ip_packet)
      end
  end.

(** The outcome of the mode dispatch of [_block_packet] itself. *)
Definition dispatch_result (m : BlockMode) (limit : Q) (delay : PyFloat) (raises : bool)
  (ip_packet : IP) : exc unit * list Event :=
  match m with
  | DROP | MITM => (Ret tt, [EvVerdict Drop])
  | RST =>
      (Ret tt,
       match transport ip_packet with
       | HasTCP tcp =>
           EvSend (rst_for ip_packet tcp)
           :: (if raises then [EvLogError SendError] else []) ++ [EvVerdict Drop]
       | _ => [EvVerdict Drop]
       end)
  | THROTTLE =>
      if sleep_takes limit delay then (Ret tt, [EvSleep delay; EvVerdict Accept])
      else (Raise SleepError, [])
  end.

(** The packets counted as blocked, whatever the protocol. *)
Definition blocked_count (s : SimulatorStats) : Z :=
  (blocked_sni s + blocked_http s + blocked_quic s)%Z.

(** The seconds that a call of [time.sleep] that returned has waited. *)
Definition seconds (secs : PyFloat) : Q :=
  match secs with
  | Finite q => q
  | Inf | NegInf | NaN => 0%Q
  end.

(** The time slept in a trace before its first verdict. *)
Fixpoint slept_before_verdict (t : list Event) : Q :=
  match t with
  | [] => 0%Q
  | EvVerdict _ :: _ => 0%Q
  | EvSleep secs :: t' => (seconds secs + slept_before_verdict t')%Q
  | _ :: t' => slept_before_verdict t'
  end.

(** The step is a command, or a packet that scapy parses. *)
Definition parses (s : Step) : Prop :=
  match s with
  | Intercept packet => exists ip_packet, get_payload_IP packet = Ret ip_packet
  | Control _ => True
  end.

(** No per-domain record has counted a passed packet. *)
Definition no_domain_passed (s : SimulatorStats) : Prop :=
  map_Forall (fun _ metrics => dm_passed metrics = 0%Z) (domain_metrics s).

(** The three components of a run of the packet path. *)
Definition result_of {A} (x : exc A * DPISimulator * list Event) : exc A := x.1.1.
Definition state_of {A} (x : exc A * DPISimulator * list Event) : DPISimulator := x.1.2.
Definition trace_of {A} (x : exc A * DPISimulator * list Event) : list Event := x.2.

(** Every character of [s] satisfies [f]. *)
Fixpoint string_forall (f : ascii -> bool) (s : string) : bool :=
  match s with
  | EmptyString => true
  | String c s' => f c && string_forall f s'
  end.

(** [s] is at its end or goes on with CR or LF. *)
Definition at_line_end (s : string) : bool :=
  match s with
  | EmptyString => true
  | String c _ => is_crlf c
  end.

(** ** Sample traffic *)

Definition crlf : string := String "013" (String "010" EmptyString).

(** An HTTP request for [Example.com:8080]. *)
Definition sample_http_request : bytes :=
  encode_ascii ("GET /index.html HTTP/1.1" ++ crlf ++ "Host: Example.com:8080"
                ++ crlf ++ "Accept: */*" ++ crlf ++ crlf).

(** A TCP segment to port 80 carrying [sample_http_request]. *)
Definition sample_http_packet : IP :=
  {| ip_src := "10.0.0.2"; ip_dst := "93.184.216.34";
     transport := HasTCP {| tcp_sport := 50000; tcp_dport := 80;
                            tcp_seq := 1000; tcp_ack := Some 2000%Z |};
     raw_load := Some sample_http_request |}.

(** A QUIC version 1 Initial packet header, as far as the detector reads it. *)
Definition sample_quic_initial : bytes := [xc3; x00; x00; x00; x01; x08].

(** A UDP datagram to port 443 carrying [sample_quic_initial]. *)
Definition sample_quic_packet : IP :=
  {| ip_src := "10.0.0.2"; ip_dst := "93.184.216.34";
     transport := HasUDP {| udp_sport := 50001; udp_dport := 443 |};
     raw_load := Some sample_quic_initial |}.

(** A ClientHello for [example.com] with a supported_groups extension
    before server_name and an ALPN extension after it. *)
Definition sample_client_hello : ClientHello :=
  {| record_version := (x03, x01);
     client_version := (x03, x03);
     random := repeat x2a 32;
     session_id := [];
     cipher_suites := [x13; x01; x13; x02];
     compression_methods := [x00];
     exts_before := [ {| ext_type := 10; ext_data := [x00; x02; x00; x1d] |} ];
     server_name := "example.com";
     exts_after := [ {| ext_type := 16; ext_data := [x00; x03; x02; x68; x32] |} ] |}.

Definition intercepted (ip_packet : IP) (raises : bool) : Packet :=
  {| get_payload_IP := Ret ip_packet; send_raises := raises;
     now := "2024-01-01T00:00:01"; sleep_limit := time_max |}.

Definition sample_simulator (m : BlockMode) : DPISimulator :=
  DPISimulator_new ["example.com"] m (Finite 2) "2024-01-01T00:00:00".

(** ** Further operations of the simulator *)


(** [s.add(x)] on a set kept as a list without repetitions. *)
Definition set_add (x : string) (s : list string) : list string :=
  if existsb (String.eqb x) s then s else s ++ [x].

(** The loop of [_load_domains] over the lines of the file, which
    exists and is ASCII text; each line comes with its line end, which
    [strip] removes. *)
Fixpoint load_lines (lines : list string) (blocked_domains : list string)
  : list string :=
  match lines with
  | [] => blocked_domains
  | line :: lines' =>
      let line := strip line in
      match line with
      | String _ _ =>
          if negb (startswith line "#")
          then load_lines lines' (set_add (lower line) blocked_domains)
          else load_lines lines' blocked_domains
      | EmptyString => load_lines lines' blocked_domains
      end
  end.

(** [_load_domains] from the empty set of [__init__].  The file is
    read as text, and [strip] and [lower] above are those of Python on
    ASCII text only: the loader is modelled on files of ASCII text and
    has no value here on others. *)
Definition _load_domains (lines : list string) : option (list string) :=
  if forallb is_ascii lines then Some (load_lines lines []) else None.

(** What [data.get('mode')] gives on the parsed body, by the cases
    that [do_POST] tells apart. *)
Inductive ModeEntry : Type :=
  | NoMode
      (* no member ['mode'], or a falsy one: null, false, 0, [], {} *)
  | ModeText (v : string)
      (* a string of ASCII text, falsy when empty *)
  | ModeOther.
      (* any other value: true, a number that is not 0, a list or an
         object that is not empty, a string that is not ASCII text *)

(** What [do_POST] makes of the request body up to [json.loads]. *)
Inductive Body : Type :=
  | Unreadable (e : exn)
      (* [Content-Length] is not a number ([ValueError]) or the bytes
         are not UTF-8 ([UnicodeDecodeError]): raised before the [try] *)
  | NotJson
      (* [json.loads] raises [JSONDecodeError] *)
  | NotObject
      (* JSON, but not an object: a list, a string, a number, a
         boolean or null *)
  | Object (entry : ModeEntry).

(** The answer of a handler: a status code, or none when the handler
    raised, which the server logs before it closes the connection. *)
Inductive Response : Type :=
  | Answer (status : nat)
  | NoAnswer (e : exn).

(** [APIHandler.do_POST] on a running simulator; [now] is what the
    clock reads if new statistics are created. *)
Definition do_POST_request (path : string) (body : Body) (now : string)
  (self : DPISimulator) : Response * DPISimulator :=
  match body with
  | Unreadable e => (NoAnswer e, self)
  | NotJson => (Answer 400, self)
  | NotObject | Object _ =>
      if String.eqb path "/mode" then
        match body with
        | Object (ModeText (String c v)) =>
            match BlockMode_of_value (String c v) with
            | Ret m => (Answer 200, set_mode m self)
            | Raise _ => (Answer 400, self)
            end
        | Object ModeOther => (Answer 400, self)
        | Object _ => (Answer 400, self)
        | _ => (NoAnswer AttributeError, self)
        end
      else if String.eqb path "/stop" then (Answer 200, set_running false self)
      else if String.eqb path "/reset-stats" then
        (Answer 200, set_stats (fun _ => SimulatorStats_new now) self)
      else (Answer 404, self)
  end.

(** The command that a request amounts to, if it has any effect. *)
Definition request_command (path : string) (body : Body) (now : string)
  : option Command :=
  match body with
  | Unreadable _ | NotJson => None
  | NotObject | Object _ =>
      if String.eqb path "/mode" then
        match body with
        | Object (ModeText v) => Some (PostMode (Some v))
        | Object _ => Some (PostMode None)
        | _ => None
        end
      else if String.eqb path "/stop" then Some PostStop
      else if String.eqb path "/reset-stats" then Some (PostResetStats now)
      else None
  end.


(** The sum of the [blocked] counts of the per-domain records. *)
Definition domains_blocked (dm : gmap string DomainMetrics) : Z :=
  map_fold (fun _ metrics acc => (dm_blocked metrics + acc)%Z) 0%Z dm.

(** The sum of the counts of a [block_types] histogram. *)
Definition histogram_total (bt : gmap string Z) : Z :=
  map_fold (fun _ n acc => (n + acc)%Z) 0%Z bt.

(** The packets of a run that came after its last reset, and those
    among them on which the parse raised. *)
Fixpoint packets_since_reset (steps : list Step) (acc : Z) : Z :=
  match steps with
  | [] => acc
  | Intercept _ :: steps' => packets_since_reset steps' (acc + 1)%Z
  | Control (PostResetStats _) :: steps' => packets_since_reset steps' 0%Z
  | Control _ :: steps' => packets_since_reset steps' acc
  end.

Fixpoint failures_since_reset (steps : list Step) (acc : Z) : Z :=
  match steps with
  | [] => acc
  | Intercept packet :: steps' =>
      match get_payload_IP packet with
      | Raise _ => failures_since_reset steps' (acc + 1)%Z
      | Ret _ => failures_since_reset steps' acc
      end
  | Control (PostResetStats _) :: steps' => failures_since_reset steps' 0%Z
  | Control _ :: steps' => failures_since_reset steps' acc
  end.

(** The sleeps of a trace. *)
Definition sleeps (t : list Event) : list PyFloat :=
  omap (fun ev => match ev with EvSleep secs => Some secs | _ => None end) t.

(** [pat] occurs in [s], letter case apart. *)
Fixpoint occurs_ci (pat s : string) : bool :=
  match re_tag pat s with
  | Some _ => true
  | None =>
      match s with
      | EmptyString => false
      | String _ s' => occurs_ci pat s'
      end
  end.

(** A character that may stand in a host name as the Host extractor
    returns it unchanged: no white space, no colon. *)
Definition host_char (c : ascii) : bool :=
  negb (is_space c) && negb (Ascii.eqb c ":").

(** ** The packet thread and the API thread

    [run] starts [_start_api_server] on a thread of its own, and
    [do_POST] there writes [mode], [running] and [stats] of the
    simulator, under no lock, while the main thread is inside
    [process_packet].  The interpreter switches threads between two
    bytecodes, so the reads and writes of the two threads interleave.
    Below the packet path is cut into its reads and writes of the
    shared simulator, and the calls of the API thread are let in
    before each of them.  An augmented assignment such as
    [self.stats.passed += 1] is one write: it loads [self.stats] once,
    and only the packet thread writes the counters. *)

(** [metrics.blocked += 1], [metrics.last_blocked = now] and
    [metrics.block_types[block_type] += 1], one by one. *)
Definition dm_incr_blocked (metrics : DomainMetrics) : DomainMetrics :=
  {| dm_blocked := dm_blocked metrics + 1; dm_passed := dm_passed metrics;
     last_blocked := last_blocked metrics; block_types := block_types metrics |}.

Definition dm_set_last_blocked (now : string) (metrics : DomainMetrics) : DomainMetrics :=
  {| dm_blocked := dm_blocked metrics; dm_passed := dm_passed metrics;
     last_blocked := Some now; block_types := block_types metrics |}.

Definition dm_bump_block_type (block_type : string) (metrics : DomainMetrics)
  : DomainMetrics :=
  {| dm_blocked := dm_blocked metrics; dm_passed := dm_passed metrics;
     last_blocked := last_blocked metrics;
     block_types := bump_block_type block_type (block_types metrics) |}.

Module Threads.

(** The simulator as both threads see it.  [stats_id] tells the
    [SimulatorStats] objects apart: a reset puts a new object in
    place, and a reference taken before it still points to the old
    one, which nobody reads any more. *)
Record Shared : Type := {
  sim : DPISimulator;
  stats_id : nat
}.

(** The packet thread as a sequence of reads and writes of the shared
    simulator and of events; between any two of the reads and writes
    the other thread may run. *)
Inductive Prog (A : Type) : Type :=
  | Done (r : exc A)
  | Act (a : Shared -> Shared) (k : Prog A)
  | Read (k : Shared -> Prog A)
  | Emit (ev : Event) (k : Prog A).
Arguments Done {A} r.
Arguments Act {A} a k.
Arguments Read {A} k.
Arguments Emit {A} ev k.

Fixpoint bind {A B} (p : Prog A) (f : A -> Prog B) : Prog B :=
  match p with
  | Done (Ret a) => f a
  | Done (Raise e) => Done (Raise e)
  | Act a k => Act a (bind k f)
  | Read k => Read (fun h => bind (k h) f)
  | Emit ev k => Emit ev (bind k f)
  end.

#[global] Instance Prog_ret : MRet Prog := fun A a => Done (Ret a).
#[global] Instance Prog_bind : MBind Prog := fun A B f p => bind p f.

(** [try: body except Exception as e: handler] *)
Fixpoint try_catch {A} (body : Prog A) (handler : exn -> Prog A) : Prog A :=
  match body with
  | Done (Ret a) => Done (Ret a)
  | Done (Raise e) => handler e
  | Act a k => Act a (try_catch k handler)
  | Read k => Read (fun h => try_catch (k h) handler)
  | Emit ev k => Emit ev (try_catch k handler)
  end.

Definition raise {A} (e : exn) : Prog A := Done (Raise e).
Definition lift {A} (r : exc A) : Prog A := Done r.
Definition read : Prog Shared := Read (fun h => Done (Ret h)).
Definition emit (ev : Event) : Prog unit := Emit ev (Done (Ret tt)).

(** A write through [self]: [self.stats] is whatever object is in
    place when the statement runs. *)
Definition write (f : DPISimulator -> DPISimulator) : Prog unit :=
  Act (fun h => {| sim := f (sim h); stats_id := stats_id h |}) (Done (Ret tt)).

(** A write through a reference into the statistics object [id]: it
    shows in the simulator only while that object is still in place. *)
Definition write_object (id : nat) (f : SimulatorStats -> SimulatorStats) : Prog unit :=
  Act (fun h => if stats_id h =? id
                then {| sim := set_stats f (sim h); stats_id := stats_id h |}
                else h)
      (Done (Ret tt)).

Definition update_record (domain : string) (f : DomainMetrics -> DomainMetrics)
  : SimulatorStats -> SimulatorStats :=
  set_domain_metrics (alter f domain).

Definition _update_domain_metrics (now : string) (domain : string) (blocked : bool)
  (block_type : option string) : Prog unit :=
  h ← read;
  (match domain_metrics (stats (sim h)) !! domain with
   | None => write (set_stats (set_domain_metrics (<[domain := DomainMetrics_new]>)))
   | Some _ => mret tt
   end);;
  h ← read;
  match domain_metrics (stats (sim h)) !! domain with
  | None => raise KeyError
  | Some _ =>
      let metrics := write_object (stats_id h) in
      if blocked then
        metrics (update_record domain dm_incr_blocked);;
        metrics (update_record domain (dm_set_last_blocked now));;
        match block_type with
        | Some (String c bt) =>
            metrics (update_record domain (dm_bump_block_type (String c bt)))
        | _ => mret tt
        end
      else metrics (update_record domain metrics_passed)
  end.

Definition _log_block_event (block_type : string) (src dst : string * Z)
  (domain : option string) : Prog unit :=
  h ← read;
  emit (EvLogBlock block_type src dst domain (mode (sim h))).

Definition send (raises : bool) (seg : Segment) : Prog unit :=
  emit (EvSend seg);;
  if raises then raise SendError else mret tt.

Definition _send_rst (raises : bool) (ip_packet : IP) : Prog unit :=
  try_catch
    (match transport ip_packet with
     | HasTCP tcp => send raises (rst_for ip_packet tcp)
     | _ => mret tt
     end)
    (fun e => emit (EvLogError e)).

Definition sleep (limit : Q) (secs : PyFloat) : Prog unit :=
  if sleep_takes limit secs then emit (EvSleep secs) else raise SleepError.

Definition _apply_throttle (limit : Q) : Prog unit :=
  h ← read;
  sleep limit (throttle_delay (sim h)).

Definition ports (ip_packet : IP) : Prog (Z * Z) :=
  match transport ip_packet with
  | HasTCP tcp => mret (tcp_sport tcp, tcp_dport tcp)
  | HasUDP udp => mret (udp_sport udp, udp_dport udp)
  | NoTransport => raise IndexError
  end.

(** The chain [if self.mode == ...: ... elif self.mode == ...:] reads
    [self.mode] anew at every comparison. *)
Definition _block_packet (packet : Packet) (ip_packet : IP) (block_type : string)
  (domain : option string) : Prog unit :=
  sd ← ports ip_packet;
  let src := (ip_src ip_packet, sd.1) in
  let dst := (ip_dst ip_packet, sd.2) in
  _log_block_event block_type src dst domain;;
  _update_domain_metrics (now packet)
    (match domain with Some (String c d) => String c d | _ => "unknown" end)
    true (Some block_type);;
  h ← read;
  match mode (sim h) with
  | DROP => emit (EvVerdict Drop)
  | _ =>
  h ← read;
  match mode (sim h) with
  | RST => _send_rst (send_raises packet) ip_packet;; emit (EvVerdict Drop)
  | _ =>
  h ← read;
  match mode (sim h) with
  | MITM => emit (EvVerdict Drop)
  | _ =>
  h ← read;
  match mode (sim h) with
  | THROTTLE => _apply_throttle (sleep_limit packet);; emit (EvVerdict Accept)
  | _ => emit (EvVerdict Drop)
  end end end end.

Definition pass_packet : Prog unit :=
  write (set_stats incr_passed);;
  emit (EvVerdict Accept).

Definition check_domain (packet : Packet) (ip_packet : IP) (block_type : string)
  (incr : SimulatorStats -> SimulatorStats) (name : option string) : Prog bool :=
  match name with
  | Some (String c d) =>
      h ← read;
      if _is_domain_blocked (blocked_domains (sim h)) (String c d) then
        write (set_stats incr);;
        _block_packet packet ip_packet block_type name;;
        mret true
      else mret false
  | _ => mret false
  end.

Definition process_packet (packet : Packet) : Prog unit :=
  write (set_stats incr_total_packets);;
  try_catch
    (ip_packet ← lift (get_payload_IP packet);
     match transport ip_packet with
     | HasTCP tcp =>
         match raw_load ip_packet with
         | Some payload =>
             returned ←
               (if (tcp_dport tcp =? 443)%Z then
                  sni ← lift (_extract_sni payload);
                  check_domain packet ip_packet "SNI" incr_blocked_sni sni
                else mret false);
             if returned : bool then mret tt else
             returned ←
               (if (tcp_dport tcp =? 80)%Z then
                  host ← lift (_extract_http_host payload);
                  check_domain packet ip_packet "HTTP" incr_blocked_http host
                else mret false);
             if returned : bool then mret tt else
             pass_packet
         | None => pass_packet
         end
     | HasUDP udp =>
         match (udp_dport udp =? 443)%Z, raw_load ip_packet with
         | true, Some payload =>
             quic ← lift (_is_quic_initial payload);
             if quic : bool then
               write (set_stats incr_blocked_quic);;
               _block_packet packet ip_packet "QUIC" None
             else pass_packet
         | _, _ => pass_packet
         end
     | NoTransport => pass_packet
     end)
    (fun e => emit (EvLogError e);; emit (EvVerdict Accept)).

(** The API thread handles one command. *)
Definition call (c : Command) (h : Shared) : Shared :=
  {| sim := do_POST c (sim h);
     stats_id := match c with
                 | PostResetStats _ => S (stats_id h)
                 | _ => stats_id h
                 end |}.

Definition calls_run (cs : list Command) (h : Shared) : Shared :=
  fold_left (fun h c => call c h) cs h.

(** The packet thread runs [p] while the API thread handles the
    commands [calls n] just before the [n]-th read or write of [p].
    The result comes with the number of the next read or write. *)
Fixpoint exec {A} (p : Prog A) (calls : nat -> list Command) (n : nat) (h : Shared)
  : exc A * Shared * list Event * nat :=
  match p with
  | Done r => (r, h, [], n)
  | Act a k => exec k calls (S n) (a (calls_run (calls n) h))
  | Read k =>
      let h := calls_run (calls n) h in
      exec (k h) calls (S n) h
  | Emit ev k =>
      match exec k calls n h with
      | (r, h', t, n') => (r, h', ev :: t, n')
      end
  end.

(** No call comes in. *)
Definition alone : nat -> list Command := fun _ => [].


(** Every write of [p] keeps [P]. *)
Fixpoint acts_keep {A} (P : Shared -> Prop) (p : Prog A) : Prop :=
  match p with
  | Done _ => True
  | Act a k => (forall h, P h -> P (a h)) /\ acts_keep P k
  | Read k => forall h, acts_keep P (k h)
  | Emit _ k => acts_keep P k
  end.

(** What happens to the simulator: a packet is processed while calls
    come in, or a call comes in between two packets. *)
Inductive Move : Type :=
  | Process (packet : Packet) (calls : nat -> list Command)
  | Call (c : Command).

Definition move (h : Shared) (m : Move) : Shared :=
  match m with
  | Process packet calls => (exec (process_packet packet) calls 0 h).1.1.2
  | Call c => call c h
  end.

Definition run (h : Shared) (moves : list Move) : Shared :=
  fold_left move moves h.

(** The run without the calls that come in while a packet is
    processed. *)
Definition sequential (m : Move) : Step :=
  match m with
  | Process packet _ => Intercept packet
  | Call c => Control c
  end.

Definition is_reset (c : Command) : bool :=
  match c with
  | PostResetStats _ => true
  | _ => false
  end.

(** No reset comes in while a packet is processed. *)
Definition resets_between_packets (m : Move) : Prop :=
  match m with
  | Process _ calls => forall n, forallb (fun c => negb (is_reset c)) (calls n) = true
  | Call _ => True
  end.

(** [DPISimulator(...)], shared. *)
Definition new (domains : list string) (m : BlockMode) (delay : PyFloat)
  (now : string) : Shared :=
  {| sim := DPISimulator_new domains m delay now; stats_id := 0 |}.

End Threads.

(** ** Invariants of the shared state *)


(** [P] is kept by every call of the API thread. *)
Definition stable (P : Threads.Shared -> Prop) : Prop :=
  forall c h, P h -> P (Threads.call c h).

(** Started where [P] holds, [p] ends where [Q] holds if it returns and
    where [E] holds if it raises, whatever calls come in on the way. *)
Definition ends_in {A} (P : Threads.Shared -> Prop) (p : Threads.Prog A)
  (Q E : Threads.Shared -> Prop) : Prop :=
  forall calls n h, P h ->
    match (Threads.exec p calls n h).1.1.1 with
    | Ret _ => Q (Threads.exec p calls n h).1.1.2
    | Raise _ => E (Threads.exec p calls n h).1.1.2
    end.

(** A per-domain record that has counted as many blocks as it has
    block types, at least one, and has the time of the last. *)
Definition record_ok (metrics : DomainMetrics) : Prop :=
  (1 <= dm_blocked metrics)%Z
  /\ is_Some (last_blocked metrics)
  /\ histogram_total (block_types metrics) = dm_blocked metrics.

(** The states of a record while [_update_domain_metrics] writes it:
    before (new or complete), after [blocked += 1], after
    [last_blocked = now], and complete again. *)
Definition record_stage (stage : nat) (metrics : DomainMetrics) : Prop :=
  match stage with
  | 0 => metrics = DomainMetrics_new \/ record_ok metrics
  | 1 => (1 <= dm_blocked metrics)%Z
         /\ (histogram_total (block_types metrics) + 1)%Z = dm_blocked metrics
  | 2 => (1 <= dm_blocked metrics)%Z
         /\ (histogram_total (block_types metrics) + 1)%Z = dm_blocked metrics
         /\ is_Some (last_blocked metrics)
  | _ => record_ok metrics
  end.

(** All records are complete. *)
Definition records_ok (h : Threads.Shared) : Prop :=
  map_Forall (fun _ => record_ok) (domain_metrics (stats (Threads.sim h))).

(** All records but that of [key] are complete, and that of [key], if
    there is one, is at [stage]. *)
Definition records_ok_but (key : string) (stage : nat) (h : Threads.Shared) : Prop :=
  forall k metrics,
    domain_metrics (stats (Threads.sim h)) !! k = Some metrics ->
    if decide (k = key) then record_stage stage metrics else record_ok metrics.

(** While the record of [key] in the statistics object [id] is being
    written: either that object is still in place, with the record at
    [stage], or a newer one is, with complete records only. *)
Definition writing (id : nat) (key : string) (stage : nat) (h : Threads.Shared) : Prop :=
  (Threads.stats_id h = id
   /\ is_Some (domain_metrics (stats (Threads.sim h)) !! key)
   /\ records_ok_but key stage h)
  \/ (id < Threads.stats_id h /\ records_ok h).

(** * Properties *)

(** ** DomainMatcher *)

Lemma endswith_spec (s p : string) :
  endswith s p = true <-> exists pre : string, s = (pre ++ p)%string.
Proof.
  induction s as [|c s IH]; cbn [endswith].
  - rewrite orb_false_r, String.eqb_eq. split.
    + intros <-. now exists "".
    + intros [pre H]. destruct pre; simpl in H; [assumption | discriminate].
  - rewrite orb_true_iff, String.eqb_eq, IH. split.
    + intros [<- | [pre ->]].
      * now exists "".
      * now exists (String c pre).
    + intros [[|c' pre] H]; simpl in H.
      * now left.
      * right. exists pre. now inversion H.
Qed.

Lemma is_domain_blocked_true (B : list string) (d : string) :
  _is_domain_blocked B d = true <->
  In (lower d) B \/ exists b, In b B /\ exists pre : string, lower d = (pre ++ "." ++ b)%string.
Proof.
  unfold _is_domain_blocked.
  destruct (existsb (String.eqb (lower d)) B) eqn:E.
  - split; [intros _ | reflexivity]. left.
    apply existsb_exists in E as (x & Hx & Heq).
    apply String.eqb_eq in Heq. now subst.
  - rewrite existsb_exists. split.
    + intros (b & Hb & He). right. exists b. split; [assumption|].
      now apply endswith_spec.
    + intros [Hin | (b & Hb & He)].
      * assert (existsb (String.eqb (lower d)) B = true) as E'.
        { apply existsb_exists. exists (lower d). split; [assumption|].
          apply String.eqb_refl. }
        congruence.
      * exists b. split; [assumption|]. now apply endswith_spec.
Qed.

Lemma is_domain_blocked_members (B B' : list string) (d : string) :
  (forall x, In x B <-> In x B') ->
  _is_domain_blocked B d = _is_domain_blocked B' d.
Proof.
  intros Hmem.
  destruct (_is_domain_blocked B d) eqn:E1, (_is_domain_blocked B' d) eqn:E2;
    try reflexivity.
  - apply is_domain_blocked_true in E1.
    assert (_is_domain_blocked B' d = true) as E; [|congruence].
    apply is_domain_blocked_true.
    destruct E1 as [H | (b & Hb & H)]; [left | right].
    + now apply Hmem.
    + exists b. split; [now apply Hmem | assumption].
  - apply is_domain_blocked_true in E2.
    assert (_is_domain_blocked B d = true) as E; [|congruence].
    apply is_domain_blocked_true.
    destruct E2 as [H | (b & Hb & H)]; [left | right].
    + now apply Hmem.
    + exists b. split; [now apply Hmem | assumption].
Qed.

(** C4. [_is_domain_blocked] lower-cases the domain and answers true
    exactly when the lowered domain is a member of the blocklist or
    ends with a dot followed by a member; with "example.com" blocked,
    "sub.example.com" is blocked and "evilexample.com" is not; the
    answer depends on the members of the blocklist only, not on the
    order in which they are visited. *)
Theorem is_domain_blocked_correct :
  (forall (B : list string) (d : string),
      _is_domain_blocked B d = true <->
      In (lower d) B \/ exists b, In b B /\ exists pre : string, lower d = (pre ++ "." ++ b)%string)
  /\ _is_domain_blocked ["example.com"] "sub.example.com" = true
  /\ _is_domain_blocked ["example.com"] "evilexample.com" = false
  /\ (forall (B B' : list string) (d : string),
         (forall x, In x B <-> In x B') ->
         _is_domain_blocked B d = _is_domain_blocked B' d).
Proof.
  split; [exact is_domain_blocked_true|].
  split; [reflexivity|]. split; [reflexivity|].
  exact is_domain_blocked_members.
Qed.

Lemma is_domain_blocked_correct_witness :
  (forall x, In x ["b.org"; "a.com"] <-> In x ["a.com"; "b.org"; "a.com"])
  /\ _is_domain_blocked ["b.org"; "a.com"] "WWW.A.com"
     = _is_domain_blocked ["a.com"; "b.org"; "a.com"] "WWW.A.com".
Proof.
  assert (forall x, In x ["b.org"; "a.com"] <-> In x ["a.com"; "b.org"; "a.com"]) as H.
  { intros x. simpl. tauto. }
  split; [exact H|].
  apply (proj2 (proj2 (proj2 is_domain_blocked_correct))). exact H.
Defined.

(** ** The packet path in closed form *)

Lemma extract_sni_returns (payload : bytes) :
  exists r, _extract_sni payload = Ret r.
Proof.
  unfold _extract_sni, try_except.
  destruct (extract_sni_body payload); eauto.
Qed.

Lemma extract_http_host_returns (payload : bytes) :
  exists r, _extract_http_host payload = Ret r.
Proof.
  unfold _extract_http_host, try_except.
  destruct (extract_http_host_body payload); eauto.
Qed.

Lemma is_quic_initial_returns (payload : bytes) :
  exists b, _is_quic_initial payload = Ret b.
Proof.
  unfold _is_quic_initial, try_except.
  destruct (is_quic_initial_body payload); eauto.
Qed.

Lemma update_domain_metrics_blocked (now key block_type : string) (self : DPISimulator) :
  _update_domain_metrics now key true (Some block_type) self
  = (Ret tt, set_stats (record_block now key block_type) self, []).
Proof.
  unfold _update_domain_metrics, record_block.
  unfold mbind, M_bind, get_self, modify, mret, M_ret, raise.
  destruct self as [B [tp bs bh bq pa st dm] m r mr td]. cbn.
  destruct (dm !! key) as [metrics|] eqn:E; cbn.
  - rewrite E. unfold set_stats, set_domain_metrics. cbn. rewrite E. reflexivity.
  - rewrite lookup_insert_eq. unfold set_stats, set_domain_metrics. cbn.
    rewrite E, insert_insert_eq. reflexivity.
Qed.

Lemma block_packet_run (packet : Packet) (ip_packet : IP) (block_type : string)
  (domain : option string) (self : DPISimulator) :
  transport ip_packet <> NoTransport ->
  _block_packet packet ip_packet block_type domain self
  = ((dispatch_result (mode self) (sleep_limit packet) (throttle_delay self)
        (send_raises packet) ip_packet).1,
     set_stats (record_block (now packet) (metrics_key domain) block_type) self,
     EvLogBlock block_type (endpoints ip_packet).1 (endpoints ip_packet).2
       domain (mode self)
     :: (dispatch_result (mode self) (sleep_limit packet) (throttle_delay self)
           (send_raises packet) ip_packet).2).
Proof.
  intros Ht. unfold _block_packet, ports, _log_block_event.
  unfold mbind, M_bind, get_self, emit.
  destruct (transport ip_packet) as [tcp|udp|] eqn:Et; [| |contradiction]; cbn;
    rewrite update_domain_metrics_blocked; cbn;
    unfold endpoints, dispatch_result, metrics_key; rewrite Et;
    (destruct (mode self); cbn; try reflexivity;
     [ unfold _send_rst, try_catch, send, mbind, M_bind, emit, raise; rewrite Et; cbn;
       try destruct (send_raises packet); reflexivity
     | unfold _apply_throttle, sleep, mbind, M_bind, get_self, emit, raise; cbn;
       destruct (sleep_takes (sleep_limit packet) (throttle_delay self)); reflexivity ]).
Qed.

Lemma action_trace_dispatch (m : BlockMode) (limit : Q) (delay : PyFloat)
  (raises : bool) (ip_packet : IP) :
  action_trace m limit delay raises ip_packet
  = match dispatch_result m limit delay raises ip_packet with
    | (Ret _, t) => t
    | (Raise e, t) => t ++ [EvLogError e; EvVerdict Accept]
    end.
Proof.
  unfold action_trace, dispatch_result.
  destruct m; try reflexivity. destruct (sleep_takes limit delay); reflexivity.
Qed.

Ltac run_block Et :=
  rewrite block_packet_run by (rewrite Et; discriminate);
  rewrite action_trace_dispatch; cbn;
  match goal with
  | |- context [dispatch_result ?m ?l ?d ?r ?ip] =>
      destruct (dispatch_result m l d r ip) as [[[]|e] t]; cbn;
      rewrite ?app_nil_r; reflexivity
  end.

Lemma process_packet_run (packet : Packet) (self : DPISimulator) :
  process_packet packet self = process_packet_result packet self.
Proof.
  unfold process_packet, process_packet_result, classify, name_hit, check_domain,
    pass_packet, try_catch.
  unfold mbind, M_bind, modify, lift, mret, M_ret, get_self, emit.
  destruct (get_payload_IP packet) as [ip_packet|e]; [|reflexivity].
  destruct (transport ip_packet) as [tcp|udp|] eqn:Et; [| |reflexivity].
  - destruct (raw_load ip_packet) as [payload|]; [|reflexivity].
    destruct (extract_sni_returns payload) as [sni ->].
    destruct (extract_http_host_returns payload) as [host ->].
    destruct (tcp_dport tcp =? 443)%Z.
    + destruct sni as [[|c d]|]; cbn [blocked_domains set_stats].
      2: destruct (_is_domain_blocked (blocked_domains self) (String c d)); [run_block Et|].
      all: destruct (tcp_dport tcp =? 80)%Z; try reflexivity.
      all: destruct host as [[|c' d']|]; cbn [blocked_domains set_stats]; try reflexivity.
      all: destruct (_is_domain_blocked (blocked_domains self) (String c' d'));
        [run_block Et|reflexivity].
    + destruct (tcp_dport tcp =? 80)%Z; [|reflexivity].
      destruct host as [[|c' d']|]; cbn [blocked_domains set_stats]; try reflexivity.
      destruct (_is_domain_blocked (blocked_domains self) (String c' d'));
        [run_block Et|reflexivity].
  - destruct (raw_load ip_packet) as [payload|];
      (destruct (udp_dport udp =? 443)%Z; [|reflexivity]); [|reflexivity].
    destruct (is_quic_initial_returns payload) as [[|] ->]; [|reflexivity].
    run_block Et.
Qed.

Lemma classify_hit (B : list string) (ip_packet : IP) (block_type : string)
  (incr : SimulatorStats -> SimulatorStats) (domain : option string) :
  classify B ip_packet = Some (block_type, incr, domain) ->
  (exists tcp payload c d,
      transport ip_packet = HasTCP tcp /\ raw_load ip_packet = Some payload
      /\ tcp_dport tcp = 443%Z /\ _extract_sni payload = Ret (Some (String c d))
      /\ _is_domain_blocked B (String c d) = true
      /\ block_type = "SNI" /\ incr = incr_blocked_sni /\ domain = Some (String c d))
  \/ (exists tcp payload c d,
      transport ip_packet = HasTCP tcp /\ raw_load ip_packet = Some payload
      /\ tcp_dport tcp = 80%Z /\ _extract_http_host payload = Ret (Some (String c d))
      /\ _is_domain_blocked B (String c d) = true
      /\ block_type = "HTTP" /\ incr = incr_blocked_http /\ domain = Some (String c d))
  \/ (exists udp payload,
      transport ip_packet = HasUDP udp /\ raw_load ip_packet = Some payload
      /\ udp_dport udp = 443%Z /\ _is_quic_initial payload = Ret true
      /\ block_type = "QUIC" /\ incr = incr_blocked_quic /\ domain = None).
Proof.
  unfold classify, name_hit.
  destruct (transport ip_packet) as [tcp|udp|]; [| |discriminate];
    (destruct (raw_load ip_packet) as [payload|]; [|discriminate]).
  - destruct (Z.eqb_spec (tcp_dport tcp) 443) as [E443|_].
    + destruct (_extract_sni payload) as [[[|c d]|]|] eqn:Es.
      2: destruct (_is_domain_blocked B (String c d)) eqn:Eb.
      2: { intros [= <- <- <-]. left. exists tcp, payload, c, d. tauto. }
      all: rewrite E443; cbn; discriminate.
    + destruct (Z.eqb_spec (tcp_dport tcp) 80) as [E80|_]; [|discriminate].
      destruct (_extract_http_host payload) as [[[|c d]|]|] eqn:Eh; try discriminate.
      destruct (_is_domain_blocked B (String c d)) eqn:Eb; [|discriminate].
      intros [= <- <- <-]. right. left. exists tcp, payload, c, d. tauto.
  - destruct (Z.eqb_spec (udp_dport udp) 443) as [E443|_]; [|discriminate].
    destruct (_is_quic_initial payload) as [[|]|] eqn:Eq; try discriminate.
    intros [= <- <- <-]. right. right. exists udp, payload. tauto.
Qed.

Lemma classify_incr (B : list string) (ip_packet : IP) (block_type : string)
  (incr : SimulatorStats -> SimulatorStats) (domain : option string) :
  classify B ip_packet = Some (block_type, incr, domain) ->
  forall s,
    total_packets (incr s) = total_packets s
    /\ passed (incr s) = passed s
    /\ blocked_count (incr s) = (blocked_count s + 1)%Z
    /\ domain_metrics (incr s) = domain_metrics s.
Proof.
  intros H s.
  destruct (classify_hit _ _ _ _ _ H)
    as [(?&?&?&?&_&_&_&_&_&_&->&_) | [(?&?&?&?&_&_&_&_&_&_&->&_) | (?&?&_&_&_&_&_&->&_)]];
    unfold blocked_count; cbn; repeat split; lia.
Qed.

Lemma verdicts_log_block bt src dst dom m (t : list Event) :
  verdicts (EvLogBlock bt src dst dom m :: t) = verdicts t.
Proof. reflexivity. Qed.

Lemma injections_log_block bt src dst dom m (t : list Event) :
  injections (EvLogBlock bt src dst dom m :: t) = injections t.
Proof. reflexivity. Qed.

Lemma verdicts_action_trace (m : BlockMode) (limit : Q) (delay : PyFloat)
  (raises : bool) (ip_packet : IP) :
  verdicts (action_trace m limit delay raises ip_packet)
  = [match m with THROTTLE => Accept | _ => Drop end].
Proof.
  unfold action_trace.
  destruct m; try reflexivity.
  - destruct (transport ip_packet); try reflexivity. destruct raises; reflexivity.
  - destruct (sleep_takes limit delay); reflexivity.
Qed.

Lemma process_packet_raise (packet : Packet) (self : DPISimulator) (e : exn) :
  get_payload_IP packet = Raise e ->
  process_packet packet self
  = (Ret tt, set_stats incr_total_packets self, [EvLogError e; EvVerdict Accept]).
Proof.
  intros H. rewrite process_packet_run. unfold process_packet_result.
  now rewrite H.
Qed.

Lemma process_packet_pass (packet : Packet) (self : DPISimulator) (ip_packet : IP) :
  get_payload_IP packet = Ret ip_packet ->
  classify (blocked_domains self) ip_packet = None ->
  process_packet packet self
  = (Ret tt, set_stats incr_passed (set_stats incr_total_packets self),
     [EvVerdict Accept]).
Proof.
  intros H Hc. rewrite process_packet_run. unfold process_packet_result.
  now rewrite H, Hc.
Qed.

Lemma process_packet_hit (packet : Packet) (self : DPISimulator) (ip_packet : IP)
  (block_type : string) (incr : SimulatorStats -> SimulatorStats)
  (domain : option string) :
  get_payload_IP packet = Ret ip_packet ->
  classify (blocked_domains self) ip_packet = Some (block_type, incr, domain) ->
  process_packet packet self
  = (Ret tt,
     set_stats (fun s => record_block (now packet) (metrics_key domain)
                           block_type (incr s))
       (set_stats incr_total_packets self),
     EvLogBlock block_type (endpoints ip_packet).1 (endpoints ip_packet).2
       domain (mode self)
     :: action_trace (mode self) (sleep_limit packet) (throttle_delay self)
          (send_raises packet) ip_packet).
Proof.
  intros H Hc. rewrite process_packet_run. unfold process_packet_result.
  now rewrite H, Hc.
Qed.

(** ** PacketClassifier *)

(** On a packet that parses, the counter equation is kept. *)
Lemma process_packet_balanced (packet : Packet) (self : DPISimulator) (ip_packet : IP) :
  get_payload_IP packet = Ret ip_packet ->
  counters_balanced (stats self) ->
  counters_balanced (stats (state_of (process_packet packet self))).
Proof.
  intros H Hb. unfold counters_balanced in *.
  destruct (classify (blocked_domains self) ip_packet) as [[[bt incr] dom]|] eqn:Hc.
  - rewrite (process_packet_hit _ _ _ _ _ _ H Hc). cbn.
    destruct (classify_incr _ _ _ _ _ Hc (incr_total_packets (stats self)))
      as (Ht & Hp & Hn & _).
    unfold blocked_count in Hn. rewrite Ht, Hp. cbn in *. lia.
  - rewrite (process_packet_pass _ _ _ H Hc). cbn. lia.
Qed.

(** So is it by the commands, and hence over any run in which every
    packet parses. *)
Lemma run_steps_balanced (steps : list Step) (self : DPISimulator) :
  Forall parses steps ->
  counters_balanced (stats self) ->
  counters_balanced (stats (run_steps self steps)).
Proof.
  intros Hp. revert self. induction Hp as [|s steps Hs _ IH]; intros self Hb;
    [exact Hb|].
  cbn. apply IH. destruct s as [packet|c]; cbn.
  - destruct Hs as [ip_packet H]. exact (process_packet_balanced _ _ _ H Hb).
  - destruct c as [[[|ch v]|]| |t]; cbn; try exact Hb.
    + destruct (BlockMode_of_value (String ch v)); exact Hb.
    + reflexivity.
Qed.

(** A packet whose parsing raises breaks the equation, whatever the
    state: [total_packets] moves and nothing else does. *)
Lemma process_packet_raise_unbalances (packet : Packet) (self : DPISimulator) (e : exn) :
  get_payload_IP packet = Raise e ->
  counters_balanced (stats self) ->
  ~ counters_balanced (stats (state_of (process_packet packet self))).
Proof.
  intros H Hb. rewrite (process_packet_raise _ _ _ H).
  unfold counters_balanced in *. cbn. lia.
Qed.

(** C1. After a packet whose parsing raises, [total_packets] has
    counted the packet and no other counter has: starting from fresh
    statistics, one such packet leaves [total_packets = 1] while
    [blocked_sni + blocked_http + blocked_quic + passed = 0], although
    the packet was accepted. *)
Theorem parse_error_unbalances_counters :
  let self := DPISimulator_new ["example.com"] DROP (Finite 2) "t0" in
  let packet := {| get_payload_IP := Raise ScapyError; send_raises := false;
                   now := "t1"; sleep_limit := time_max |} in
  let run := process_packet packet self in
  counters_balanced (stats self)
  /\ result_of run = Ret tt
  /\ verdicts (trace_of run) = [Accept]
  /\ total_packets (stats (state_of run)) = 1%Z
  /\ (blocked_sni (stats (state_of run)) + blocked_http (stats (state_of run))
      + blocked_quic (stats (state_of run)) + passed (stats (state_of run)) = 0)%Z
  /\ ~ counters_balanced (stats (state_of run)).
Proof.
  cbv zeta. rewrite (process_packet_raise _ _ ScapyError) by reflexivity.
  unfold counters_balanced. cbn. repeat split; try reflexivity. discriminate.
Qed.

(** C2. [process_packet] returns normally on every packet and issues
    exactly one verdict; when parsing the packet raises, that verdict
    is accept. *)
Theorem process_packet_one_verdict (packet : Packet) (self : DPISimulator) :
  result_of (process_packet packet self) = Ret tt
  /\ length (verdicts (trace_of (process_packet packet self))) = 1
  /\ (forall e, get_payload_IP packet = Raise e ->
        verdicts (trace_of (process_packet packet self)) = [Accept]).
Proof.
  destruct (get_payload_IP packet) as [ip_packet|e] eqn:H.
  - destruct (classify (blocked_domains self) ip_packet) as [[[bt incr] dom]|] eqn:Hc.
    + rewrite (process_packet_hit _ _ _ _ _ _ H Hc).
      unfold result_of, trace_of. cbn [fst snd].
      rewrite verdicts_log_block, verdicts_action_trace.
      cbn. repeat split; intros; discriminate.
    + rewrite (process_packet_pass _ _ _ H Hc). cbn. repeat split; intros; discriminate.
  - rewrite (process_packet_raise _ _ _ H). cbn. repeat split.
Qed.

Lemma process_packet_one_verdict_witness :
  verdicts (trace_of (process_packet
    {| get_payload_IP := Raise ScapyError; send_raises := true;
       now := "t1"; sleep_limit := time_max |}
    (DPISimulator_new ["example.com"] RST (Finite 2) "t0"))) = [Accept].
Proof.
  apply (proj2 (proj2 (process_packet_one_verdict
    {| get_payload_IP := Raise ScapyError; send_raises := true;
       now := "t1"; sleep_limit := time_max |}
    (DPISimulator_new ["example.com"] RST (Finite 2) "t0"))) ScapyError).
  reflexivity.
Defined.

(** ** MetricsStore *)

Lemma record_block_no_domain_passed (now key block_type : string) (s : SimulatorStats) :
  no_domain_passed s -> no_domain_passed (record_block now key block_type s).
Proof.
  unfold no_domain_passed, record_block. cbn. intros Hs.
  apply map_Forall_insert_2; [|assumption]. cbn.
  destruct (domain_metrics s !! key) as [metrics|] eqn:E; cbn.
  - exact (Hs _ _ E).
  - reflexivity.
Qed.

Lemma process_packet_no_domain_passed (packet : Packet) (self : DPISimulator) :
  no_domain_passed (stats self) ->
  no_domain_passed (stats (state_of (process_packet packet self))).
Proof.
  intros Hs.
  destruct (get_payload_IP packet) as [ip_packet|e] eqn:H.
  - destruct (classify (blocked_domains self) ip_packet) as [[[bt incr] dom]|] eqn:Hc.
    + rewrite (process_packet_hit _ _ _ _ _ _ H Hc). cbn.
      apply record_block_no_domain_passed. unfold no_domain_passed.
      destruct (classify_incr _ _ _ _ _ Hc (incr_total_packets (stats self)))
        as (_ & _ & _ & ->).
      exact Hs.
    + rewrite (process_packet_pass _ _ _ H Hc). exact Hs.
  - rewrite (process_packet_raise _ _ _ H). exact Hs.
Qed.

Lemma do_POST_no_domain_passed (c : Command) (self : DPISimulator) :
  no_domain_passed (stats self) -> no_domain_passed (stats (do_POST c self)).
Proof.
  intros Hs. destruct c as [[[|ch v]|]| |t]; cbn; try exact Hs.
  - destruct (BlockMode_of_value (String ch v)); exact Hs.
  - apply map_Forall_empty.
Qed.

Lemma run_steps_no_domain_passed (steps : list Step) (self : DPISimulator) :
  no_domain_passed (stats self) -> no_domain_passed (stats (run_steps self steps)).
Proof.
  revert self. induction steps as [|s steps IH]; intros self Hs; [exact Hs|].
  cbn. apply IH. destruct s as [packet|c]; cbn.
  - now apply process_packet_no_domain_passed.
  - now apply do_POST_no_domain_passed.
Qed.

(** C10. Whatever packets are processed and whatever commands come in
    between, from a new simulator on, every record of the per-domain
    map has [passed = 0]. *)
Theorem domain_passed_stays_zero (domains : list string) (m : BlockMode)
  (delay : PyFloat) (t0 : string) (steps : list Step) :
  map_Forall (fun _ metrics => dm_passed metrics = 0%Z)
    (domain_metrics (stats (run_steps (DPISimulator_new domains m delay t0) steps))).
Proof.
  apply run_steps_no_domain_passed. apply map_Forall_empty.
Qed.

(** ** ActionDispatcher *)

Lemma blocked_count_hit (packet : Packet) (self : DPISimulator) (ip_packet : IP) :
  get_payload_IP packet = Ret ip_packet ->
  blocked_count (stats (state_of (process_packet packet self)))
  = (blocked_count (stats self) + 1)%Z ->
  exists hit, classify (blocked_domains self) ip_packet = Some hit.
Proof.
  intros H Hn.
  destruct (classify (blocked_domains self) ip_packet) as [hit|] eqn:Hc; [eauto|].
  rewrite (process_packet_pass _ _ _ H Hc) in Hn.
  unfold blocked_count in Hn. cbn in Hn. lia.
Qed.

Lemma injections_action_trace_rst (limit : Q) (delay : PyFloat) (raises : bool)
  (ip_packet : IP) :
  injections (action_trace RST limit delay raises ip_packet)
  = match transport ip_packet with
    | HasTCP tcp => [rst_for ip_packet tcp]
    | _ => []
    end.
Proof.
  unfold action_trace.
  destruct (transport ip_packet); try reflexivity. destruct raises; reflexivity.
Qed.

(** C5, as the code has it.  In mode RST a blocked packet gets exactly
    one drop verdict; if it has a TCP layer, [send] is called exactly
    once, with a segment whose addresses and ports are those of the
    packet swapped, whose sequence number is the packet's
    acknowledgment number (0 if there is none), whose acknowledgment
    number is the packet's sequence number plus one and whose flags are
    RST+ACK; if it has no TCP layer nothing is sent.  Whether [send]
    raises makes no difference to the verdict. *)
Theorem rst_blocked_packet (packet : Packet) (ip_packet : IP) (self : DPISimulator) :
  mode self = RST ->
  get_payload_IP packet = Ret ip_packet ->
  blocked_count (stats (state_of (process_packet packet self)))
  = (blocked_count (stats self) + 1)%Z ->
  result_of (process_packet packet self) = Ret tt
  /\ verdicts (trace_of (process_packet packet self)) = [Drop]
  /\ match transport ip_packet with
     | HasTCP tcp =>
         exists seg,
           injections (trace_of (process_packet packet self)) = [seg]
           /\ seg_src seg = ip_dst ip_packet /\ seg_dst seg = ip_src ip_packet
           /\ seg_sport seg = tcp_dport tcp /\ seg_dport seg = tcp_sport tcp
           /\ seg_seq seg = default 0%Z (tcp_ack tcp)
           /\ seg_ack seg = (tcp_seq tcp + 1)%Z
           /\ seg_flags seg = "RA"
     | _ => injections (trace_of (process_packet packet self)) = []
     end.
Proof.
  intros Hm H Hn.
  destruct (blocked_count_hit _ _ _ H Hn) as [[[bt incr] dom] Hc].
  rewrite (process_packet_hit _ _ _ _ _ _ H Hc).
  unfold result_of, trace_of. cbn [fst snd]. rewrite Hm.
  rewrite verdicts_log_block, injections_log_block.
  rewrite verdicts_action_trace, injections_action_trace_rst.
  split; [reflexivity|]. split; [reflexivity|].
  destruct (transport ip_packet) as [tcp|udp|]; try reflexivity.
  exists (rst_for ip_packet tcp). cbn. repeat split.
  destruct (tcp_ack tcp) as [a|]; cbn; [|reflexivity].
  destruct (Z.eqb_spec a 0); congruence.
Qed.

Lemma rst_blocked_packet_witness :
  verdicts (trace_of (process_packet (intercepted sample_http_packet true)
                        (sample_simulator RST))) = [Drop].
Proof.
  apply (rst_blocked_packet (intercepted sample_http_packet true)
           sample_http_packet (sample_simulator RST)).
  - reflexivity.
  - reflexivity.
  - vm_compute. reflexivity.
Defined.

(** C5, as stated, fails on a blocked QUIC packet: in mode RST it is
    counted as blocked and dropped, and nothing is injected. *)
Lemma rst_quic_blocked_without_injection :
  let run := process_packet (intercepted sample_quic_packet false) (sample_simulator RST) in
  mode (sample_simulator RST) = RST
  /\ blocked_quic (stats (state_of run)) = 1%Z
  /\ verdicts (trace_of run) = [Drop]
  /\ injections (trace_of run) = []
  /\ length (injections (trace_of run)) <> 1.
Proof.
  vm_compute. repeat split. discriminate.
Qed.

Lemma sleep_takes_finite (limit q : Q) :
  sleep_takes limit (Finite q) = true
  <-> (0 <= q)%Q /\ (q < time_max)%Q /\ (q < limit)%Q.
Proof.
  unfold sleep_takes. rewrite !andb_true_iff, !negb_true_iff, Qle_bool_iff.
  assert (forall a : Q, Qle_bool a q = false <-> (q < a)%Q) as Hlt.
  { intros a. split.
    - intros E. apply Qnot_le_lt. intros Hle. apply Qle_bool_iff in Hle. congruence.
    - intros Hl. destruct (Qle_bool a q) eqn:E; [|reflexivity].
      apply Qle_bool_iff in E. now apply Qlt_not_le in Hl. }
  rewrite !Hlt. tauto.
Qed.

Lemma throttle_trace_slept (bt : string) (src dst : string * Z)
  (dom : option string) (limit : Q) (delay : PyFloat) (raises : bool) (ip_packet : IP) :
  let t := EvLogBlock bt src dst dom THROTTLE
           :: action_trace THROTTLE limit delay raises ip_packet in
  if sleep_takes limit delay
  then sleeps t = [delay] /\ (seconds delay <= slept_before_verdict t)%Q
  else sleeps t = [] /\ slept_before_verdict t = 0%Q.
Proof.
  unfold action_trace. destruct (sleep_takes limit delay); cbn.
  - split; [reflexivity|]. rewrite Qplus_0_r. apply Qle_refl.
  - split; reflexivity.
Qed.

Lemma throttle_hit (packet : Packet) (ip_packet : IP) (self : DPISimulator)
  (block_type : string) (incr : SimulatorStats -> SimulatorStats)
  (domain : option string) :
  mode self = THROTTLE ->
  get_payload_IP packet = Ret ip_packet ->
  classify (blocked_domains self) ip_packet = Some (block_type, incr, domain) ->
  result_of (process_packet packet self) = Ret tt
  /\ verdicts (trace_of (process_packet packet self)) = [Accept]
  /\ passed (stats (state_of (process_packet packet self))) = passed (stats self)
  /\ (forall q, throttle_delay self = Finite q ->
        (0 <= q)%Q -> (q < time_max)%Q -> (q < sleep_limit packet)%Q ->
        sleeps (trace_of (process_packet packet self)) = [Finite q]
        /\ (q <= slept_before_verdict (trace_of (process_packet packet self)))%Q)
  /\ (sleep_takes (sleep_limit packet) (throttle_delay self) = false ->
        sleeps (trace_of (process_packet packet self)) = []
        /\ slept_before_verdict (trace_of (process_packet packet self)) = 0%Q)
  /\ stats (state_of (process_packet packet self))
     = record_block (now packet) (metrics_key domain) block_type
         (incr (incr_total_packets (stats self))).
Proof.
  intros Hm H Hc. rewrite (process_packet_hit _ _ _ _ _ _ H Hc).
  unfold result_of, trace_of, state_of. cbn [fst snd]. rewrite Hm.
  rewrite verdicts_log_block, verdicts_action_trace.
  pose proof (throttle_trace_slept block_type (endpoints ip_packet).1
                (endpoints ip_packet).2 domain (sleep_limit packet)
                (throttle_delay self) (send_raises packet) ip_packet) as Ht.
  cbv zeta in Ht.
  split; [reflexivity|]. split; [reflexivity|].
  split; [|split; [|split; [|reflexivity]]].
  - cbn. now destruct (classify_incr _ _ _ _ _ Hc (incr_total_packets (stats self)))
      as (_ & -> & _).
  - intros q Hq H0 Hmax Hlim. rewrite Hq in Ht |- *.
    rewrite (proj2 (sleep_takes_finite (sleep_limit packet) q)) in Ht
      by (repeat split; assumption).
    exact Ht.
  - intros E. rewrite E in Ht. exact Ht.
Qed.

(** C6, as the code has it.  In mode THROTTLE a packet that matches
    the blocklist is accepted, the counter of its block type goes up by
    one and [passed] stays as it was.  If the configured delay is a
    number that [time.sleep] takes (not negative, below [time_max] and
    below the platform's limit), the accept comes after a sleep of that
    delay; if it is not (negative, too large, infinite, nan),
    [time.sleep] raises and the accept comes without any sleep.  Stated
    for an HTTP request to a blocked host, for a ClientHello naming a
    blocked host and for a QUIC Initial packet. *)
Theorem throttle_blocked_packet (packet : Packet) (ip_packet : IP) (self : DPISimulator) :
  mode self = THROTTLE ->
  get_payload_IP packet = Ret ip_packet ->
  let run := process_packet packet self in
  let accepted :=
    result_of run = Ret tt
    /\ verdicts (trace_of run) = [Accept]
    /\ passed (stats (state_of run)) = passed (stats self)
    /\ (forall q, throttle_delay self = Finite q ->
          (0 <= q)%Q -> (q < time_max)%Q -> (q < sleep_limit packet)%Q ->
          sleeps (trace_of run) = [Finite q]
          /\ (q <= slept_before_verdict (trace_of run))%Q)
    /\ (sleep_takes (sleep_limit packet) (throttle_delay self) = false ->
          sleeps (trace_of run) = []
          /\ slept_before_verdict (trace_of run) = 0%Q) in
  (forall tcp payload host,
      transport ip_packet = HasTCP tcp -> raw_load ip_packet = Some payload ->
      tcp_dport tcp = 80%Z ->
      _extract_http_host payload = Ret (Some host) -> host <> "" ->
      _is_domain_blocked (blocked_domains self) host = true ->
      accepted
      /\ blocked_http (stats (state_of run)) = (blocked_http (stats self) + 1)%Z)
  /\ (forall tcp payload host,
      transport ip_packet = HasTCP tcp -> raw_load ip_packet = Some payload ->
      tcp_dport tcp = 443%Z ->
      _extract_sni payload = Ret (Some host) -> host <> "" ->
      _is_domain_blocked (blocked_domains self) host = true ->
      accepted
      /\ blocked_sni (stats (state_of run)) = (blocked_sni (stats self) + 1)%Z)
  /\ (forall udp payload,
      transport ip_packet = HasUDP udp -> raw_load ip_packet = Some payload ->
      udp_dport udp = 443%Z ->
      _is_quic_initial payload = Ret true ->
      accepted
      /\ blocked_quic (stats (state_of run)) = (blocked_quic (stats self) + 1)%Z).
Proof.
  intros Hm H run accepted. subst run accepted.
  split; [|split].
  - intros tcp payload host Ht Hr Hp He Hne Hb.
    assert (classify (blocked_domains self) ip_packet
            = Some ("HTTP", incr_blocked_http, Some host)) as Hc.
    { unfold classify, name_hit. rewrite Ht, Hr, Hp, He. cbn.
      destruct host; [congruence|]. now rewrite Hb. }
    destruct (throttle_hit _ _ _ _ _ _ Hm H Hc) as (H1 & H2 & H3 & H4 & H5 & H6).
    repeat split; try assumption; try (now apply H4); try (now apply H5).
    rewrite H6. cbn. reflexivity.
  - intros tcp payload host Ht Hr Hp He Hne Hb.
    assert (classify (blocked_domains self) ip_packet
            = Some ("SNI", incr_blocked_sni, Some host)) as Hc.
    { unfold classify, name_hit. rewrite Ht, Hr, Hp, He. cbn.
      destruct host; [congruence|]. now rewrite Hb. }
    destruct (throttle_hit _ _ _ _ _ _ Hm H Hc) as (H1 & H2 & H3 & H4 & H5 & H6).
    repeat split; try assumption; try (now apply H4); try (now apply H5).
    rewrite H6. cbn. reflexivity.
  - intros udp payload Ht Hr Hp He.
    assert (classify (blocked_domains self) ip_packet
            = Some ("QUIC", incr_blocked_quic, None)) as Hc.
    { unfold classify. now rewrite Ht, Hr, Hp, He. }
    destruct (throttle_hit _ _ _ _ _ _ Hm H Hc) as (H1 & H2 & H3 & H4 & H5 & H6).
    repeat split; try assumption; try (now apply H4); try (now apply H5).
    rewrite H6. cbn. reflexivity.
Qed.

Lemma throttle_blocked_packet_witness :
  let run := process_packet (intercepted sample_http_packet false)
               (sample_simulator THROTTLE) in
  verdicts (trace_of run) = [Accept]
  /\ sleeps (trace_of run) = [Finite 2]
  /\ (2 <= slept_before_verdict (trace_of run))%Q
  /\ blocked_http (stats (state_of run)) = 1%Z
  /\ passed (stats (state_of run)) = 0%Z.
Proof.
  destruct (proj1 (throttle_blocked_packet (intercepted sample_http_packet false)
                     sample_http_packet (sample_simulator THROTTLE)
                     eq_refl eq_refl)
              {| tcp_sport := 50000; tcp_dport := 80;
                 tcp_seq := 1000; tcp_ack := Some 2000%Z |}
              sample_http_request "Example.com")
    as ((_ & Hv & Hp & Hs & _) & Hb).
  - reflexivity.
  - reflexivity.
  - reflexivity.
  - vm_compute. reflexivity.
  - discriminate.
  - vm_compute. reflexivity.
  - destruct (Hs 2%Q) as [Hs1 Hs2].
    + reflexivity.
    + vm_compute. discriminate.
    + vm_compute. reflexivity.
    + vm_compute. reflexivity.
    + cbv zeta. repeat split; assumption.
Defined.

(** C6, as stated, fails for a delay that [time.sleep] does not take:
    with a configured delay of [10^10] seconds, and with an infinite
    one, the request to a blocked host is counted as blocked and
    accepted without any sleep. *)
Lemma throttle_accepts_without_delay :
  let long := process_packet (intercepted sample_http_packet false)
                (DPISimulator_new ["example.com"] THROTTLE (Finite 10000000000) "t0") in
  let infinite := process_packet (intercepted sample_http_packet false)
                    (DPISimulator_new ["example.com"] THROTTLE Inf "t0") in
  blocked_http (stats (state_of long)) = 1%Z
  /\ verdicts (trace_of long) = [Accept]
  /\ sleeps (trace_of long) = []
  /\ ~ (10000000000 <= slept_before_verdict (trace_of long))%Q
  /\ blocked_http (stats (state_of infinite)) = 1%Z
  /\ verdicts (trace_of infinite) = [Accept]
  /\ sleeps (trace_of infinite) = [].
Proof.
  vm_compute. repeat split. intros Hle. apply Hle. reflexivity.
Qed.

(** ** ProtocolExtractors *)

Lemma index_ok (p : bytes) (i : nat) :
  i < length p -> exists v, index p i = Ret v.
Proof.
  intros H. unfold index.
  destruct (nth_error p i) eqn:E; [eauto|].
  apply nth_error_None in E. lia.
Qed.

Lemma slice_length (p : bytes) (a b : nat) :
  b <= length p -> length (slice p a b) = b - a.
Proof.
  intros H. unfold slice. rewrite length_firstn, length_skipn. lia.
Qed.

Lemma unpack_H_ok (p : bytes) (off : nat) :
  off + 2 <= length p -> exists v, unpack_H (slice p off (off + 2)) = Ret v.
Proof.
  intros H. pose proof (slice_length p off (off + 2) H) as L.
  destruct (slice p off (off + 2)) as [|a [|b [|c r]]]; cbn in L; try lia.
  cbn. eauto.
Qed.

Lemma unpack_I_ok (p : bytes) :
  5 <= length p -> exists v, unpack_I (slice p 1 5) = Ret v.
Proof.
  intros H. pose proof (slice_length p 1 5 H) as L.
  destruct (slice p 1 5) as [|a [|b [|c [|d [|e r]]]]]; cbn in L; try lia.
  cbn. eauto.
Qed.

Ltac step_ok :=
  match goal with
  | |- context [if ?b then _ else _] => destruct b eqn:?
  | |- exists r, Ret ?x = Ret r => exists x; reflexivity
  | |- context [index ?p ?i] =>
      let v := fresh "v" in let E := fresh "E" in
      destruct (index_ok p i) as [v E]; [lia | rewrite E; cbn [mbind exc_bind]]
  | |- context [unpack_H (slice ?p ?a _)] =>
      let v := fresh "v" in let E := fresh "E" in
      destruct (unpack_H_ok p a) as [v E]; [lia | rewrite E; cbn [mbind exc_bind]]
  end.

Lemma sni_scan_returns (fuel : nat) (p : bytes) (extensions_end offset : nat) :
  exists r, sni_scan fuel p extensions_end offset = Ret r.
Proof.
  revert offset. induction fuel as [|fuel IH]; intros offset; cbn [sni_scan]; [eauto|].
  destruct ((offset + 4 <=? extensions_end) && (offset + 4 <=? length p)) eqn:G; [|eauto].
  apply andb_true_iff in G as [_ G]. apply Nat.leb_le in G.
  destruct (unpack_H_ok p offset) as [ty E1]; [lia|].
  destruct (unpack_H_ok p (offset + 2)) as [ln E2]; [lia|].
  replace (offset + 2 + 2) with (offset + 4) in E2 by lia.
  rewrite E1, E2. cbn [mbind exc_bind].
  destruct ((ty =? 0) && (offset + 4 + ln <=? length p)) eqn:G2; [|apply IH].
  repeat (step_ok; repeat match goal with H : (_ <? _) = _ |- _ => apply Nat.ltb_ge in H
       | H : (_ <=? _) = _ |- _ => apply Nat.leb_le in H end).
Qed.

Ltac norm_checks :=
  repeat match goal with
         | H : (_ <? _) = false |- _ => apply Nat.ltb_ge in H
         | H : (_ <=? _) = false |- _ => apply Nat.leb_gt in H
         | H : (_ <=? _) = true |- _ => apply Nat.leb_le in H
         end.

Lemma extract_sni_body_returns (payload : bytes) :
  exists r, extract_sni_body payload = Ret r.
Proof.
  unfold extract_sni_body.
  repeat (step_ok; norm_checks); try apply sni_scan_returns.
Qed.

Lemma is_quic_initial_body_returns (payload : bytes) :
  exists b, is_quic_initial_body payload = Ret b.
Proof.
  unfold is_quic_initial_body.
  destruct (length payload <? 6) eqn:L; [eauto|]. apply Nat.ltb_ge in L.
  destruct (index_ok payload 0) as [b0 E]; [lia|]. rewrite E. cbn [mbind exc_bind].
  destruct (unpack_I_ok payload) as [v Ev]; [lia|]. rewrite Ev. cbn [mbind exc_bind].
  repeat match goal with
         | |- context [if ?b then _ else _] => destruct b
         end; eauto.
Qed.

Lemma extract_http_host_body_returns (payload : bytes) :
  exists r, extract_http_host_body payload = Ret r.
Proof.
  unfold extract_http_host_body.
  destruct (negb _); [eauto|]. destruct (re_search_host _); eauto.
Qed.

(** C8. The three extractors return on every byte string: the blanket
    handler turns any exception of the body into none or false, and in
    fact no body ever raises, every read being guarded by a length
    check.  Input that is too short or does not start with a method
    token gives none or false. *)
Theorem extractors_total (payload : bytes) :
  (exists r, _extract_sni payload = Ret r)
  /\ (exists r, _extract_http_host payload = Ret r)
  /\ (exists b, _is_quic_initial payload = Ret b)
  /\ (exists r, extract_sni_body payload = Ret r)
  /\ (exists r, extract_http_host_body payload = Ret r)
  /\ (exists b, is_quic_initial_body payload = Ret b)
  /\ (length payload < 43 -> _extract_sni payload = Ret None)
  /\ (existsb (fun m => startswith (decode_ascii_ignore payload) m) http_methods = false ->
      _extract_http_host payload = Ret None)
  /\ (length payload < 6 -> _is_quic_initial payload = Ret false).
Proof.
  split; [apply extract_sni_returns|].
  split; [apply extract_http_host_returns|].
  split; [apply is_quic_initial_returns|].
  split; [apply extract_sni_body_returns|].
  split; [apply extract_http_host_body_returns|].
  split; [apply is_quic_initial_body_returns|].
  split; [|split].
  - intros H. unfold _extract_sni, extract_sni_body.
    apply Nat.ltb_lt in H. now rewrite H.
  - intros H. unfold _extract_http_host, extract_http_host_body. now rewrite H.
  - intros H. unfold _is_quic_initial, is_quic_initial_body.
    apply Nat.ltb_lt in H. now rewrite H.
Qed.

Lemma extractors_total_witness :
  _extract_sni [] = Ret None
  /\ _extract_http_host [x16; x03; x01] = Ret None
  /\ _is_quic_initial [xc3; x00] = Ret false.
Proof.
  split; [|split].
  - apply (proj1 (proj2 (proj2 (proj2 (proj2 (proj2 (proj2 (extractors_total [])))))))).
    cbn. lia.
  - apply (proj1 (proj2 (proj2 (proj2 (proj2 (proj2 (proj2 (proj2
             (extractors_total [x16; x03; x01]))))))))).
    reflexivity.
  - apply (proj2 (proj2 (proj2 (proj2 (proj2 (proj2 (proj2 (proj2
             (extractors_total [xc3; x00]))))))))).
    cbn. lia.
Defined.

(** *** The Host extractor *)

Section HostExtractor.

Local Open Scope string_scope.

Lemma startswith_spec (s p : string) :
  startswith s p = true <-> exists rest : string, s = p ++ rest.
Proof.
  revert s. induction p as [|a p IH]; intros s.
  - split; [intros _; now exists s | intros _; now destruct s].
  - destruct s as [|b s]; cbn [startswith].
    + split; [discriminate | intros [rest H]; discriminate].
    + rewrite andb_true_iff, Ascii.eqb_eq, IH. split.
      * intros [-> [rest ->]]. now exists rest.
      * intros [rest H]. cbn in H. injection H as -> ->. eauto.
Qed.

Lemma re_tag_spec (pat s rest : string) :
  re_tag pat s = Some rest ->
  exists tag : string, s = tag ++ rest /\ lower tag = lower pat.
Proof.
  revert s. induction pat as [|a pat IH]; intros s; cbn [re_tag].
  - intros [= ->]. now exists "".
  - destruct s as [|b s]; [discriminate|].
    destruct (Ascii.eqb (lower_char a) (lower_char b)) eqn:E; [|discriminate].
    apply Ascii.eqb_eq in E. intros H.
    destruct (IH _ H) as (tag & -> & Ht).
    exists (String b tag). cbn. now rewrite Ht, E.
Qed.

Lemma re_line_spec (s : string) :
  exists rest : string,
    s = re_line s ++ rest
    /\ string_forall (fun c => negb (is_crlf c)) (re_line s) = true
    /\ at_line_end rest = true.
Proof.
  induction s as [|c s (rest & Hs & Hf & Hr)]; cbn [re_line].
  - now exists "".
  - destruct (is_crlf c) eqn:E.
    + exists (String c s). cbn. now rewrite E.
    + exists rest. split; [|split; [|exact Hr]].
      * change (String c s = String c (re_line s ++ rest)). now f_equal.
      * cbn [string_forall]. now rewrite E, Hf.
Qed.

Lemma re_group_spec (s g : string) :
  re_group s = Some g ->
  exists rest : string,
    s = g ++ rest /\ g <> ""
    /\ string_forall (fun c => negb (is_crlf c)) g = true
    /\ at_line_end rest = true.
Proof.
  unfold re_group. destruct (re_line_spec s) as (rest & Hs & Hf & Hr).
  destruct (re_line s) as [|c l] eqn:E; [discriminate|].
  intros [= <-]. exists rest. repeat split; try assumption. discriminate.
Qed.

Lemma re_ws_group_spec (s g : string) :
  re_ws_group s = Some g ->
  exists ws rest : string,
    s = ws ++ g ++ rest
    /\ string_forall is_space ws = true
    /\ g <> ""
    /\ string_forall (fun c => negb (is_crlf c)) g = true
    /\ at_line_end rest = true.
Proof.
  revert g. induction s as [|c s IH]; intros g; cbn [re_ws_group]; [discriminate|].
  assert (re_group (String c s) = Some g ->
          exists ws rest : string,
            String c s = ws ++ g ++ rest
            /\ string_forall is_space ws = true /\ g <> ""
            /\ string_forall (fun c => negb (is_crlf c)) g = true
            /\ at_line_end rest = true) as Hhere.
  { intros H. destruct (re_group_spec _ _ H) as (rest & Hs & Hg).
    exists "", rest. split; [exact Hs|]. split; [reflexivity|exact Hg]. }
  destruct (is_space c) eqn:E; [|exact Hhere].
  destruct (re_ws_group s) as [g'|] eqn:Es; [|exact Hhere].
  intros [= <-]. destruct (IH _ eq_refl) as (ws & rest & -> & Hw & Hg).
  exists (String c ws), rest. split; [reflexivity|]. split; [|exact Hg].
  cbn. now rewrite E, Hw.
Qed.

Lemma re_search_host_spec (data g : string) :
  re_search_host data = Some g ->
  exists pre tag ws rest : string,
    data = pre ++ tag ++ ws ++ g ++ rest
    /\ lower tag = "host:"
    /\ string_forall is_space ws = true
    /\ g <> ""
    /\ string_forall (fun c => negb (is_crlf c)) g = true
    /\ at_line_end rest = true.
Proof.
  induction data as [|c data IH].
  - cbn. discriminate.
  - cbn [re_search_host]. destruct (re_match_host (String c data)) as [g'|] eqn:E.
    + intros [= ->]. unfold re_match_host in E.
      destruct (re_tag "Host:" (String c data)) as [after|] eqn:Et; [|discriminate].
      destruct (re_tag_spec _ _ _ Et) as (tag & Hd & Hl).
      destruct (re_ws_group_spec _ _ E) as (ws & rest & -> & Hw & Hg).
      exists "", tag, ws, rest. split; [exact Hd|]. split; [exact Hl|].
      split; [exact Hw|exact Hg].
    + intros H. destruct (IH H) as (pre & tag & ws & rest & -> & Hrest).
      exists (String c pre), tag, ws, rest. split; [reflexivity|exact Hrest].
Qed.


Lemma split_head_id (c : ascii) (s : string) :
  contains_char c s = false -> split_head c s = s.
Proof.
  induction s as [|a s IH]; cbn [split_head contains_char]; [reflexivity|].
  destruct (Ascii.eqb a c); cbn [orb]; [discriminate|]. intros H. now rewrite IH.
Qed.

Lemma split_head_app (c : ascii) (h port : string) :
  contains_char c h = false -> split_head c (h ++ String c port) = h.
Proof.
  induction h as [|a h IH].
  - intros _. change (split_head c (String c port) = "").
    cbn [split_head]. now rewrite Ascii.eqb_refl.
  - change (contains_char c (String a h) = false ->
            split_head c (String a (h ++ String c port)) = String a h).
    cbn [split_head contains_char].
    destruct (Ascii.eqb a c); cbn [orb]; [discriminate|]. intros H. now rewrite IH.
Qed.

End HostExtractor.

(** *** The SNI extractor *)

(** Closes the case where a length check of the extractor fails. *)
Ltac too_short :=
  cbn [try_except];
  match goal with
  | |- _ = if ?a <=? ?b then _ else _ =>
      destruct (Nat.leb_spec a b); [lia|reflexivity]
  end.

(** The fuel of [sni_scan] never runs out: any two amounts that
    cover the bytes left give the same result. *)
Lemma sni_scan_fuel (p : bytes) (E : nat) (fuel fuel' off : nat) :
  length p < off + 4 * fuel -> length p < off + 4 * fuel' ->
  sni_scan fuel p E off = sni_scan fuel' p E off.
Proof.
  revert fuel' off. induction fuel as [|fuel IH]; intros [|fuel'] off H H';
    cbn [sni_scan]; try reflexivity.
  - destruct (Nat.leb_spec (off + 4) (length p)); [lia|].
    now rewrite andb_false_r.
  - destruct (Nat.leb_spec (off + 4) (length p)); [lia|].
    now rewrite andb_false_r.
  - destruct ((off + 4 <=? E) && (off + 4 <=? length p)); [|reflexivity].
    destruct (unpack_H (slice p off (off + 2))) as [ty|]; [|reflexivity].
    destruct (unpack_H (slice p (off + 2) (off + 4))) as [ln|]; [|reflexivity].
    cbn [mbind exc_bind].
    destruct ((ty =? 0) && (off + 4 + ln <=? length p)); [reflexivity|].
    apply IH; lia.
Qed.

Lemma u8_value (n : nat) : n < 256 -> Byte.to_nat (u8 n) = n.
Proof.
  intros H. unfold u8. destruct (Byte.of_nat n) as [b|] eqn:E; cbn.
  - now apply Byte.to_of_nat.
  - apply Byte.of_nat_None_iff in E. lia.
Qed.

Lemma u16_value (n : nat) :
  n < 256 * 256 ->
  256 * Byte.to_nat (u8 (n / 256)) + Byte.to_nat (u8 (n mod 256)) = n.
Proof.
  intros H.
  rewrite !u8_value.
  - symmetry. apply Nat.div_mod_eq.
  - apply Nat.mod_upper_bound. lia.
  - apply Nat.Div0.div_lt_upper_bound. lia.
Qed.

Lemma decode_encode_ascii (s : string) :
  is_ascii s = true -> decode_ascii_ignore (encode_ascii s) = s.
Proof.
  induction s as [|c s IH]; cbn [is_ascii encode_ascii decode_ascii_ignore];
    [reflexivity|].
  intros H. apply andb_true_iff in H as [Hc Hs].
  assert (Byte.to_nat (byte_of_ascii c) = nat_of_ascii c) as ->.
  { apply Byte.to_of_nat. symmetry. apply byte_of_ascii_via_nat. }
  rewrite Hc, ascii_of_byte_of_ascii, IH by assumption. reflexivity.
Qed.

Lemma at_offset_start (p : bytes) : at_offset p 0 p.
Proof. now exists []. Qed.

Lemma at_offset_length (p : bytes) (off : nat) (R : bytes) :
  at_offset p off R -> length p = off + length R.
Proof. intros (pre & -> & <-). apply length_app. Qed.

Lemma at_offset_app (p : bytes) (off : nat) (x R : bytes) :
  at_offset p off (x ++ R) -> at_offset p (off + length x) R.
Proof.
  intros (pre & -> & <-). exists (pre ++ x).
  now rewrite <- app_assoc, length_app.
Qed.

Lemma at_offset_eq (p : bytes) (off off' : nat) (R : bytes) :
  at_offset p off R -> off = off' -> at_offset p off' R.
Proof. now intros H <-. Qed.

Lemma length_encode_ext (e : Extension) :
  length (encode_ext e) = 4 + length (ext_data e).
Proof. unfold encode_ext. rewrite !length_app. reflexivity. Qed.

Lemma length_server_name_data (host : string) :
  length (server_name_data host) = 5 + length (encode_ascii host).
Proof. unfold server_name_data. rewrite !length_app. unfold u16, length. lia. Qed.

Lemma sni_scan_short (fuel : nat) (T : bytes) (E off : nat) :
  length T < off + 4 -> sni_scan fuel T E off = Ret None.
Proof.
  intros H. destruct fuel; cbn [sni_scan]; [reflexivity|].
  destruct (Nat.leb_spec (off + 4) (length T)); [lia|].
  now rewrite andb_false_r.
Qed.

(** Reading from the first [k] bytes of a payload [P]. *)
Section Prefix.

Variables (P : bytes) (k : nat).

Lemma slice_at_offset (off : nat) (x R : bytes) :
  at_offset P off (x ++ R) -> off + length x <= k ->
  slice (firstn k P) off (off + length x) = x.
Proof.
  destruct 1 as (pre & HP & <-); intros Hk; subst P. unfold slice.
  replace (length pre + length x - length pre) with (length x) by lia.
  rewrite skipn_firstn_comm, skipn_app, skipn_all, Nat.sub_diag.
  change (drop 0 (x ++ R)) with (x ++ R).
  rewrite firstn_firstn, Nat.min_l by lia.
  exact (take_app_length x R).
Qed.

Lemma index_at_offset (off : nat) (b : byte) (R : bytes) :
  at_offset P off (b :: R) -> off < k ->
  index (firstn k P) off = Ret (Byte.to_nat b).
Proof.
  destruct 1 as (pre & HP & <-); intros Hk; subst P. unfold index.
  rewrite nth_error_firstn. destruct (Nat.ltb_spec (length pre) k); [|lia].
  rewrite nth_error_app2, Nat.sub_diag by lia. reflexivity.
Qed.

Lemma unpack_H_at_offset (off hi n : nat) (R : bytes) :
  at_offset P off (u16 n ++ R) -> n < 256 * 256 -> hi = off + 2 -> hi <= k ->
  unpack_H (slice (firstn k P) off hi) = Ret n.
Proof.
  intros V Hn -> Hk.
  change (off + 2) with (off + length (u16 n)).
  rewrite (slice_at_offset _ _ _ V) by (unfold u16, length; lia).
  unfold u16, unpack_H. f_equal. now apply u16_value.
Qed.

(** One turn of the loop over an extension that is not server_name. *)
Lemma sni_scan_skip (E fuel off ty : nat) (data R : bytes) :
  at_offset P off (u16 ty ++ u16 (length data) ++ data ++ R) ->
  ty <> 0 -> ty < 256 * 256 -> length data < 256 * 256 ->
  off + 4 <= E -> off + 4 <= length (firstn k P) ->
  sni_scan (S fuel) (firstn k P) E off
  = sni_scan fuel (firstn k P) E (off + 4 + length data).
Proof.
  intros V Hty Hty' Hd HE HT.
  pose proof (length_firstn k P) as HL.
  pose proof (at_offset_app _ _ _ _ V) as V2.
  cbn [sni_scan].
  rewrite (proj2 (Nat.leb_le _ _) HE), (proj2 (Nat.leb_le _ _) HT). cbn [andb].
  rewrite (unpack_H_at_offset off (off + 2) ty _ V) by lia.
  cbn [mbind exc_bind].
  rewrite (unpack_H_at_offset (off + 2) (off + 4) (length data) _ V2) by lia.
  cbn [mbind exc_bind].
  destruct (Nat.eqb_spec ty 0); [contradiction|]. reflexivity.
Qed.

Lemma sni_scan_before (E : nat) (before : list Extension) (R : bytes) :
  Forall (fun e => ext_type e <> 0 /\ ext_type e < 256 * 256
                   /\ length (ext_data e) < 256 * 256) before ->
  forall fuel off,
    at_offset P off (encode_exts before ++ R) ->
    off + length (encode_exts before) + 4 <= E ->
    length (firstn k P) < off + 4 * fuel ->
    exists fuel',
      length (firstn k P) < off + length (encode_exts before) + 4 * fuel'
      /\ sni_scan fuel (firstn k P) E off
         = sni_scan fuel' (firstn k P) E (off + length (encode_exts before)).
Proof.
  induction 1 as [|e rest (Hty & Hty' & Hd) _ IH]; intros fuel off V HE Hf.
  - exists fuel. cbn. rewrite !Nat.add_0_r. split; [lia|reflexivity].
  - change (encode_exts (e :: rest)) with (encode_ext e ++ encode_exts rest) in *.
    rewrite length_app, length_encode_ext in *.
    destruct (Nat.le_gt_cases (off + 4) (length (firstn k P))) as [HT|HT].
    + destruct fuel as [|fuel]; [lia|].
      unfold encode_ext in V. rewrite <- !app_assoc in V.
      rewrite (sni_scan_skip E fuel off _ _ _ V) by (assumption || lia).
      pose proof (at_offset_app _ _ _ _ V) as V2.
      pose proof (at_offset_app _ _ _ _ V2) as V3.
      pose proof (at_offset_app _ _ _ _ V3) as V4.
      apply (at_offset_eq _ _ (off + 4 + length (ext_data e))) in V4;
        [|unfold u16, length; lia].
      destruct (IH fuel _ V4) as (fuel' & Hf' & Heq); [lia|lia|].
      exists fuel'. split; [lia|]. rewrite Heq. f_equal. lia.
    + exists 0. split; [lia|]. now rewrite sni_scan_short.
Qed.

(** The turn of the loop that meets the server_name extension. *)
Lemma sni_scan_server_name (E fuel off : nat) (host : string) (R : bytes) :
  at_offset P off (encode_ext (server_name_ext host) ++ R) ->
  is_ascii host = true ->
  5 + length (encode_ascii host) < 256 * 256 ->
  off + 4 <= E ->
  length (firstn k P) < off + 4 * fuel ->
  sni_scan fuel (firstn k P) E off
  = if off + 9 + length (encode_ascii host) <=? k
    then Ret (Some host) else Ret None.
Proof.
  intros V Ha Hh HE Hf.
  pose proof (length_firstn k P) as HL.
  pose proof (at_offset_length _ _ _ V) as HP.
  rewrite length_app, length_encode_ext in HP. cbn [server_name_ext ext_data] in HP.
  rewrite length_server_name_data in HP.
  unfold encode_ext in V. cbn [server_name_ext ext_type ext_data] in V.
  rewrite <- !app_assoc in V.
  pose proof (at_offset_app _ _ _ _ V) as V2.
  pose proof (at_offset_app _ _ _ _ V2) as V4.
  unfold server_name_data in V4. rewrite <- !app_assoc in V4.
  pose proof (at_offset_app _ _ _ _ V4) as V6.
  pose proof (at_offset_app _ _ _ _ V6) as V7.
  pose proof (at_offset_app _ _ _ _ V7) as V9.
  rewrite length_server_name_data in V2.
  change (length (u16 ?n)) with 2 in *. change (length [x00]) with 1 in *.
  destruct (Nat.le_gt_cases (off + 4) (length (firstn k P))) as [HT|HT].
  2: { rewrite sni_scan_short by assumption.
       destruct (Nat.leb_spec (off + 9 + length (encode_ascii host)) k); [lia|reflexivity]. }
  destruct fuel as [|fuel]; [lia|].
  cbn [sni_scan].
  rewrite (proj2 (Nat.leb_le _ _) HE), (proj2 (Nat.leb_le _ _) HT). cbn [andb].
  rewrite (unpack_H_at_offset off (off + 2) 0 _ V) by lia.
  cbn [mbind exc_bind].
  rewrite (unpack_H_at_offset (off + 2) (off + 4) _ _ V2) by lia.
  cbn [mbind exc_bind Nat.eqb andb].
  destruct (Nat.leb_spec (off + 4 + (5 + length (encode_ascii host)))
              (length (firstn k P))) as [HX|HX].
  - rewrite (proj2 (Nat.ltb_ge _ _)) by lia.
    rewrite (unpack_H_at_offset (off + 4) (off + 4 + 2) _ _
               (at_offset_eq _ _ (off + 4) _ V4 ltac:(lia))) by lia.
    cbn [mbind exc_bind].
    rewrite (proj2 (Nat.ltb_ge _ _)) by lia.
    rewrite (index_at_offset (off + 4 + 2) x00 _
               (at_offset_eq _ _ (off + 4 + 2) _ V6 ltac:(lia))) by lia.
    cbn [mbind exc_bind]. change (Byte.to_nat x00 =? 0) with true. cbv iota.
    rewrite (proj2 (Nat.ltb_ge _ _)) by lia.
    rewrite (unpack_H_at_offset (off + 4 + 2 + 1) (off + 4 + 2 + 1 + 2) _ _
               (at_offset_eq _ _ (off + 4 + 2 + 1) _ V7 ltac:(lia))) by lia.
    cbn [mbind exc_bind].
    rewrite (proj2 (Nat.leb_le _ _)) by lia.
    rewrite (slice_at_offset (off + 4 + 2 + 1 + 2) (encode_ascii host) R) by
      (try (apply (at_offset_eq _ _ _ _ V9)); lia).
    rewrite decode_encode_ascii by assumption.
    destruct (Nat.leb_spec (off + 9 + length (encode_ascii host)) k); [reflexivity|lia].
  - rewrite sni_scan_short by lia.
    destruct (Nat.leb_spec (off + 9 + length (encode_ascii host)) k); [lia|reflexivity].
Qed.

End Prefix.

(** [advance V V' n]: from [V], a view of the payload at some offset
    whose rest starts with a known chunk, the view [V'] past that
    chunk, at offset [n]. *)
Ltac advance V V' n :=
  pose proof (at_offset_eq _ _ n _ (at_offset_app _ _ _ _ V)
                ltac:(unfold u16, u24; cbn [length]; lia)) as V'.

(** The extractor on the first [k] bytes of a well-formed record. *)
Lemma extract_sni_prefix (ch : ClientHello) (k : nat) :
  well_formed ch ->
  _extract_sni (firstn k (encode_record ch))
  = if hostname_end ch <=? k then Ret (Some (server_name ch)) else Ret None.
Proof.
  intros (Hrand & Hsid & Hcs & Hcomp & Hbefore & Hexts & Hascii).
  remember (encode_record ch) as P eqn:HP.
  pose proof (at_offset_start P) as V0.
  rewrite HP in V0 at 2.
  unfold encode_record, encode_handshake, encode_hello in V0.
  set (sid := length (session_id ch)) in *.
  set (cs := length (cipher_suites ch)) in *.
  set (comp := length (compression_methods ch)) in *.
  advance V0 V3 3. advance V3 V5 5. advance V5 V6 6. advance V6 V9 9.
  advance V9 V11 11. advance V11 V43 43.
  advance V43 Vsid 44. advance Vsid Vcs (43 + (1 + sid)).
  advance Vcs Vcs2 (43 + (1 + sid) + 2).
  advance Vcs2 Vcomp (43 + (1 + sid) + (2 + cs)).
  advance Vcomp Vcomp1 (43 + (1 + sid) + (2 + cs) + 1).
  advance Vcomp1 Vext (43 + (1 + sid) + (2 + cs) + (1 + comp)).
  advance Vext Vexts (43 + (1 + sid) + (2 + cs) + (1 + comp) + 2).
  unfold encode_extensions in Vexts.
  set (bef := length (encode_exts (exts_before ch))) in *.
  advance Vexts Vsni (43 + (1 + sid) + (2 + cs) + (1 + comp) + 2 + bef).
  pose proof (at_offset_length _ _ _ Vsni) as HlenP.
  rewrite length_app, length_encode_ext in HlenP.
  cbn [server_name_ext ext_data] in HlenP. rewrite length_server_name_data in HlenP.
  assert (length (encode_extensions ch)
          = bef + (9 + length (encode_ascii (server_name ch)))
            + length (encode_exts (exts_after ch))) as Hel.
  { unfold encode_extensions. rewrite !length_app, length_encode_ext.
    cbn [server_name_ext ext_data]. rewrite length_server_name_data. lia. }
  pose proof (length_firstn k P) as HL.
  set (T := firstn k P) in *.
  set (h := length (encode_ascii (server_name ch))) in *.
  assert (hostname_end ch = 43 + (1 + sid) + (2 + cs) + (1 + comp) + 2 + bef + 9 + h)
    as Hend by (unfold hostname_end; subst sid cs comp bef h; lia).
  rewrite Hend.
  unfold _extract_sni, extract_sni_body.
  destruct (Nat.ltb_spec (length T) 43); [too_short|].
  subst T.
  rewrite (index_at_offset P k 0 x16 _ V0) by lia. cbn [mbind exc_bind].
  change (negb (Byte.to_nat x16 =? 22)) with false. cbv iota.
  rewrite (index_at_offset P k 5 x01 _ (at_offset_eq _ _ 5 _ V5 ltac:(lia))) by lia.
  cbn [mbind exc_bind].
  change (negb (Byte.to_nat x01 =? 1)) with false. cbv iota.
  destruct (Nat.leb_spec (length (firstn k P)) 43); [too_short|].
  rewrite (index_at_offset P k 43 _ _ (at_offset_eq _ _ 43 _ V43 ltac:(lia))) by lia.
  cbn [mbind exc_bind]. rewrite u8_value by assumption. fold sid.
  destruct (Nat.ltb_spec (length (firstn k P)) (43 + (1 + sid) + 2)); [too_short|].
  rewrite (unpack_H_at_offset P k (43 + (1 + sid)) (43 + (1 + sid) + 2) _ _
             (at_offset_eq _ _ (43 + (1 + sid)) _ Vcs ltac:(lia))) by (assumption || lia).
  cbn [mbind exc_bind]. fold cs.
  destruct (Nat.ltb_spec (length (firstn k P)) (43 + (1 + sid) + (2 + cs) + 1));
    [too_short|].
  rewrite (index_at_offset P k (43 + (1 + sid) + (2 + cs)) _ _
             (at_offset_eq _ _ (43 + (1 + sid) + (2 + cs)) _ Vcomp ltac:(lia))) by lia.
  cbn [mbind exc_bind]. rewrite u8_value by assumption. fold comp.
  destruct (Nat.ltb_spec (length (firstn k P))
              (43 + (1 + sid) + (2 + cs) + (1 + comp) + 2)); [too_short|].
  rewrite (unpack_H_at_offset P k (43 + (1 + sid) + (2 + cs) + (1 + comp))
             (43 + (1 + sid) + (2 + cs) + (1 + comp) + 2) _ _
             (at_offset_eq _ _ (43 + (1 + sid) + (2 + cs) + (1 + comp)) _ Vext
                ltac:(lia))) by (assumption || lia).
  cbn [mbind exc_bind].
  destruct (sni_scan_before P k
              (43 + (1 + sid) + (2 + cs) + (1 + comp) + 2 + length (encode_extensions ch))
              _ _ Hbefore (length (firstn k P)) _ Vexts)
    as (fuel' & Hf' & ->); [fold bef; lia|lia|].
  fold bef in Hf' |- *.
  rewrite (sni_scan_server_name P k _ fuel' _ _ _ Vsni) by (assumption || fold h; lia).
  fold h. cbn [try_except].
  destruct (Nat.leb_spec (43 + (1 + sid) + (2 + cs) + (1 + comp) + 2 + bef + 9 + h) k);
    reflexivity.
Qed.

Lemma hostname_end_le_length (ch : ClientHello) :
  length (random ch) = 32 -> hostname_end ch <= length (encode_record ch).
Proof.
  intros Hrand.
  unfold hostname_end, encode_record, encode_handshake, encode_hello, encode_extensions.
  rewrite !length_app, length_encode_ext. cbn [server_name_ext ext_data].
  rewrite length_server_name_data, Hrand. unfold u16, u24. cbn [length]. lia.
Qed.


(** C3. On a well-formed ClientHello record that carries a server_name
    extension the SNI extractor returns the host name of the extension;
    on the first [k] bytes of the record, for any [k] short of the end
    of the host name, it returns none. *)
Theorem extract_sni_correct (ch : ClientHello) :
  well_formed ch ->
  _extract_sni (encode_record ch) = Ret (Some (server_name ch))
  /\ forall k, k < hostname_end ch ->
              _extract_sni (firstn k (encode_record ch)) = Ret None.
Proof.
  intros Hwf. split.
  - rewrite <- (firstn_all (encode_record ch)) at 1.
    rewrite extract_sni_prefix by assumption.
    destruct Hwf as (Hrand & _).
    pose proof (hostname_end_le_length ch Hrand).
    destruct (Nat.leb_spec (hostname_end ch) (length (encode_record ch)));
      [reflexivity|lia].
  - intros k Hk. rewrite extract_sni_prefix by assumption.
    destruct (Nat.leb_spec (hostname_end ch) k); [lia|reflexivity].
Qed.

Lemma sample_client_hello_well_formed : well_formed sample_client_hello.
Proof.
  unfold well_formed.
  split; [reflexivity|].
  split; [apply Nat.ltb_lt; vm_compute; reflexivity|].
  split; [apply Nat.ltb_lt; vm_compute; reflexivity|].
  split; [apply Nat.ltb_lt; vm_compute; reflexivity|].
  split.
  { constructor; [|constructor].
    split; [discriminate|].
    split; apply Nat.ltb_lt; vm_compute; reflexivity. }
  split; [apply Nat.ltb_lt; vm_compute; reflexivity|].
  reflexivity.
Defined.

Lemma extract_sni_correct_witness :
  well_formed sample_client_hello
  /\ _extract_sni (encode_record sample_client_hello) = Ret (Some "example.com")
  /\ _extract_sni (firstn 70 (encode_record sample_client_hello)) = Ret None.
Proof.
  split; [exact sample_client_hello_well_formed|].
  destruct (extract_sni_correct sample_client_hello sample_client_hello_well_formed) as [H1 H2].
  split; [exact H1|]. apply H2. apply Nat.ltb_lt. vm_compute. reflexivity.
Defined.

(** * Further properties *)

(** ** The packet path *)

Lemma classify_other_traffic (B : list string) (ip_packet : IP) :
  raw_load ip_packet = None
  \/ match transport ip_packet with
     | HasTCP tcp => tcp_dport tcp <> 443%Z /\ tcp_dport tcp <> 80%Z
     | HasUDP udp => udp_dport udp <> 443%Z
     | NoTransport => True
     end ->
  classify B ip_packet = None.
Proof.
  unfold classify. intros [Hr | Ht].
  - rewrite Hr. now destruct (transport ip_packet).
  - destruct (transport ip_packet) as [tcp|udp|]; [| |reflexivity];
      (destruct (raw_load ip_packet); [|reflexivity]).
    + destruct Ht as [H1 H2].
      destruct (Z.eqb_spec (tcp_dport tcp) 443); [contradiction|].
      destruct (Z.eqb_spec (tcp_dport tcp) 80); [contradiction|]. reflexivity.
    + destruct (Z.eqb_spec (udp_dport udp) 443); [contradiction|]. reflexivity.
Qed.

(** X1. A packet that parses and has no payload, or no TCP or UDP
    layer, or goes to a TCP port other than 443 and 80, or to a UDP
    port other than 443, is accepted whatever it carries: it counts in
    [total_packets] and [passed] and changes nothing else. *)
Theorem other_traffic_passes (packet : Packet) (ip_packet : IP) (self : DPISimulator) :
  get_payload_IP packet = Ret ip_packet ->
  raw_load ip_packet = None
  \/ match transport ip_packet with
     | HasTCP tcp => tcp_dport tcp <> 443%Z /\ tcp_dport tcp <> 80%Z
     | HasUDP udp => udp_dport udp <> 443%Z
     | NoTransport => True
     end ->
  trace_of (process_packet packet self) = [EvVerdict Accept]
  /\ total_packets (stats (state_of (process_packet packet self)))
     = (total_packets (stats self) + 1)%Z
  /\ passed (stats (state_of (process_packet packet self)))
     = (passed (stats self) + 1)%Z
  /\ blocked_sni (stats (state_of (process_packet packet self)))
     = blocked_sni (stats self)
  /\ blocked_http (stats (state_of (process_packet packet self)))
     = blocked_http (stats self)
  /\ blocked_quic (stats (state_of (process_packet packet self)))
     = blocked_quic (stats self)
  /\ domain_metrics (stats (state_of (process_packet packet self)))
     = domain_metrics (stats self).
Proof.
  intros H Ho.
  rewrite (process_packet_pass _ _ _ H (classify_other_traffic _ _ Ho)).
  cbn. repeat split.
Qed.

Lemma other_traffic_passes_witness :
  trace_of (process_packet
              (intercepted
                 {| ip_src := "10.0.0.2"; ip_dst := "93.184.216.34";
                    transport := HasTCP {| tcp_sport := 50000; tcp_dport := 8443;
                                           tcp_seq := 1; tcp_ack := None |};
                    raw_load := Some (encode_record sample_client_hello) |} false)
              (sample_simulator DROP))
  = [EvVerdict Accept].
Proof.
  apply (other_traffic_passes
           (intercepted
              {| ip_src := "10.0.0.2"; ip_dst := "93.184.216.34";
                 transport := HasTCP {| tcp_sport := 50000; tcp_dport := 8443;
                                        tcp_seq := 1; tcp_ack := None |};
                 raw_load := Some (encode_record sample_client_hello) |} false)
           _ (sample_simulator DROP) eq_refl).
  right. cbn. split; discriminate.
Defined.

Lemma process_packet_mode_independent (packet : Packet) (self : DPISimulator)
  (m : BlockMode) :
  stats (state_of (process_packet packet (set_mode m self)))
  = stats (state_of (process_packet packet self)).
Proof.
  rewrite !process_packet_run. unfold process_packet_result.
  destruct (get_payload_IP packet) as [ip_packet|e]; [|reflexivity].
  cbn [blocked_domains set_mode].
  destruct (classify (blocked_domains self) ip_packet) as [[[bt incr] dom]|];
    reflexivity.
Qed.

(** X2. The statistics after a packet do not depend on the mode: any
    two of the four modes leave the same statistics.  In modes DROP and
    MITM the verdicts are the same, nothing is handed to [send] and
    nothing sleeps; a packet counted as blocked is dropped. *)
Theorem mitm_is_drop (packet : Packet) (self : DPISimulator) :
  let drop := process_packet packet (set_mode DROP self) in
  let mitm := process_packet packet (set_mode MITM self) in
  (forall m m' : BlockMode,
      stats (state_of (process_packet packet (set_mode m self)))
      = stats (state_of (process_packet packet (set_mode m' self))))
  /\ verdicts (trace_of mitm) = verdicts (trace_of drop)
  /\ injections (trace_of mitm) = [] /\ injections (trace_of drop) = []
  /\ sleeps (trace_of mitm) = [] /\ sleeps (trace_of drop) = []
  /\ (blocked_count (stats (state_of drop)) = (blocked_count (stats self) + 1)%Z ->
      verdicts (trace_of drop) = [Drop]).
Proof.
  cbv zeta. split; [intros m m'; now rewrite !process_packet_mode_independent|].
  rewrite !process_packet_run. unfold process_packet_result.
  destruct (get_payload_IP packet) as [ip_packet|e].
  - cbn [blocked_domains set_mode].
    destruct (classify (blocked_domains self) ip_packet) as [[[bt incr] dom]|] eqn:Hc.
    + cbn. repeat split; reflexivity.
    + cbn. repeat split; try reflexivity.
      unfold blocked_count. cbn. lia.
  - cbn. repeat split; try reflexivity. unfold blocked_count. cbn. lia.
Qed.

Lemma mitm_is_drop_witness :
  verdicts (trace_of (process_packet (intercepted sample_http_packet false)
                        (set_mode DROP (sample_simulator RST)))) = [Drop].
Proof.
  apply (proj2 (mitm_is_drop (intercepted sample_http_packet false)
                  (sample_simulator RST))).
  vm_compute. reflexivity.
Defined.

(** X3. Processing a packet never touches the configuration: the
    blocklist, the mode, the running flag, the throttle delay, the
    redirect address and the start time are those of before. *)
Theorem process_packet_frame (packet : Packet) (self : DPISimulator) :
  let self' := state_of (process_packet packet self) in
  blocked_domains self' = blocked_domains self
  /\ mode self' = mode self
  /\ running self' = running self
  /\ throttle_delay self' = throttle_delay self
  /\ mitm_redirect self' = mitm_redirect self
  /\ start_time (stats self') = start_time (stats self).
Proof.
  cbv zeta. rewrite process_packet_run. unfold process_packet_result.
  destruct (get_payload_IP packet) as [ip_packet|e]; [|cbn; tauto].
  destruct (classify (blocked_domains self) ip_packet) as [[[bt incr] dom]|] eqn:Hc;
    [|cbn; tauto].
  cbn. repeat split.
  destruct (classify_hit _ _ _ _ _ Hc)
    as [(?&?&?&?&_&_&_&_&_&_&->&_) | [(?&?&?&?&_&_&_&_&_&_&->&_) | (?&?&_&_&_&_&_&->&_)]];
    reflexivity.
Qed.

(** X4. [_block_packet] on a packet with a TCP or UDP layer adds one to
    the [blocked] count of the record of its domain ("unknown" when
    there is none), creating the record when it is missing, stamps it
    with the time and adds one to its count of the block type; it
    leaves every other record and each of the five counters alone. *)
Theorem block_packet_records (packet : Packet) (ip_packet : IP) (block_type : string)
  (domain : option string) (self : DPISimulator) :
  transport ip_packet <> NoTransport ->
  let key := match domain with Some (String c d) => String c d | _ => "unknown" end in
  let dm := domain_metrics (stats self) in
  let old := default DomainMetrics_new (dm !! key) in
  let self' := state_of (_block_packet packet ip_packet block_type domain self) in
  let dm' := domain_metrics (stats self') in
  (exists metrics,
      dm' !! key = Some metrics
      /\ dm_blocked metrics = (dm_blocked old + 1)%Z
      /\ dm_passed metrics = dm_passed old
      /\ last_blocked metrics = Some (now packet)
      /\ (block_type <> "" ->
          block_types metrics !! block_type
          = Some (default 0%Z (block_types old !! block_type) + 1)%Z)
      /\ (forall other, other <> block_type ->
             block_types metrics !! other = block_types old !! other))
  /\ (forall k, k <> key -> dm' !! k = dm !! k)
  /\ total_packets (stats self') = total_packets (stats self)
  /\ blocked_sni (stats self') = blocked_sni (stats self)
  /\ blocked_http (stats self') = blocked_http (stats self)
  /\ blocked_quic (stats self') = blocked_quic (stats self)
  /\ passed (stats self') = passed (stats self).
Proof.
  intros Ht. cbv zeta. rewrite (block_packet_run _ _ _ _ _ Ht).
  unfold state_of. cbn [fst snd].
  change (match domain with Some (String c d) => String c d | _ => "unknown" end)
    with (metrics_key domain).
  set (key := metrics_key domain).
  unfold record_block. cbn.
  split; [|split; [|repeat split]].
  - eexists. split; [apply lookup_insert_eq|]. cbn.
    repeat split.
    + intros Hne. destruct block_type as [|c bt]; [contradiction|].
      unfold bump_block_type. apply lookup_insert_eq.
    + intros other Hne. destruct block_type as [|c bt]; [reflexivity|].
      unfold bump_block_type. now apply lookup_insert_ne.
  - intros k Hk. now apply lookup_insert_ne.
Qed.

Lemma block_packet_records_witness :
  exists metrics,
    domain_metrics (stats (state_of (_block_packet
      (intercepted sample_quic_packet false) sample_quic_packet "QUIC" None
      (sample_simulator DROP)))) !! "unknown" = Some metrics
    /\ dm_blocked metrics = 1%Z.
Proof.
  destruct (block_packet_records (intercepted sample_quic_packet false)
              sample_quic_packet "QUIC" None (sample_simulator DROP))
    as ((metrics & Hl & Hb & _) & _).
  - discriminate.
  - exists metrics. split; [exact Hl|exact Hb].
Defined.

Lemma step_accounting (s : Step) (self : DPISimulator) (a b : Z) :
  total_packets (stats self) = a ->
  (total_packets (stats self)
   - (blocked_count (stats self) + passed (stats self)))%Z = b ->
  total_packets (stats (step self s)) = packets_since_reset [s] a
  /\ (total_packets (stats (step self s))
      - (blocked_count (stats (step self s)) + passed (stats (step self s))))%Z
     = failures_since_reset [s] b.
Proof.
  intros Ha Hb. destruct s as [packet|c]; cbn [step packets_since_reset failures_since_reset].
  - change ((process_packet packet self).1.2) with (state_of (process_packet packet self)).
    destruct (get_payload_IP packet) as [ip_packet|e] eqn:H.
    + destruct (classify (blocked_domains self) ip_packet) as [[[bt incr] dom]|] eqn:Hc.
      * rewrite (process_packet_hit _ _ _ _ _ _ H Hc).
        destruct (classify_incr _ _ _ _ _ Hc (incr_total_packets (stats self)))
          as (Ht & Hp & Hn & _).
        unfold state_of, record_block, blocked_count in *. cbn in *. lia.
      * rewrite (process_packet_pass _ _ _ H Hc).
        unfold blocked_count in *. cbn. lia.
    + rewrite (process_packet_raise _ _ _ H). unfold blocked_count in *. cbn. lia.
  - destruct c as [[[|ch v]|]| |t]; cbn; try (split; assumption).
    + destruct (BlockMode_of_value (String ch v)); cbn; split; assumption.
    + split; reflexivity.
Qed.

Lemma packets_since_reset_cons (s : Step) (steps : list Step) (a : Z) :
  packets_since_reset (s :: steps) a
  = packets_since_reset steps (packets_since_reset [s] a).
Proof. destruct s as [p|[| |]]; reflexivity. Qed.

Lemma failures_since_reset_cons (s : Step) (steps : list Step) (b : Z) :
  failures_since_reset (s :: steps) b
  = failures_since_reset steps (failures_since_reset [s] b).
Proof.
  destruct s as [p|[| |]]; try reflexivity.
  cbn. destruct (get_payload_IP p); reflexivity.
Qed.

Lemma run_steps_accounting (steps : list Step) (self : DPISimulator) (a b : Z) :
  total_packets (stats self) = a ->
  (total_packets (stats self)
   - (blocked_count (stats self) + passed (stats self)))%Z = b ->
  total_packets (stats (run_steps self steps)) = packets_since_reset steps a
  /\ (total_packets (stats (run_steps self steps))
      - (blocked_count (stats (run_steps self steps))
         + passed (stats (run_steps self steps))))%Z
     = failures_since_reset steps b.
Proof.
  revert self a b. induction steps as [|s steps IH]; intros self a b Ha Hb.
  - split; assumption.
  - rewrite packets_since_reset_cons, failures_since_reset_cons.
    destruct (step_accounting s self a b Ha Hb) as [Ha' Hb'].
    exact (IH (step self s) _ _ Ha' Hb').
Qed.

(** X17. On TCP port 443 only the SNI extractor decides and on port
    80 only the Host extractor: a packet to port 443 in which no
    blocked server name is found is accepted whatever else it carries,
    an HTTP request for a blocked host included, and likewise a packet
    to port 80 in which no blocked Host header is found. *)
Theorem port_decides_extractor (packet : Packet) (ip_packet : IP) (tcp : TCP)
  (payload : bytes) (self : DPISimulator) :
  get_payload_IP packet = Ret ip_packet ->
  transport ip_packet = HasTCP tcp ->
  raw_load ip_packet = Some payload ->
  (tcp_dport tcp = 443%Z
   /\ forall sni, _extract_sni payload = Ret (Some sni) -> sni <> "" ->
                  _is_domain_blocked (blocked_domains self) sni = false)
  \/ (tcp_dport tcp = 80%Z
      /\ forall host, _extract_http_host payload = Ret (Some host) -> host <> "" ->
                      _is_domain_blocked (blocked_domains self) host = false) ->
  trace_of (process_packet packet self) = [EvVerdict Accept]
  /\ passed (stats (state_of (process_packet packet self)))
     = (passed (stats self) + 1)%Z
  /\ blocked_count (stats (state_of (process_packet packet self)))
     = blocked_count (stats self).
Proof.
  intros H Ht Hr Hcase.
  assert (classify (blocked_domains self) ip_packet = None) as Hc.
  { unfold classify, name_hit. rewrite Ht, Hr.
    destruct Hcase as [[Hp Hn] | [Hp Hn]]; rewrite Hp; cbn.
    - destruct (_extract_sni payload) as [[[|c d]|]|]; try reflexivity.
      now rewrite (Hn (String c d) eq_refl).
    - destruct (_extract_http_host payload) as [[[|c d]|]|]; try reflexivity.
      now rewrite (Hn (String c d) eq_refl). }
  rewrite (process_packet_pass _ _ _ H Hc). cbn. repeat split.
Qed.

Lemma port_decides_extractor_witness :
  trace_of (process_packet
    (intercepted
       {| ip_src := "10.0.0.2"; ip_dst := "93.184.216.34";
          transport := HasTCP {| tcp_sport := 50000; tcp_dport := 443;
                                 tcp_seq := 1; tcp_ack := None |};
          raw_load := Some sample_http_request |} false)
    (sample_simulator DROP)) = [EvVerdict Accept].
Proof.
  apply (port_decides_extractor
    (intercepted
       {| ip_src := "10.0.0.2"; ip_dst := "93.184.216.34";
          transport := HasTCP {| tcp_sport := 50000; tcp_dport := 443;
                                 tcp_seq := 1; tcp_ack := None |};
          raw_load := Some sample_http_request |} false)
    _ {| tcp_sport := 50000; tcp_dport := 443; tcp_seq := 1; tcp_ack := None |}
    sample_http_request (sample_simulator DROP) eq_refl eq_refl eq_refl).
  left. split; [reflexivity|].
  intros sni Hs. exfalso. revert Hs. vm_compute. discriminate.
Defined.

(** ** Per-domain records *)

Section MapSum.

Context {V : Type}.
Variable g : V -> Z.

Let total (m : gmap string V) : Z :=
  map_fold (fun _ v acc => (g v + acc)%Z) 0%Z m.

Lemma map_sum_empty : total ∅ = 0%Z.
Proof. apply map_fold_empty. Qed.

Lemma map_sum_insert (m : gmap string V) (k : string) (v : V) :
  total (<[k := v]> m)
  = (total m + g v - match m !! k with Some o => g o | None => 0 end)%Z.
Proof.
  unfold total.
  assert (forall (m' : gmap string V) j1 j2 z1 z2 (y : Z),
             j1 <> j2 -> m' !! j1 = Some z1 -> m' !! j2 = Some z2 ->
             (g z1 + (g z2 + y))%Z = (g z2 + (g z1 + y))%Z) as Hcomm
      by (intros; lia).
  destruct (m !! k) as [o|] eqn:E.
  - rewrite <- insert_delete_eq.
    rewrite map_fold_insert_L; [|apply Hcomm|apply lookup_delete_eq].
    rewrite (map_fold_delete_L _ _ k o m); [lia|apply Hcomm|exact E].
  - rewrite map_fold_insert_L; [lia|apply Hcomm|exact E].
Qed.

End MapSum.

Lemma histogram_total_bump (block_type : string) (bt : gmap string Z) :
  histogram_total (bump_block_type block_type bt) = (histogram_total bt + 1)%Z.
Proof.
  unfold histogram_total, bump_block_type.
  rewrite (map_sum_insert (fun n => n)).
  destruct (bt !! block_type); cbn; lia.
Qed.

Lemma domains_blocked_record (now key block_type : string) (s : SimulatorStats) :
  domains_blocked (domain_metrics (record_block now key block_type s))
  = (domains_blocked (domain_metrics s) + 1)%Z.
Proof.
  unfold domains_blocked, record_block. cbn.
  rewrite (map_sum_insert dm_blocked).
  destruct (domain_metrics s !! key); cbn; lia.
Qed.

Lemma step_domains_blocked (s : Step) (self : DPISimulator) :
  domains_blocked (domain_metrics (stats self)) = blocked_count (stats self) ->
  domains_blocked (domain_metrics (stats (step self s)))
  = blocked_count (stats (step self s)).
Proof.
  intros Hs. destruct s as [packet|c]; cbn [step].
  - change ((process_packet packet self).1.2) with (state_of (process_packet packet self)).
    destruct (get_payload_IP packet) as [ip_packet|e] eqn:H.
    + destruct (classify (blocked_domains self) ip_packet) as [[[bt incr] dom]|] eqn:Hc.
      * rewrite (process_packet_hit _ _ _ _ _ _ H Hc).
        destruct (classify_incr _ _ _ _ _ Hc (incr_total_packets (stats self)))
          as (_ & _ & Hn & Hd).
        unfold state_of. cbn [fst snd stats set_stats].
        rewrite domains_blocked_record, Hd.
        unfold record_block, blocked_count in *. cbn in *. lia.
      * rewrite (process_packet_pass _ _ _ H Hc). exact Hs.
    + rewrite (process_packet_raise _ _ _ H). exact Hs.
  - destruct c as [[[|ch v]|]| |t]; cbn; try exact Hs.
    + destruct (BlockMode_of_value (String ch v)); exact Hs.
    + reflexivity.
Qed.

Lemma record_block_consistent (now key block_type : string) (s : SimulatorStats) :
  block_type <> "" ->
  map_Forall (fun _ metrics =>
                (1 <= dm_blocked metrics)%Z
                /\ is_Some (last_blocked metrics)
                /\ histogram_total (block_types metrics) = dm_blocked metrics)
    (domain_metrics s) ->
  map_Forall (fun _ metrics =>
                (1 <= dm_blocked metrics)%Z
                /\ is_Some (last_blocked metrics)
                /\ histogram_total (block_types metrics) = dm_blocked metrics)
    (domain_metrics (record_block now key block_type s)).
Proof.
  intros Hne Hs. unfold record_block. cbn.
  apply map_Forall_insert_2; [|exact Hs].
  destruct block_type as [|c bt]; [contradiction|]. cbn.
  rewrite histogram_total_bump.
  destruct (domain_metrics s !! key) as [old|] eqn:E; cbn.
  - destruct (Hs _ _ E) as (H1 & _ & H3). split; [lia|]. split; [eauto|]. lia.
  - split; [lia|]. split; [eauto|]. reflexivity.
Qed.

(** X7. Over any run from a new simulator every per-domain record has
    been blocked at least once, carries the time of its last block, and
    its block-type counts add up to its [blocked] count. *)
Theorem domain_records_consistent (domains : list string) (m : BlockMode)
  (delay : PyFloat) (t0 : string) (steps : list Step) :
  map_Forall (fun _ metrics =>
                (1 <= dm_blocked metrics)%Z
                /\ is_Some (last_blocked metrics)
                /\ histogram_total (block_types metrics) = dm_blocked metrics)
    (domain_metrics (stats (run_steps (DPISimulator_new domains m delay t0) steps))).
Proof.
  set (ok := fun (_ : string) metrics =>
               (1 <= dm_blocked metrics)%Z
               /\ is_Some (last_blocked metrics)
               /\ histogram_total (block_types metrics) = dm_blocked metrics).
  assert (forall self,
             map_Forall ok (domain_metrics (stats self)) ->
             map_Forall ok (domain_metrics (stats (run_steps self steps)))) as Hrun.
  { induction steps as [|s steps IH]; intros self Hs; [exact Hs|].
    cbn. apply IH. destruct s as [packet|c]; cbn [step].
    - change ((process_packet packet self).1.2)
        with (state_of (process_packet packet self)).
      destruct (get_payload_IP packet) as [ip_packet|e] eqn:H.
      + destruct (classify (blocked_domains self) ip_packet)
          as [[[bt incr] dom]|] eqn:Hc.
        * rewrite (process_packet_hit _ _ _ _ _ _ H Hc).
          unfold state_of. cbn [fst snd stats set_stats].
          apply record_block_consistent.
          -- destruct (classify_hit _ _ _ _ _ Hc)
               as [(?&?&?&?&_&_&_&_&_&->&_) | [(?&?&?&?&_&_&_&_&_&->&_)
                                               | (?&?&_&_&_&_&->&_)]];
               discriminate.
          -- destruct (classify_incr _ _ _ _ _ Hc (incr_total_packets (stats self)))
               as (_ & _ & _ & ->). exact Hs.
        * rewrite (process_packet_pass _ _ _ H Hc). exact Hs.
      + rewrite (process_packet_raise _ _ _ H). exact Hs.
    - destruct c as [[[|ch v]|]| |t]; cbn; try exact Hs.
      + destruct (BlockMode_of_value (String ch v)); exact Hs.
      + apply map_Forall_empty. }
  apply Hrun. apply map_Forall_empty.
Qed.



(** ** The control plane *)


(** The state after a request is that after its command. *)
Lemma do_POST_request_command (path : string) (body : Body) (now : string)
  (self : DPISimulator) :
  (do_POST_request path body now self).2
  = match request_command path body now with
    | Some c => do_POST c self
    | None => self
    end.
Proof.
  unfold do_POST_request, request_command.
  destruct body as [e| | |[|[|c v]|]]; try reflexivity;
    destruct (String.eqb path "/mode"); try reflexivity;
    try (destruct (String.eqb path "/stop"); [reflexivity|];
         destruct (String.eqb path "/reset-stats"); reflexivity).
  cbn [do_POST]. destruct (BlockMode_of_value (String c v)); reflexivity.
Qed.



(** ** The blocklist *)

Lemma lower_char_idem (c : ascii) : lower_char (lower_char c) = lower_char c.
Proof.
  unfold lower_char.
  destruct ((65 <=? nat_of_ascii c) && (nat_of_ascii c <=? 90)) eqn:E.
  - apply andb_true_iff in E as [H1 H2].
    apply Nat.leb_le in H1. apply Nat.leb_le in H2.
    rewrite nat_ascii_embedding by lia.
    destruct (Nat.leb_spec (nat_of_ascii c + 32) 90); [lia|].
    now rewrite andb_false_r.
  - now rewrite E.
Qed.

Lemma lower_idem (s : string) : lower (lower s) = lower s.
Proof.
  induction s as [|c s IH]; cbn [lower]; [reflexivity|].
  now rewrite lower_char_idem, IH.
Qed.

Lemma lower_app (s t : string) : lower (s ++ t)%string = (lower s ++ lower t)%string.
Proof.
  induction s as [|c s IH]; [reflexivity|].
  change (lower (String c (s ++ t)%string)
          = String (lower_char c) (lower s ++ lower t)%string).
  cbn [lower]. now rewrite IH.
Qed.

Lemma length_lower (s : string) : String.length (lower s) = String.length s.
Proof. induction s as [|c s IH]; cbn; congruence. Qed.

Lemma string_length_app (s t : string) :
  String.length (s ++ t)%string = String.length s + String.length t.
Proof.
  induction s as [|c s IH]; [reflexivity|].
  change (S (String.length (s ++ t)%string) = S (String.length s + String.length t)).
  now rewrite IH.
Qed.

Lemma string_app_assoc (s t u : string) :
  (s ++ t ++ u)%string = ((s ++ t) ++ u)%string.
Proof.
  induction s as [|c s IH]; [reflexivity|].
  change (String c (s ++ t ++ u)%string = String c ((s ++ t) ++ u)%string).
  now rewrite IH.
Qed.

Lemma append_same_length_inv (a b c d : string) :
  (a ++ b)%string = (c ++ d)%string -> String.length b = String.length d -> b = d.
Proof.
  revert c. induction a as [|x a IH]; intros c H L.
  - destruct c as [|y c]; [exact H|].
    change (b = String y (c ++ d)%string) in H. subst b.
    change (S (String.length (c ++ d)%string) = String.length d) in L.
    rewrite string_length_app in L. lia.
  - destruct c as [|y c].
    + change (String x (a ++ b)%string = d) in H. subst d.
      change (String.length b = S (String.length (a ++ b)%string)) in L.
      rewrite string_length_app in L. lia.
    + change (String x (a ++ b)%string = String y (c ++ d)%string) in H.
      injection H as _ H. exact (IH _ H L).
Qed.

(** X10. Blocking is closed under subdomains, looks past the letter
    case of the domain asked about, grows with the blocklist and is
    empty for the empty blocklist; an entry of the blocklist that is
    not in lower case blocks nothing. *)
Theorem domain_matching_laws :
  (forall B d sub,
      _is_domain_blocked B d = true ->
      _is_domain_blocked B (sub ++ "." ++ d)%string = true)
  /\ (forall B d d', lower d = lower d' ->
        _is_domain_blocked B d = _is_domain_blocked B d')
  /\ (forall B B' d, (forall x, In x B -> In x B') ->
        _is_domain_blocked B d = true -> _is_domain_blocked B' d = true)
  /\ (forall d, _is_domain_blocked [] d = false)
  /\ (forall b d, lower b <> b -> _is_domain_blocked [b] d = false).
Proof.
  split; [|split; [|split; [|split]]].
  - intros B d sub H. apply is_domain_blocked_true in H.
    apply is_domain_blocked_true. right.
    rewrite !lower_app. change (lower ".") with ".".
    destruct H as [H | (b & Hb & pre & H)].
    + exists (lower d). split; [exact H|]. now exists (lower sub).
    + exists b. split; [exact Hb|].
      exists (lower sub ++ "." ++ pre)%string.
      rewrite H. now rewrite <- !string_app_assoc.
  - intros B d d' H. unfold _is_domain_blocked. now rewrite H.
  - intros B B' d Hi H. apply is_domain_blocked_true in H.
    apply is_domain_blocked_true.
    destruct H as [H | (b & Hb & H)]; [left; auto|right; eauto].
  - reflexivity.
  - intros b d Hb.
    destruct (_is_domain_blocked [b] d) eqn:E; [|reflexivity].
    apply is_domain_blocked_true in E.
    destruct E as [[E | []] | (b' & [<- | []] & pre & E)].
    + rewrite E in Hb. now rewrite lower_idem in Hb.
    + pose proof (lower_idem d) as Hi. rewrite E in Hi at 1.
      rewrite !lower_app in Hi. rewrite E in Hi.
      rewrite !string_app_assoc in Hi.
      apply append_same_length_inv in Hi; [contradiction|].
      apply length_lower.
Qed.

Lemma domain_matching_laws_witness :
  _is_domain_blocked ["example.com"] ("a.b" ++ "." ++ "Example.COM")%string = true.
Proof.
  apply (proj1 domain_matching_laws). reflexivity.
Defined.

Lemma set_add_In (x y : string) (s : list string) :
  In y (set_add x s) <-> y = x \/ In y s.
Proof.
  unfold set_add. destruct (existsb (String.eqb x) s) eqn:E.
  - apply existsb_exists in E as (z & Hz & Heq). apply String.eqb_eq in Heq. subst z.
    split; [tauto|]. now intros [->|H].
  - rewrite in_app_iff. cbn. split; [intros [H|[->|[]]]; tauto|].
    intros [->|H]; tauto.
Qed.

Lemma set_add_NoDup (x : string) (s : list string) :
  NoDup s -> NoDup (set_add x s).
Proof.
  intros H. unfold set_add. destruct (existsb (String.eqb x) s) eqn:E; [exact H|].
  apply NoDup_app. split; [exact H|]. split; [|apply NoDup_singleton].
  intros y Hy Hx. apply list_elem_of_In in Hy. apply list_elem_of_In in Hx.
  destruct Hx as [<-|[]].
  assert (existsb (String.eqb x) s = true) as E'; [|congruence].
  apply existsb_exists. exists x. split; [exact Hy|apply String.eqb_refl].
Qed.

(** The entry a line of the domain file stands for, if any. *)
Lemma load_lines_In (lines : list string) (acc : list string) (x : string) :
  In x (load_lines lines acc) <->
  In x acc
  \/ exists line, In line lines /\ strip line <> ""
                  /\ startswith (strip line) "#" = false /\ x = lower (strip line).
Proof.
  revert acc. induction lines as [|line lines IH]; intros acc; cbn [load_lines].
  - split; [tauto|]. intros [H|(l & [] & _)]. exact H.
  - destruct (strip line) as [|c e] eqn:Es.
    + rewrite IH. split.
      * intros [H|(l & Hl & H)]; [tauto|]. right. exists l. split; [now right|exact H].
      * intros [H|(l & [<-|Hl] & Hne & H)]; [tauto| |].
        -- rewrite Es in Hne. contradiction.
        -- right. eauto.
    + destruct (startswith (String c e) "#") eqn:Eh; cbn [negb].
      * rewrite IH. split.
        -- intros [H|(l & Hl & H)]; [tauto|]. right. exists l. split; [now right|exact H].
        -- intros [H|(l & [<-|Hl] & Hne & Hs & H)]; [tauto| |].
           ++ rewrite Es in Hs. congruence.
           ++ right. eauto.
      * rewrite IH, set_add_In. split.
        -- intros [[->|H]|(l & Hl & H)]; [|tauto|].
           ++ right. exists line. rewrite Es. repeat split; [now left|discriminate|exact Eh].
           ++ right. exists l. split; [now right|exact H].
        -- intros [H|(l & [<-|Hl] & Hne & Hs & H)]; [tauto| |].
           ++ rewrite Es in H. tauto.
           ++ right. eauto.
Qed.

Lemma load_lines_NoDup (lines : list string) (acc : list string) :
  NoDup acc -> NoDup (load_lines lines acc).
Proof.
  revert acc. induction lines as [|line lines IH]; intros acc H; cbn [load_lines];
    [exact H|].
  destruct (strip line) as [|c e]; [now apply IH|].
  destruct (startswith (String c e) "#"); cbn [negb]; [now apply IH|].
  apply IH. now apply set_add_NoDup.
Qed.

(** X11. For a blocklist file of ASCII text: a domain is blocked by
    the loaded blocklist exactly when some line of the file, stripped,
    is not empty, does not start with [#] and, in lower case, equals
    the domain in lower case or follows a dot at its end.  The loaded
    list has no repetitions and its entries are non-empty and in lower
    case. *)
Theorem load_domains_blocks (lines : list string) :
  (Forall (fun line => is_ascii line = true) lines -> _load_domains lines <> None)
  /\ forall blocked : list string,
      _load_domains lines = Some blocked ->
      Forall (fun line => is_ascii line = true) lines
      /\ (forall d,
             _is_domain_blocked blocked d = true <->
             exists line,
               In line lines /\ strip line <> "" /\ startswith (strip line) "#" = false
               /\ (lower d = lower (strip line)
                   \/ exists pre : string,
                        lower d = (pre ++ "." ++ lower (strip line))%string))
      /\ NoDup blocked
      /\ (forall x, In x blocked -> x <> "" /\ lower x = x).
Proof.
  unfold _load_domains. split.
  - intros Ha. pose proof (proj1 (List.Forall_forall _ _) Ha) as Hin.
    destruct (forallb is_ascii lines) eqn:E; [discriminate|].
    assert (forallb is_ascii lines = true) by (apply forallb_forall; exact Hin).
    congruence.
  - intros blocked. destruct (forallb is_ascii lines) eqn:E; [|discriminate].
    intros [= <-]. split; [|split; [|split]].
    + apply List.Forall_forall. exact (proj1 (forallb_forall _ _) E).
    + intros d. rewrite is_domain_blocked_true. split.
      * intros [H | (b & Hb & H)].
        -- apply load_lines_In in H as [[]|(line & Hl & Hne & Hs & Hx)].
           exists line. repeat split; try assumption. now left.
        -- apply load_lines_In in Hb as [[]|(line & Hl & Hne & Hs & ->)].
           exists line. repeat split; try assumption. now right.
      * intros (line & Hl & Hne & Hs & [H | H]).
        -- left. apply load_lines_In. right. exists line. now rewrite H.
        -- right. exists (lower (strip line)). split; [|exact H].
           apply load_lines_In. right. exists line. tauto.
    + apply load_lines_NoDup. constructor.
    + intros x Hx. apply load_lines_In in Hx as [[]|(line & Hl & Hne & Hs & ->)].
      split; [|apply lower_idem].
      destruct (strip line); [contradiction|discriminate].
Qed.

Lemma load_domains_blocks_witness :
  _is_domain_blocked ["example.com"] "cdn.example.com" = true.
Proof.
  apply (proj1 (proj2 (proj2 (load_domains_blocks
                  ["# blocked sites"; ""; "  Example.COM  "; "example.com"])
                 ["example.com"] eq_refl)) "cdn.example.com").
  exists "  Example.COM  ". split; [cbn; tauto|].
  split; [discriminate|]. split; [reflexivity|].
  right. exists "cdn". reflexivity.
Defined.

(** ** The Host extractor on a request *)

Lemma string_forall_app (f : ascii -> bool) (s t : string) :
  string_forall f (s ++ t)%string = string_forall f s && string_forall f t.
Proof.
  induction s as [|c s IH]; [reflexivity|].
  change (f c && string_forall f (s ++ t)%string
          = f c && string_forall f s && string_forall f t).
  now rewrite IH, andb_assoc.
Qed.

Lemma string_forall_impl (f g : ascii -> bool) (s : string) :
  (forall c, f c = true -> g c = true) ->
  string_forall f s = true -> string_forall g s = true.
Proof.
  intros Hfg. induction s as [|c s IH]; cbn [string_forall]; [reflexivity|].
  intros H. apply andb_true_iff in H as [Hc Hs]. now rewrite (Hfg _ Hc), IH.
Qed.

Lemma is_crlf_is_space (c : ascii) : is_crlf c = true -> is_space c = true.
Proof.
  unfold is_crlf. intros H. apply orb_true_iff in H as [H|H];
    apply Ascii.eqb_eq in H; subst c; reflexivity.
Qed.

Lemma host_char_spec (c : ascii) :
  host_char c = true ->
  is_space c = false /\ is_crlf c = false /\ Ascii.eqb c ":" = false.
Proof.
  unfold host_char. intros H. apply andb_true_iff in H as [H1 H2].
  apply negb_true_iff in H1. apply negb_true_iff in H2.
  repeat split; try assumption.
  destruct (is_crlf c) eqn:E; [|reflexivity].
  apply is_crlf_is_space in E. congruence.
Qed.

(** A literal that has no CR in it does not match across a CR. *)
Lemma re_tag_before_cr (pat u w : string) :
  string_forall (fun a => negb (Ascii.eqb (lower_char a) (lower_char "013"))) pat = true ->
  re_tag pat u = None ->
  re_tag pat (u ++ String "013" w)%string = None.
Proof.
  revert u. induction pat as [|a pat IH]; intros u Hp Hu.
  - destruct u; discriminate.
  - cbn [string_forall] in Hp. apply andb_true_iff in Hp as [Ha Hp].
    apply negb_true_iff in Ha.
    destruct u as [|b u].
    + change (re_tag (String a pat) (String "013" w) = None).
      cbn [re_tag]. now rewrite Ha.
    + change (re_tag (String a pat) (String b (u ++ String "013" w)%string) = None).
      cbn [re_tag] in Hu |- *.
      destruct (Ascii.eqb (lower_char a) (lower_char b)); [|reflexivity].
      now apply IH.
Qed.

Lemma re_search_host_skip (pre w : string) :
  occurs_ci "Host:" pre = false ->
  re_search_host (pre ++ String "013" w)%string = re_search_host (String "013" w).
Proof.
  induction pre as [|c pre IH]; intros H; [reflexivity|].
  cbn [occurs_ci] in H.
  destruct (re_tag "Host:" (String c pre)) eqn:E; [discriminate|].
  change (re_search_host (String c (pre ++ String "013" w)%string)
          = re_search_host (String "013" w)).
  cbn [re_search_host]. unfold re_match_host at 1.
  change (String c (pre ++ String "013" w)%string)
    with (String c pre ++ String "013" w)%string at 1.
  rewrite (re_tag_before_cr "Host:" (String c pre) w eq_refl E).
  now apply IH.
Qed.

Lemma re_line_before_cr (a w : string) :
  string_forall (fun c => negb (is_crlf c)) a = true ->
  re_line (a ++ String "013" w)%string = a.
Proof.
  induction a as [|c a IH]; intros H.
  - reflexivity.
  - cbn [string_forall] in H. apply andb_true_iff in H as [Hc Ha].
    apply negb_true_iff in Hc.
    change (re_line (String c (a ++ String "013" w)%string) = String c a).
    cbn [re_line]. now rewrite Hc, IH.
Qed.

Lemma rstrip_no_space (s : string) :
  string_forall (fun c => negb (is_space c)) s = true -> rstrip s = s.
Proof.
  induction s as [|c s IH]; cbn [string_forall rstrip]; [reflexivity|].
  intros H. apply andb_true_iff in H as [Hc Hs]. apply negb_true_iff in Hc.
  rewrite IH, Hc by assumption. now destruct s.
Qed.

Lemma rstrip_cons_no_space (c : ascii) (s : string) :
  is_space c = false -> rstrip (String c s) = String c (rstrip s).
Proof. intros H. cbn [rstrip]. rewrite H. now destruct (rstrip s). Qed.

Lemma rstrip_app_no_space (a : string) (c : ascii) (s : string) :
  is_space c = false ->
  rstrip (a ++ String c s)%string = (a ++ String c (rstrip s))%string.
Proof.
  intros H. induction a as [|x a IH].
  - now apply rstrip_cons_no_space.
  - change (rstrip (String x (a ++ String c s)%string)
            = String x (a ++ String c (rstrip s))%string).
    cbn [rstrip]. rewrite IH. now destruct a.
Qed.

Lemma string_app_cons (c : ascii) (s t : string) :
  (String c s ++ t)%string = String c (s ++ t)%string.
Proof. reflexivity. Qed.

Lemma string_app_nil (t : string) : ("" ++ t)%string = t.
Proof. reflexivity. Qed.

Lemma re_search_host_crlf (s : string) :
  re_search_host (String "013" (String "010" s)) = re_search_host s.
Proof. reflexivity. Qed.

Lemma re_search_host_tag (g s : string) :
  re_ws_group s = Some g ->
  re_search_host (String "H" (String "o" (String "s" (String "t" (String ":"
                    (String " " s)))))) = Some g.
Proof.
  intros H. cbn [re_search_host].
  change (re_match_host (String "H" (String "o" (String "s" (String "t" (String ":"
                    (String " " s)))))))
    with (re_ws_group (String " " s)).
  cbn [re_ws_group]. change (is_space " ") with true. cbv iota. now rewrite H.
Qed.

(** X13. On an HTTP request that starts with one of the method tokens,
    does not contain [Host:] in its request line and has as its first
    header [Host: host] or [Host: host:port], the host neither empty
    nor holding white space or a colon, the Host extractor returns the
    host, without the port. *)
Theorem extract_http_host_request (m target host tail rest : string) :
  let request :=
    (m ++ target ++ crlf ++ "Host: " ++ host ++ tail ++ crlf ++ rest)%string in
  In m http_methods ->
  occurs_ci "Host:" (m ++ target)%string = false ->
  host <> "" ->
  string_forall host_char host = true ->
  (tail = "" \/ exists port, tail = String ":" port
                             /\ string_forall (fun c => negb (is_crlf c)) port = true) ->
  is_ascii request = true ->
  _extract_http_host (encode_ascii request) = Ret (Some host).
Proof.
  intros request Hm Hocc Hne Hhost Htail Hascii.
  unfold _extract_http_host, try_except, extract_http_host_body.
  rewrite decode_encode_ascii by exact Hascii.
  assert (existsb (fun t => startswith request t) http_methods = true) as ->.
  { apply existsb_exists. exists m. split; [exact Hm|].
    apply startswith_spec. now eexists. }
  cbn [negb].
  assert (string_forall (fun c => negb (is_crlf c)) (host ++ tail)%string = true) as Hline.
  { rewrite string_forall_app. apply andb_true_iff. split.
    - apply (string_forall_impl host_char); [|exact Hhost].
      intros c Hc. destruct (host_char_spec _ Hc) as (_ & -> & _). reflexivity.
    - destruct Htail as [->|(port & -> & Hp)]; [reflexivity|].
      cbn [string_forall]. now rewrite Hp. }
  assert (re_search_host request = Some (host ++ tail)%string) as ->.
  { unfold request, crlf.
    rewrite (string_app_assoc m target), (string_app_assoc host tail).
    rewrite !string_app_cons, !string_app_nil.
    rewrite re_search_host_skip by exact Hocc.
    destruct host as [|c h]; [contradiction|].
    cbn [string_forall] in Hhost. apply andb_true_iff in Hhost as [Hc _].
    destruct (host_char_spec _ Hc) as (Hsp & _ & _).
    set (line := (String c h ++ tail)%string) in *.
    assert (re_ws_group (line ++ String "013" (String "010" rest))%string = Some line)
      as Hsp'.
    { unfold line at 1. rewrite !string_app_cons.
      cbn [re_ws_group]. rewrite Hsp. unfold re_group.
      rewrite <- !string_app_cons. fold line.
      now rewrite re_line_before_cr by exact Hline. }
    rewrite re_search_host_crlf, (re_search_host_tag line) by exact Hsp'.
    reflexivity. }
  assert (split_head ":" (strip (host ++ tail)%string) = host
          /\ (contains_char ":" (strip (host ++ tail)%string) = false ->
              strip (host ++ tail)%string = host)) as [Hsplit Hid].
  { assert (contains_char ":" host = false) as Hcolon.
    { clear -Hhost. induction host as [|c h IH]; [reflexivity|].
      cbn [string_forall] in Hhost. apply andb_true_iff in Hhost as [Hc Hh].
      destruct (host_char_spec _ Hc) as (_ & _ & Hcol).
      cbn [contains_char]. now rewrite Hcol, IH. }
    assert (string_forall (fun c => negb (is_space c)) host = true) as Hnsp.
    { apply (string_forall_impl host_char); [|exact Hhost].
      intros c Hc. destruct (host_char_spec _ Hc) as (-> & _ & _). reflexivity. }
    assert (lstrip (host ++ tail)%string = (host ++ tail)%string) as Hl.
    { destruct host as [|c h]; [contradiction|].
      cbn [string_forall] in Hnsp. apply andb_true_iff in Hnsp as [Hc _].
      apply negb_true_iff in Hc.
      change (lstrip (String c (h ++ tail)%string) = String c (h ++ tail)%string).
      cbn [lstrip]. now rewrite Hc. }
    unfold strip. rewrite Hl.
    destruct Htail as [->|(port & -> & Hp)].
    - assert ((host ++ "")%string = host) as ->.
      { clear. induction host as [|c h IH]; [reflexivity|].
        change (String c (h ++ "")%string = String c h). now rewrite IH. }
      rewrite rstrip_no_space by exact Hnsp.
      split; [now apply split_head_id|reflexivity].
    - rewrite rstrip_app_no_space by reflexivity.
      split; [now apply split_head_app|].
      intros Hc. exfalso. clear -Hc.
      induction host as [|c h IH].
      + change (contains_char ":" (String ":" (rstrip port)) = false) in Hc.
        cbn [contains_char] in Hc. now rewrite Ascii.eqb_refl in Hc.
      + change (contains_char ":" (String c (h ++ String ":" (rstrip port))%string)
                = false) in Hc.
        cbn [contains_char] in Hc. apply orb_false_iff in Hc as [_ Hc]. now apply IH. }
  destruct (contains_char ":" (strip (host ++ tail)%string)) eqn:Ec.
  - now rewrite Hsplit.
  - now rewrite Hid.
Qed.

Lemma extract_http_host_request_witness :
  _extract_http_host sample_http_request = Ret (Some "Example.com").
Proof.
  apply (extract_http_host_request "GET " "/index.html HTTP/1.1" "Example.com" ":8080"
           ("Accept: */*" ++ crlf ++ crlf)%string).
  - cbn. tauto.
  - reflexivity.
  - discriminate.
  - reflexivity.
  - right. exists "8080". split; reflexivity.
  - reflexivity.
Defined.

(** ** The Host extractor: which occurrence, which value *)










(** ** The QUIC-Initial detector *)

Lemma quic_first_byte (b0 : byte) :
  negb (Nat.land (Byte.to_nat b0) 128 =? 0)
  && negb (Nat.land (Byte.to_nat b0) 64 =? 0)
  && (Nat.shiftr (Nat.land (Byte.to_nat b0) 48) 4 =? 0)
  = (192 <=? Byte.to_nat b0) && (Byte.to_nat b0 <? 208).
Proof. destruct b0; reflexivity. Qed.

Lemma byte_to_N_zero (b : byte) : Byte.to_N b = 0%N -> b = x00.
Proof.
  intros H. pose proof (Byte.of_to_N b) as Hb. rewrite H in Hb.
  cbn in Hb. congruence.
Qed.

(** X12. The QUIC-Initial detector answers true exactly on payloads of
    at least six bytes whose first byte lies between 0xC0 and 0xCF
    (long header, fixed bit, packet type Initial) and whose version,
    bytes 1 to 4, is not zero; the low four bits of the first byte and
    everything after the version are not looked at. *)
Theorem is_quic_initial_iff (payload : bytes) :
  _is_quic_initial payload = Ret true <->
  exists b0 b1 b2 b3 b4 b5 rest,
    payload = b0 :: b1 :: b2 :: b3 :: b4 :: b5 :: rest
    /\ 192 <= Byte.to_nat b0 < 208
    /\ (b1, b2, b3, b4) <> (x00, x00, x00, x00).
Proof.
  unfold _is_quic_initial, try_except, is_quic_initial_body.
  destruct payload as [|b0 [|b1 [|b2 [|b3 [|b4 [|b5 rest]]]]]];
    try (split; [discriminate | intros (?&?&?&?&?&?&?&[=]&_)]).
  change (length (b0 :: b1 :: b2 :: b3 :: b4 :: b5 :: rest) <? 6) with false.
  cbn [index nth_error mbind exc_bind slice skipn firstn Nat.sub unpack_I].
  pose proof (quic_first_byte b0) as Hb.
  destruct (Nat.land (Byte.to_nat b0) 128 =? 0);
    [|destruct (Nat.land (Byte.to_nat b0) 64 =? 0);
      [|destruct (Nat.shiftr (Nat.land (Byte.to_nat b0) 48) 4 =? 0)]];
    cbn [negb andb] in Hb |- *.
  1,2,4: split; [discriminate|];
    intros (?&?&?&?&?&?&?&[= <- <- <- <- <- <- <-]&[H1 H2]&_);
    symmetry in Hb; apply andb_false_iff in Hb as [Hb|Hb];
    [apply Nat.leb_gt in Hb|apply Nat.ltb_ge in Hb]; lia.
  symmetry in Hb. apply andb_true_iff in Hb as [H1 H2].
  apply Nat.leb_le in H1. apply Nat.ltb_lt in H2.
  destruct (N.eqb_spec (16777216 * Byte.to_N b1 + 65536 * Byte.to_N b2
                        + 256 * Byte.to_N b3 + Byte.to_N b4) 0)%N as [Hz|Hz].
  - assert (b1 = x00 /\ b2 = x00 /\ b3 = x00 /\ b4 = x00) as (-> & -> & -> & ->).
    { repeat split; apply byte_to_N_zero; lia. }
    split; [discriminate|].
    intros (?&?&?&?&?&?&?&[= <- <- <- <- <- <- <-]&_&Hne). now contradiction Hne.
  - split; [|reflexivity].
    intros _. exists b0, b1, b2, b3, b4, b5, rest.
    split; [reflexivity|]. split; [lia|].
    intros [= -> -> -> ->]. now apply Hz.
Qed.

(** ** The SNI extractor and bytes that follow *)

Lemma index_app_l (p e : bytes) (i : nat) :
  i < length p -> index (p ++ e) i = index p i.
Proof. intros H. unfold index. now rewrite nth_error_app1. Qed.

Lemma slice_app_l (p e : bytes) (a b : nat) :
  b <= length p -> slice (p ++ e) a b = slice p a b.
Proof.
  intros H. unfold slice.
  destruct (Nat.le_gt_cases a (length p)) as [Ha|Ha].
  - rewrite skipn_app. replace (a - length p) with 0 by lia. cbn [skipn].
    rewrite firstn_app, length_skipn.
    replace (b - a - (length p - a)) with 0 by lia.
    cbn [firstn]. apply app_nil_r.
  - replace (b - a) with 0 by lia. reflexivity.
Qed.

Ltac sni_check H :=
  match type of H with
  | (if ?c then Ret None else _) = Ret (Some _) =>
      let E := fresh "E" in
      destruct c eqn:E; [discriminate H|];
      lazymatch type of E with
      | (length ?p <? ?n) = false =>
          apply Nat.ltb_ge in E;
          match goal with
          | |- context [length (p ++ ?e) <? n] =>
              rewrite (proj2 (Nat.ltb_ge (length (p ++ e)) n))
                by (rewrite length_app; lia)
          end
      | (length ?p <=? ?n) = false =>
          apply Nat.leb_gt in E;
          match goal with
          | |- context [length (p ++ ?e) <=? n] =>
              rewrite (proj2 (Nat.leb_gt (length (p ++ e)) n))
                by (rewrite length_app; lia)
          end
      | _ => try rewrite E
      end
  end.

Ltac sni_read H v :=
  match type of H with
  | mbind _ ?r = Ret (Some _) =>
      let E := fresh "R" in
      destruct r as [v|] eqn:E; [|discriminate H];
      cbn [mbind exc_bind] in H |- *
  end.

Lemma sni_scan_more (p e : bytes) (E : nat) (s : string) (fuel : nat) :
  forall fuel' off,
    sni_scan fuel p E off = Ret (Some s) ->
    length (p ++ e) < off + 4 * fuel' ->
    sni_scan fuel' (p ++ e) E off = Ret (Some s).
Proof.
  induction fuel as [|fuel IH]; intros fuel' off H Hf; [discriminate|].
  cbn [sni_scan] in H.
  destruct (Nat.leb_spec (off + 4) E) as [HE|_]; [|discriminate].
  destruct (Nat.leb_spec (off + 4) (length p)) as [HL|_]; [|discriminate].
  cbn [andb] in H.
  pose proof (length_app p e) as Hlen.
  destruct fuel' as [|fuel']; [lia|].
  cbn [sni_scan].
  rewrite (proj2 (Nat.leb_le _ _) HE), (proj2 (Nat.leb_le (off + 4) (length (p ++ e))))
    by lia.
  cbn [andb].
  rewrite (slice_app_l p e off (off + 2)), (slice_app_l p e (off + 2) (off + 4)) by lia.
  sni_read H ty. sni_read H ln.
  destruct (Nat.eqb_spec ty 0) as [->|Hty]; cbn [andb] in H |- *.
  - destruct (Nat.leb_spec (off + 4 + ln) (length p)) as [HX|HX].
    + rewrite (proj2 (Nat.leb_le (off + 4 + ln) (length (p ++ e)))) by lia.
      sni_check H.
      rewrite (slice_app_l p e (off + 4) (off + 4 + 2)) by lia.
      sni_read H list_len.
      sni_check H.
      rewrite (index_app_l p e (off + 4 + 2)) by lia.
      sni_read H name_type.
      destruct (name_type =? 0); [|discriminate].
      sni_check H.
      rewrite (slice_app_l p e (off + 4 + 2 + 1) (off + 4 + 2 + 1 + 2)) by lia.
      sni_read H sni_len.
      destruct (Nat.leb_spec (off + 4 + 2 + 1 + 2 + sni_len) (length p)); [|discriminate].
      rewrite (proj2 (Nat.leb_le (off + 4 + 2 + 1 + 2 + sni_len) (length (p ++ e))))
        by lia.
      rewrite (slice_app_l p e (off + 4 + 2 + 1 + 2) (off + 4 + 2 + 1 + 2 + sni_len))
        by lia.
      exact H.
    + rewrite sni_scan_short in H by lia. discriminate.
  - apply IH; [exact H|lia].
Qed.

(** X14. A host name that the SNI extractor finds in a payload it
    finds in the same payload followed by any further bytes. *)
Theorem extract_sni_more_bytes (payload more : bytes) (sni : string) :
  _extract_sni payload = Ret (Some sni) ->
  _extract_sni (payload ++ more) = Ret (Some sni).
Proof.
  unfold _extract_sni, try_except. intros H.
  destruct (extract_sni_body payload) as [[s|]|] eqn:Hb; try discriminate.
  injection H as ->.
  assert (extract_sni_body (payload ++ more) = Ret (Some sni)) as ->; [|reflexivity].
  unfold extract_sni_body in *.
  pose proof (length_app payload more) as Hlen.
  sni_check Hb.
  rewrite (index_app_l payload more 0) by lia. sni_read Hb content_type.
  sni_check Hb.
  rewrite (index_app_l payload more 5) by lia. sni_read Hb handshake_type.
  sni_check Hb.
  sni_check Hb.
  rewrite (index_app_l payload more 43) by lia. sni_read Hb sid.
  sni_check Hb.
  rewrite (slice_app_l payload more (43 + (1 + sid)) (43 + (1 + sid) + 2)) by lia.
  sni_read Hb cs.
  sni_check Hb.
  rewrite (index_app_l payload more (43 + (1 + sid) + (2 + cs))) by lia.
  sni_read Hb comp.
  sni_check Hb.
  rewrite (slice_app_l payload more (43 + (1 + sid) + (2 + cs) + (1 + comp))
             (43 + (1 + sid) + (2 + cs) + (1 + comp) + 2)) by lia.
  sni_read Hb exts.
  apply (sni_scan_more _ _ _ _ _ _ _ Hb). lia.
Qed.

Lemma extract_sni_more_bytes_witness :
  _extract_sni (encode_record sample_client_hello ++ [x17; x03; x03; x00; x00])
  = Ret (Some "example.com").
Proof.
  apply (extract_sni_more_bytes (encode_record sample_client_hello)).
  vm_compute. reflexivity.
Defined.

(** ** What the SNI extractor reads *)

Section SameTail.

Variables (p p' : bytes).
Hypothesis same_length : length p' = length p.
Hypothesis same_bytes :
  forall i, i = 0 \/ i = 5 \/ 43 <= i -> nth_error p' i = nth_error p i.

Lemma index_same (i : nat) :
  i = 0 \/ i = 5 \/ 43 <= i -> index p' i = index p i.
Proof. intros H. unfold index. now rewrite same_bytes. Qed.

Lemma slice_same (a b : nat) : 43 <= a -> slice p' a b = slice p a b.
Proof.
  intros H. unfold slice. f_equal.
  apply nth_error_ext. intros n. rewrite !nth_error_skipn.
  apply same_bytes. lia.
Qed.

Lemma sni_scan_same (fuel E : nat) :
  forall off, 43 <= off -> sni_scan fuel p' E off = sni_scan fuel p E off.
Proof.
  induction fuel as [|fuel IH]; intros off H; [reflexivity|].
  cbn [sni_scan]. rewrite same_length.
  destruct ((off + 4 <=? E) && (off + 4 <=? length p)); [|reflexivity].
  rewrite (slice_same off (off + 2)), (slice_same (off + 2) (off + 4)) by lia.
  destruct (unpack_H (slice p off (off + 2))) as [ty|]; [|reflexivity].
  destruct (unpack_H (slice p (off + 2) (off + 4))) as [ln|]; [|reflexivity].
  cbn [mbind exc_bind].
  destruct ((ty =? 0) && (off + 4 + ln <=? length p)); [|apply IH; lia].
  destruct (length p <? off + 4 + 2); [reflexivity|].
  rewrite (slice_same (off + 4) (off + 4 + 2)) by lia.
  destruct (unpack_H (slice p (off + 4) (off + 4 + 2))) as [ll|]; [|reflexivity].
  cbn [mbind exc_bind].
  destruct (length p <? off + 4 + 2 + 1); [reflexivity|].
  rewrite (index_same (off + 4 + 2)) by lia.
  destruct (index p (off + 4 + 2)) as [nt|]; [|reflexivity].
  cbn [mbind exc_bind].
  destruct (nt =? 0); [|reflexivity].
  destruct (length p <? off + 4 + 2 + 1 + 2); [reflexivity|].
  rewrite (slice_same (off + 4 + 2 + 1) (off + 4 + 2 + 1 + 2)) by lia.
  destruct (unpack_H (slice p (off + 4 + 2 + 1) (off + 4 + 2 + 1 + 2))) as [sl|];
    [|reflexivity].
  cbn [mbind exc_bind].
  now rewrite (slice_same (off + 4 + 2 + 1 + 2) (off + 4 + 2 + 1 + 2 + sl)) by lia.
Qed.

Lemma extract_sni_body_same : extract_sni_body p' = extract_sni_body p.
Proof.
  unfold extract_sni_body. rewrite same_length.
  destruct (length p <? 43); [reflexivity|].
  rewrite (index_same 0) by tauto.
  destruct (index p 0) as [ct|]; [|reflexivity]. cbn [mbind exc_bind].
  destruct (negb (ct =? 22)); [reflexivity|].
  rewrite (index_same 5) by tauto.
  destruct (index p 5) as [ht|]; [|reflexivity]. cbn [mbind exc_bind].
  destruct (negb (ht =? 1)); [reflexivity|].
  destruct (length p <=? 43); [reflexivity|].
  rewrite (index_same 43) by lia.
  destruct (index p 43) as [sid|]; [|reflexivity]. cbn [mbind exc_bind].
  destruct (length p <? 43 + (1 + sid) + 2); [reflexivity|].
  rewrite (slice_same (43 + (1 + sid)) (43 + (1 + sid) + 2)) by lia.
  destruct (unpack_H (slice p (43 + (1 + sid)) (43 + (1 + sid) + 2))) as [cs|];
    [|reflexivity].
  cbn [mbind exc_bind].
  destruct (length p <? 43 + (1 + sid) + (2 + cs) + 1); [reflexivity|].
  rewrite (index_same (43 + (1 + sid) + (2 + cs))) by lia.
  destruct (index p (43 + (1 + sid) + (2 + cs))) as [comp|]; [|reflexivity].
  cbn [mbind exc_bind].
  destruct (length p <? 43 + (1 + sid) + (2 + cs) + (1 + comp) + 2); [reflexivity|].
  rewrite (slice_same (43 + (1 + sid) + (2 + cs) + (1 + comp))
             (43 + (1 + sid) + (2 + cs) + (1 + comp) + 2)) by lia.
  destruct (unpack_H (slice p (43 + (1 + sid) + (2 + cs) + (1 + comp))
                        (43 + (1 + sid) + (2 + cs) + (1 + comp) + 2))) as [el|];
    [|reflexivity].
  cbn [mbind exc_bind]. apply sni_scan_same. lia.
Qed.

End SameTail.

(** X15. The SNI extractor reads byte 0, byte 5 and the bytes from
    offset 43 on, and nothing else: two payloads of the same length
    that agree there give the same result.  The record version, the
    record and handshake lengths, the client version and the random are
    never looked at. *)
Theorem extract_sni_reads (p p' : bytes) :
  length p' = length p ->
  (forall i, i = 0 \/ i = 5 \/ 43 <= i -> nth_error p' i = nth_error p i) ->
  _extract_sni p' = _extract_sni p.
Proof.
  intros Hl Hb. unfold _extract_sni.
  now rewrite (extract_sni_body_same p p' Hl Hb).
Qed.

Lemma extract_sni_reads_witness :
  _extract_sni ([x16; xff; xff; xff; xff; x01]
                ++ repeat xff 37 ++ skipn 43 (encode_record sample_client_hello))
  = _extract_sni (encode_record sample_client_hello).
Proof.
  apply extract_sni_reads.
  - vm_compute. reflexivity.
  - intros i [->|[->|H]]; [reflexivity|reflexivity|].
    change ([x16; xff; xff; xff; xff; x01] ++ repeat xff 37
            ++ skipn 43 (encode_record sample_client_hello))
      with (([x16; xff; xff; xff; xff; x01] ++ repeat xff 37)
            ++ skipn 43 (encode_record sample_client_hello)).
    assert (length ([x16; xff; xff; xff; xff; x01] ++ repeat xff 37) = 43) as Hl
      by reflexivity.
    rewrite nth_error_app2 by (rewrite Hl; exact H).
    rewrite Hl, nth_error_skipn. f_equal. lia.
Defined.

(** ** A ClientHello through the packet path *)

Lemma extract_sni_record (ch : ClientHello) :
  well_formed ch -> _extract_sni (encode_record ch) = Ret (Some (server_name ch)).
Proof.
  intros Hwf. rewrite <- (firstn_all (encode_record ch)) at 1.
  rewrite extract_sni_prefix by assumption.
  destruct Hwf as (Hrand & _).
  pose proof (hostname_end_le_length ch Hrand).
  destruct (Nat.leb_spec (hostname_end ch) (length (encode_record ch)));
    [reflexivity|lia].
Qed.

(** X16. A TCP packet to port 443 that carries a well-formed
    ClientHello with a non-empty server name: if the name is blocked
    the packet counts in [blocked_sni] and not in [passed], the record
    of the name gets one more block of type SNI, and the verdict is
    accept in mode THROTTLE and drop in the other modes; if the name is
    not blocked the packet is accepted and counts in [passed]. *)
Theorem client_hello_verdict (ch : ClientHello) (packet : Packet) (ip_packet : IP)
  (tcp : TCP) (self : DPISimulator) :
  well_formed ch -> server_name ch <> "" ->
  get_payload_IP packet = Ret ip_packet ->
  transport ip_packet = HasTCP tcp -> tcp_dport tcp = 443%Z ->
  raw_load ip_packet = Some (encode_record ch) ->
  let run := process_packet packet self in
  let dm := domain_metrics (stats self) in
  let old := default DomainMetrics_new (dm !! server_name ch) in
  if _is_domain_blocked (blocked_domains self) (server_name ch)
  then verdicts (trace_of run)
       = [match mode self with THROTTLE => Accept | _ => Drop end]
       /\ blocked_sni (stats (state_of run)) = (blocked_sni (stats self) + 1)%Z
       /\ passed (stats (state_of run)) = passed (stats self)
       /\ exists metrics,
           domain_metrics (stats (state_of run)) !! server_name ch = Some metrics
           /\ dm_blocked metrics = (dm_blocked old + 1)%Z
           /\ block_types metrics !! "SNI"
              = Some (default 0%Z (block_types old !! "SNI") + 1)%Z
  else trace_of run = [EvVerdict Accept]
       /\ passed (stats (state_of run)) = (passed (stats self) + 1)%Z
       /\ blocked_sni (stats (state_of run)) = blocked_sni (stats self)
       /\ domain_metrics (stats (state_of run)) = dm.
Proof.
  intros Hwf Hne H Ht Hp Hr. cbv zeta.
  pose proof (extract_sni_record ch Hwf) as Hs.
  destruct (server_name ch) as [|c d] eqn:En; [contradiction|].
  destruct (_is_domain_blocked (blocked_domains self) (String c d)) eqn:Hb.
  - assert (classify (blocked_domains self) ip_packet
            = Some ("SNI", incr_blocked_sni, Some (String c d))) as Hc.
    { unfold classify, name_hit. rewrite Ht, Hr, Hp, Hs. cbn. now rewrite Hb. }
    rewrite (process_packet_hit _ _ _ _ _ _ H Hc).
    unfold trace_of, state_of. cbn [fst snd].
    rewrite verdicts_log_block, verdicts_action_trace.
    split; [reflexivity|]. split; [reflexivity|]. split; [reflexivity|].
    cbn. eexists. split; [apply lookup_insert_eq|]. cbn.
    split; [reflexivity|]. unfold bump_block_type. apply lookup_insert_eq.
  - assert (classify (blocked_domains self) ip_packet = None) as Hc.
    { unfold classify, name_hit. rewrite Ht, Hr, Hp, Hs. cbn. now rewrite Hb. }
    rewrite (process_packet_pass _ _ _ H Hc). cbn. repeat split.
Qed.

Lemma client_hello_verdict_witness :
  verdicts (trace_of (process_packet
    (intercepted
       {| ip_src := "10.0.0.2"; ip_dst := "93.184.216.34";
          transport := HasTCP {| tcp_sport := 50000; tcp_dport := 443;
                                 tcp_seq := 1; tcp_ack := None |};
          raw_load := Some (encode_record sample_client_hello) |} false)
    (sample_simulator DROP))) = [Drop].
Proof.
  pose proof (client_hello_verdict sample_client_hello
    (intercepted
       {| ip_src := "10.0.0.2"; ip_dst := "93.184.216.34";
          transport := HasTCP {| tcp_sport := 50000; tcp_dport := 443;
                                 tcp_seq := 1; tcp_ack := None |};
          raw_load := Some (encode_record sample_client_hello) |} false)
    _ {| tcp_sport := 50000; tcp_dport := 443; tcp_seq := 1; tcp_ack := None |}
    (sample_simulator DROP) sample_client_hello_well_formed
    ltac:(discriminate) eq_refl eq_refl eq_refl eq_refl) as H.
  cbv zeta in H.
  change (_is_domain_blocked (blocked_domains (sample_simulator DROP))
            (server_name sample_client_hello)) with true in H.
  exact (proj1 H).
Defined.

(** ** Side effects and monotonicity of the packet path *)

Lemma sleeps_action_trace (m : BlockMode) (limit : Q) (delay : PyFloat)
  (raises : bool) (ip_packet : IP) :
  sleeps (action_trace m limit delay raises ip_packet)
  = match m with
    | THROTTLE => if sleep_takes limit delay then [delay] else []
    | _ => []
    end.
Proof.
  unfold action_trace. destruct m; try reflexivity.
  - destruct (transport ip_packet); try reflexivity. destruct raises; reflexivity.
  - destruct (sleep_takes limit delay); reflexivity.
Qed.

Lemma injections_action_trace (m : BlockMode) (limit : Q) (delay : PyFloat)
  (raises : bool) (ip_packet : IP) :
  injections (action_trace m limit delay raises ip_packet)
  = match m, transport ip_packet with
    | RST, HasTCP tcp => [rst_for ip_packet tcp]
    | _, _ => []
    end.
Proof.
  unfold action_trace. destruct m; try reflexivity.
  - destruct (transport ip_packet); try reflexivity. destruct raises; reflexivity.
  - destruct (sleep_takes limit delay); reflexivity.
Qed.

(** X18. Processing one packet sleeps at most once and sends at most
    one segment, and never both: it sleeps only in mode THROTTLE, for
    the configured delay, and sends only in mode RST, in both cases
    only for a packet counted as blocked. *)
Theorem side_effects_by_mode (packet : Packet) (self : DPISimulator) :
  let run := process_packet packet self in
  let blocked :=
    blocked_count (stats (state_of run)) = (blocked_count (stats self) + 1)%Z in
  (sleeps (trace_of run) = []
   \/ sleeps (trace_of run) = [throttle_delay self]
      /\ mode self = THROTTLE /\ blocked)
  /\ (injections (trace_of run) = []
      \/ (exists seg, injections (trace_of run) = [seg])
         /\ mode self = RST /\ blocked)
  /\ (sleeps (trace_of run) = [] \/ injections (trace_of run) = []).
Proof.
  cbv zeta.
  destruct (get_payload_IP packet) as [ip_packet|e] eqn:H.
  - destruct (classify (blocked_domains self) ip_packet) as [[[bt incr] dom]|] eqn:Hc.
    + rewrite (process_packet_hit _ _ _ _ _ _ H Hc).
      destruct (classify_incr _ _ _ _ _ Hc (incr_total_packets (stats self)))
        as (_ & _ & Hn & _).
      unfold trace_of, state_of. cbn [fst snd].
      change (sleeps (EvLogBlock ?a ?b ?c ?d ?e :: ?t)) with (sleeps t).
      rewrite injections_log_block, sleeps_action_trace, injections_action_trace.
      assert (blocked_count
                (stats (set_stats
                          (fun s => record_block (now packet) (metrics_key dom) bt (incr s))
                          (set_stats incr_total_packets self)))
              = (blocked_count (stats self) + 1)%Z) as Hb.
      { unfold record_block, blocked_count in *. cbn in *. lia. }
      destruct (mode self).
      * split; [now left|split; now left].
      * split; [now left|split; [|now left]].
        destruct (transport ip_packet) as [tcp| |]; [|now left|now left].
        right. split; [now exists (rst_for ip_packet tcp)|now split].
      * split; [now left|split; now left].
      * split; [|split; [now left|now right]].
        destruct (sleep_takes (sleep_limit packet) (throttle_delay self)); [|now left].
        right. split; [reflexivity|now split].
    + rewrite (process_packet_pass _ _ _ H Hc). cbn. tauto.
  - rewrite (process_packet_raise _ _ _ H). cbn. tauto.
Qed.

(** X19. Processing a packet adds one to [total_packets], lowers no
    counter, removes no per-domain record and lowers no per-domain
    [blocked] count. *)
Theorem process_packet_monotone (packet : Packet) (self : DPISimulator) :
  let s := stats self in
  let s' := stats (state_of (process_packet packet self)) in
  total_packets s' = (total_packets s + 1)%Z
  /\ (blocked_sni s <= blocked_sni s')%Z
  /\ (blocked_http s <= blocked_http s')%Z
  /\ (blocked_quic s <= blocked_quic s')%Z
  /\ (passed s <= passed s')%Z
  /\ forall k metrics,
       domain_metrics s !! k = Some metrics ->
       exists metrics',
         domain_metrics s' !! k = Some metrics'
         /\ (dm_blocked metrics <= dm_blocked metrics')%Z
         /\ dm_passed metrics' = dm_passed metrics.
Proof.
  cbv zeta.
  destruct (get_payload_IP packet) as [ip_packet|e] eqn:H.
  - destruct (classify (blocked_domains self) ip_packet) as [[[bt incr] dom]|] eqn:Hc.
    + rewrite (process_packet_hit _ _ _ _ _ _ H Hc).
      unfold state_of. cbn [fst snd stats set_stats].
      assert (incr = incr_blocked_sni \/ incr = incr_blocked_http
              \/ incr = incr_blocked_quic) as Hi.
      { destruct (classify_hit _ _ _ _ _ Hc)
          as [(?&?&?&?&_&_&_&_&_&_&->&_) | [(?&?&?&?&_&_&_&_&_&_&->&_)
                                            | (?&?&_&_&_&_&_&->&_)]]; tauto. }
      assert (domain_metrics
                (record_block (now packet) (metrics_key dom) bt
                   (incr (incr_total_packets (stats self))))
              = <[metrics_key dom :=
                    metrics_blocked (now packet) (Some bt)
                      (default DomainMetrics_new
                         (domain_metrics (stats self) !! metrics_key dom))]>
                  (domain_metrics (stats self))) as Hd.
      { destruct Hi as [-> | [-> | ->]]; reflexivity. }
      split; [|split; [|split; [|split; [|split]]]];
        try (destruct Hi as [-> | [-> | ->]]; cbn; lia).
      intros k metrics Hk. rewrite Hd.
      destruct (decide (metrics_key dom = k)) as [<-|Hne].
      * rewrite lookup_insert_eq, Hk. eexists. split; [reflexivity|]. cbn. lia.
      * rewrite lookup_insert_ne by exact Hne. exists metrics. split; [exact Hk|lia].
    + rewrite (process_packet_pass _ _ _ H Hc). cbn.
      repeat split; try lia. intros k metrics Hk. exists metrics. split; [exact Hk|lia].
  - rewrite (process_packet_raise _ _ _ H). cbn.
    repeat split; try lia. intros k metrics Hk. exists metrics. split; [exact Hk|lia].
Qed.

Lemma process_packet_monotone_witness :
  exists metrics',
    domain_metrics (stats (state_of (process_packet
      (intercepted sample_http_packet false)
      (state_of (process_packet (intercepted sample_http_packet false)
                   (sample_simulator DROP)))))) !! "Example.com" = Some metrics'
    /\ (1 <= dm_blocked metrics')%Z.
Proof.
  destruct (proj2 (proj2 (proj2 (proj2 (proj2 (process_packet_monotone
    (intercepted sample_http_packet false)
    (state_of (process_packet (intercepted sample_http_packet false)
                 (sample_simulator DROP))))))))
    "Example.com"
    (metrics_blocked "2024-01-01T00:00:01" (Some "HTTP") DomainMetrics_new))
    as (metrics' & Hl & Hb & _).
  - vm_compute. reflexivity.
  - exists metrics'. split; [exact Hl|]. cbn in Hb. lia.
Defined.

(** ** What the extractors hand to the matcher *)

Lemma nat_of_ascii_of_byte (b : byte) : nat_of_ascii (ascii_of_byte b) = Byte.to_nat b.
Proof.
  rewrite ascii_of_byte_via_nat. apply nat_ascii_embedding.
  pose proof (Byte.to_nat_bounded b). lia.
Qed.

Lemma is_ascii_decode (bs : bytes) : is_ascii (decode_ascii_ignore bs) = true.
Proof.
  induction bs as [|b bs IH]; cbn [decode_ascii_ignore]; [reflexivity|].
  destruct (Nat.ltb_spec (Byte.to_nat b) 128) as [Hb|_]; [|exact IH].
  cbn [is_ascii]. rewrite nat_of_ascii_of_byte, IH.
  now rewrite (proj2 (Nat.ltb_lt _ _) Hb).
Qed.

Lemma is_ascii_app (s t : string) :
  is_ascii (s ++ t)%string = is_ascii s && is_ascii t.
Proof.
  induction s as [|c s IH]; [reflexivity|].
  change (is_ascii (String c (s ++ t)%string) = is_ascii (String c s) && is_ascii t).
  cbn [is_ascii]. now rewrite IH, andb_assoc.
Qed.

Lemma is_ascii_lstrip (s : string) : is_ascii s = true -> is_ascii (lstrip s) = true.
Proof.
  induction s as [|c s IH]; cbn [lstrip]; [reflexivity|].
  intros H. destruct (is_space c); [|exact H].
  cbn [is_ascii] in H. apply andb_true_iff in H as [_ H]. now apply IH.
Qed.

Lemma is_ascii_rstrip (s : string) : is_ascii s = true -> is_ascii (rstrip s) = true.
Proof.
  induction s as [|c s IH]; cbn [rstrip is_ascii]; [reflexivity|].
  intros H. apply andb_true_iff in H as [Hc Hs]. specialize (IH Hs).
  destruct (rstrip s) as [|d r].
  - destruct (is_space c); [reflexivity|]. cbn [is_ascii]. now rewrite Hc.
  - cbn [is_ascii] in IH |- *. now rewrite Hc, IH.
Qed.

Lemma is_ascii_split_head (c : ascii) (s : string) :
  is_ascii s = true -> is_ascii (split_head c s) = true.
Proof.
  induction s as [|a s IH]; cbn [split_head is_ascii]; [reflexivity|].
  intros H. apply andb_true_iff in H as [Ha Hs].
  destruct (Ascii.eqb a c); [reflexivity|]. cbn [is_ascii]. now rewrite Ha, IH.
Qed.

Ltac sni_success H :=
  repeat match type of H with
         | (if ?c then _ else _) = Ret (Some _) => destruct c; try discriminate H
         | mbind _ ?r = Ret (Some _) =>
             destruct r; cbn [mbind exc_bind] in H; try discriminate H
         end.

Lemma sni_scan_decoded (fuel : nat) (p : bytes) (E off : nat) (s : string) :
  sni_scan fuel p E off = Ret (Some s) -> exists x, s = decode_ascii_ignore x.
Proof.
  revert off. induction fuel as [|fuel IH]; intros off H; [discriminate|].
  cbn [sni_scan] in H.
  destruct ((off + 4 <=? E) && (off + 4 <=? length p)); [|discriminate].
  destruct (unpack_H (slice p off (off + 2))) as [ty|]; [|discriminate].
  destruct (unpack_H (slice p (off + 2) (off + 4))) as [ln|]; [|discriminate].
  cbn [mbind exc_bind] in H.
  destruct ((ty =? 0) && (off + 4 + ln <=? length p)); [|exact (IH _ H)].
  sni_success H. injection H as <-. eauto.
Qed.

(** X20. Whatever the payload, a name returned by the SNI extractor
    or by the Host extractor consists of ASCII characters only. *)
Theorem extracted_names_ascii (payload : bytes) (name : string) :
  _extract_sni payload = Ret (Some name) \/ _extract_http_host payload = Ret (Some name) ->
  is_ascii name = true.
Proof.
  intros [H|H].
  - unfold _extract_sni, try_except in H.
    destruct (extract_sni_body payload) as [[s|]|] eqn:Hb; try discriminate.
    injection H as ->. unfold extract_sni_body in Hb.
    sni_success Hb. apply sni_scan_decoded in Hb as [x ->]. apply is_ascii_decode.
  - unfold _extract_http_host, try_except, extract_http_host_body in H.
    pose proof (is_ascii_decode payload) as Ha.
    set (data := decode_ascii_ignore payload) in *.
    destruct (negb (existsb (fun m => startswith data m) http_methods));
      [discriminate|].
    destruct (re_search_host data) as [g|] eqn:Es; [|discriminate].
    destruct (re_search_host_spec _ _ Es) as (pre & tag & ws & rest & Hd & _).
    rewrite Hd, !is_ascii_app in Ha.
    repeat (apply andb_true_iff in Ha as [? Ha]).
    assert (is_ascii (strip g) = true) as Hs
      by (unfold strip; now apply is_ascii_rstrip, is_ascii_lstrip).
    destruct (contains_char ":" (strip g)); injection H as <-;
      [now apply is_ascii_split_head|exact Hs].
Qed.

Lemma extracted_names_ascii_witness : is_ascii "Example.com" = true.
Proof.
  apply (extracted_names_ascii sample_http_request "Example.com").
  right. vm_compute. reflexivity.
Defined.

(** ** The packet thread and the API thread *)

Lemma exec_bind {A B} (p : Threads.Prog A) (f : A -> Threads.Prog B)
  (calls : nat -> list Command) (n : nat) (h : Threads.Shared) :
  Threads.exec (Threads.bind p f) calls n h
  = match Threads.exec p calls n h with
    | (Ret a, h1, t1, n1) =>
        match Threads.exec (f a) calls n1 h1 with
        | (r, h2, t2, n2) => (r, h2, t1 ++ t2, n2)
        end
    | (Raise e, h1, t1, n1) => (Raise e, h1, t1, n1)
    end.
Proof.
  revert n h. induction p as [[a|e]|a k IH|k IH|ev k IH]; intros n h; cbn.
  - now destruct (Threads.exec (f a) calls n h) as [[[r h2] t2] n2].
  - reflexivity.
  - apply IH.
  - apply IH.
  - rewrite IH. destruct (Threads.exec k calls n h) as [[[[a|e] h1] t1] n1]; [|reflexivity].
    now destruct (Threads.exec (f a) calls n1 h1) as [[[r h2] t2] n2].
Qed.

Lemma exec_try_catch {A} (p : Threads.Prog A) (handler : exn -> Threads.Prog A)
  (calls : nat -> list Command) (n : nat) (h : Threads.Shared) :
  Threads.exec (Threads.try_catch p handler) calls n h
  = match Threads.exec p calls n h with
    | (Ret a, h1, t1, n1) => (Ret a, h1, t1, n1)
    | (Raise e, h1, t1, n1) =>
        match Threads.exec (handler e) calls n1 h1 with
        | (r, h2, t2, n2) => (r, h2, t1 ++ t2, n2)
        end
    end.
Proof.
  revert n h. induction p as [[a|e]|a k IH|k IH|ev k IH]; intros n h; cbn.
  - reflexivity.
  - now destruct (Threads.exec (handler e) calls n h) as [[[r h2] t2] n2].
  - apply IH.
  - apply IH.
  - rewrite IH. destruct (Threads.exec k calls n h) as [[[[a|e] h1] t1] n1]; [reflexivity|].
    now destruct (Threads.exec (handler e) calls n1 h1) as [[[r h2] t2] n2].
Qed.

Lemma alter_lookup {V} (f : V -> V) (k : string) (x : V) (m : gmap string V) :
  m !! k = Some x -> alter f k m = <[k := f x]> m.
Proof.
  intros H. rewrite <- (insert_id m k x H) at 1. apply alter_insert_eq.
Qed.

Lemma blocked_writes (now key : string) (x : DomainMetrics)
  (dm : gmap string DomainMetrics) :
  dm !! key = Some x ->
  alter (dm_set_last_blocked now) key (alter dm_incr_blocked key dm)
  = <[key := metrics_blocked now None x]> dm
  /\ forall block_type,
      alter (dm_bump_block_type block_type) key
        (alter (dm_set_last_blocked now) key (alter dm_incr_blocked key dm))
      = <[key := dm_bump_block_type block_type (metrics_blocked now None x)]> dm.
Proof.
  intros H.
  assert (alter (dm_set_last_blocked now) key (alter dm_incr_blocked key dm)
          = <[key := metrics_blocked now None x]> dm) as E.
  { rewrite (alter_lookup _ _ _ _ H).
    rewrite (alter_lookup _ _ (dm_incr_blocked x)) by apply lookup_insert_eq.
    now rewrite insert_insert_eq. }
  split; [exact E|]. intros block_type. rewrite E.
  rewrite (alter_lookup _ _ (metrics_blocked now None x)) by apply lookup_insert_eq.
  now rewrite insert_insert_eq.
Qed.

(** Without calls the packet thread does what [_update_domain_metrics]
    and [process_packet] above do in one step each. *)
Lemma exec_update_alone (now key block_type : string) (n : nat) (h : Threads.Shared) :
  exists n',
    Threads.exec (Threads._update_domain_metrics now key true (Some block_type))
      Threads.alone n h
    = (Ret tt,
       {| Threads.sim := set_stats (record_block now key block_type) (Threads.sim h);
          Threads.stats_id := Threads.stats_id h |},
       [], n').
Proof.
  destruct h as [[B [tp bs bh bq pa st dm] md rn mr td] id].
  unfold Threads._update_domain_metrics, record_block, Threads.update_record.
  cbn. destruct (dm !! key) as [metrics|] eqn:E; cbn.
  - rewrite E. cbn. rewrite !Nat.eqb_refl. cbn.
    destruct (blocked_writes now key metrics dm E) as [E0 E1].
    destruct block_type as [|c bt]; cbn; rewrite ?Nat.eqb_refl;
      unfold set_stats, set_domain_metrics; cbn.
    + rewrite E0, E. eexists. reflexivity.
    + rewrite E1, E. eexists. reflexivity.
  - rewrite lookup_insert_eq. cbn. rewrite !Nat.eqb_refl. cbn.
    destruct (blocked_writes now key DomainMetrics_new (<[key:=DomainMetrics_new]> dm)
                (lookup_insert_eq _ _ _)) as [E0 E1].
    destruct block_type as [|c bt]; cbn; rewrite ?Nat.eqb_refl;
      unfold set_stats, set_domain_metrics; cbn.
    + rewrite E0, E, insert_insert_eq. eexists. reflexivity.
    + rewrite E1, E, insert_insert_eq. eexists. reflexivity.
Qed.

Lemma exec_block_packet_alone (packet : Packet) (ip_packet : IP) (block_type : string)
  (domain : option string) (n : nat) (h : Threads.Shared) :
  transport ip_packet <> NoTransport ->
  exists n',
    Threads.exec (Threads._block_packet packet ip_packet block_type domain)
      Threads.alone n h
    = ((_block_packet packet ip_packet block_type domain (Threads.sim h)).1.1,
       {| Threads.sim :=
            (_block_packet packet ip_packet block_type domain (Threads.sim h)).1.2;
          Threads.stats_id := Threads.stats_id h |},
       (_block_packet packet ip_packet block_type domain (Threads.sim h)).2, n').
Proof.
  intros Ht. rewrite (block_packet_run _ _ _ _ _ Ht). cbn [fst snd].
  unfold Threads._block_packet, Threads.ports, endpoints, dispatch_result.
  unfold mbind, Threads.Prog_bind.
  change (match domain with Some (String c d) => String c d | _ => "unknown" end)
    with (metrics_key domain).
  destruct (transport ip_packet) as [tcp|udp|] eqn:Et; [| |contradiction];
    cbn -[Threads._update_domain_metrics];
    rewrite exec_bind;
    (destruct (exec_update_alone (now packet) (metrics_key domain) block_type
                 (S n) h) as [n1 ->]);
    destruct h as [self id]; cbn;
    (destruct (mode self) eqn:Em; cbn; repeat (rewrite Em; cbn);
     try (eexists; reflexivity)).
  all: try (unfold Threads._send_rst, Threads.send; rewrite Et; cbn;
            destruct (send_raises packet); cbn; eexists; reflexivity).
  all: try (unfold Threads.sleep; cbn;
            destruct (sleep_takes (sleep_limit packet) (throttle_delay self)); cbn;
            eexists; reflexivity).
Qed.

Ltac run_block_alone Et :=
  rewrite exec_try_catch, ?exec_bind;
  match goal with
  | |- context [Threads.exec (Threads._block_packet ?p ?ip ?bt ?dom) Threads.alone ?n ?h] =>
      let n' := fresh "n" in
      destruct (exec_block_packet_alone p ip bt dom n h) as [n' ->];
      [rewrite Et; discriminate|]; cbn [Threads.sim Threads.stats_id];
      match goal with
      | |- context [_block_packet p ip bt dom ?s] =>
          destruct (_block_packet p ip bt dom s) as [[[[]|?] ?] ?]; cbn;
          rewrite ?app_nil_r; eexists; reflexivity
      end
  end.

Lemma exec_process_packet_alone (packet : Packet) (h : Threads.Shared) :
  exists n',
    Threads.exec (Threads.process_packet packet) Threads.alone 0 h
    = ((process_packet packet (Threads.sim h)).1.1,
       {| Threads.sim := (process_packet packet (Threads.sim h)).1.2;
          Threads.stats_id := Threads.stats_id h |},
       (process_packet packet (Threads.sim h)).2, n').
Proof.
  unfold Threads.process_packet, process_packet, Threads.check_domain, check_domain,
    Threads.pass_packet, pass_packet, try_catch.
  unfold mbind, M_bind, Threads.Prog_bind, modify, lift, mret, M_ret, Threads.Prog_ret,
    get_self, emit.
  destruct h as [self id]. cbn -[Threads._block_packet _block_packet].
  destruct (get_payload_IP packet) as [ip_packet|e];
    cbn -[Threads._block_packet _block_packet]; [|eexists; reflexivity].
  destruct (transport ip_packet) as [tcp|udp|] eqn:Et;
    cbn -[Threads._block_packet _block_packet]; [| |eexists; reflexivity].
  - destruct (raw_load ip_packet) as [payload|];
      cbn -[Threads._block_packet _block_packet]; [|eexists; reflexivity].
    destruct (extract_sni_returns payload) as [sni ->].
    destruct (extract_http_host_returns payload) as [host ->].
    destruct (tcp_dport tcp =? 443)%Z; cbn -[Threads._block_packet _block_packet].
    + destruct sni as [[|c d]|]; cbn -[Threads._block_packet _block_packet].
      2: destruct (_is_domain_blocked (blocked_domains self) (String c d));
           cbn -[Threads._block_packet _block_packet]; [run_block_alone Et|].
      all: destruct (tcp_dport tcp =? 80)%Z; cbn -[Threads._block_packet _block_packet];
        try (eexists; reflexivity).
      all: destruct host as [[|c' d']|]; cbn -[Threads._block_packet _block_packet];
        try (eexists; reflexivity).
      all: destruct (_is_domain_blocked (blocked_domains self) (String c' d'));
        cbn -[Threads._block_packet _block_packet];
        [run_block_alone Et|eexists; reflexivity].
    + destruct (tcp_dport tcp =? 80)%Z; cbn -[Threads._block_packet _block_packet];
        [|eexists; reflexivity].
      destruct host as [[|c' d']|]; cbn -[Threads._block_packet _block_packet];
        try (eexists; reflexivity).
      destruct (_is_domain_blocked (blocked_domains self) (String c' d'));
        cbn -[Threads._block_packet _block_packet];
        [run_block_alone Et|eexists; reflexivity].
  - destruct (raw_load ip_packet) as [payload|];
      (destruct (udp_dport udp =? 443)%Z; cbn -[Threads._block_packet _block_packet];
       [|eexists; reflexivity]); [|eexists; reflexivity].
    destruct (is_quic_initial_returns payload) as [[|] ->];
      cbn -[Threads._block_packet _block_packet]; [|eexists; reflexivity].
    run_block_alone Et.
Qed.

(** Calls that are not resets change the mode and the running flag
    and nothing else. *)
Lemma calls_run_quiet (cs : list Command) (h : Threads.Shared) :
  forallb (fun c => negb (Threads.is_reset c)) cs = true ->
  exists m r,
    Threads.calls_run cs h
    = {| Threads.sim := set_running r (set_mode m (Threads.sim h));
         Threads.stats_id := Threads.stats_id h |}.
Proof.
  revert h. induction cs as [|c cs IH]; intros h Hq.
  - exists (mode (Threads.sim h)), (running (Threads.sim h)).
    now destruct h as [[] ?].
  - cbn in Hq. apply andb_true_iff in Hq as [Hc Hq].
    unfold Threads.calls_run. cbn [fold_left].
    fold (Threads.calls_run cs (Threads.call c h)).
    destruct (IH (Threads.call c h) Hq) as (m & r & ->).
    destruct h as [self id].
    destruct c as [[[|ch v]|]| |t]; cbn in *; try discriminate;
      try (eexists _, _; reflexivity).
    destruct (BlockMode_of_value (String ch v)); eexists _, _; reflexivity.
Qed.

Ltac quieten Hq :=
  repeat match goal with
         | |- context [Threads.calls_run (?calls ?k) ?x] =>
             let m := fresh "m" in
             let r := fresh "r" in
             destruct (calls_run_quiet (calls k) x (Hq k)) as (m & r & ->);
             cbn [Threads.sim Threads.stats_id]
         end.

Lemma exec_update_quiet (calls : nat -> list Command) (now key block_type : string)
  (n : nat) (h : Threads.Shared) :
  (forall n, forallb (fun c => negb (Threads.is_reset c)) (calls n) = true) ->
  exists m r n',
    Threads.exec (Threads._update_domain_metrics now key true (Some block_type))
      calls n h
    = (Ret tt,
       {| Threads.sim :=
            set_running r (set_mode m
              (set_stats (record_block now key block_type) (Threads.sim h)));
          Threads.stats_id := Threads.stats_id h |},
       [], n').
Proof.
  intros Hq. destruct h as [[B [tp bs bh bq pa st dm] md rn mr td] id].
  unfold Threads._update_domain_metrics, record_block, Threads.update_record.
  cbn. quieten Hq. cbn.
  destruct (dm !! key) as [metrics|] eqn:E; cbn; quieten Hq; cbn.
  - rewrite E. cbn. quieten Hq. cbn. rewrite !Nat.eqb_refl. cbn. quieten Hq. cbn.
    rewrite ?Nat.eqb_refl. cbn.
    destruct (blocked_writes now key metrics dm E) as [E0 E1].
    destruct block_type as [|c bt]; cbn; quieten Hq; cbn; rewrite ?Nat.eqb_refl;
      unfold set_stats, set_domain_metrics; cbn.
    + rewrite E0, E. eexists _, _, _. reflexivity.
    + rewrite E1, E. eexists _, _, _. reflexivity.
  - rewrite lookup_insert_eq. cbn. quieten Hq. cbn. rewrite !Nat.eqb_refl. cbn.
    quieten Hq. cbn. rewrite ?Nat.eqb_refl. cbn.
    destruct (blocked_writes now key DomainMetrics_new (<[key:=DomainMetrics_new]> dm)
                (lookup_insert_eq _ _ _)) as [E0 E1].
    destruct block_type as [|c bt]; cbn; quieten Hq; cbn; rewrite ?Nat.eqb_refl;
      unfold set_stats, set_domain_metrics; cbn.
    + rewrite E0, E, insert_insert_eq. eexists _, _, _. reflexivity.
    + rewrite E1, E, insert_insert_eq. eexists _, _, _. reflexivity.
Qed.

Lemma exec_block_packet_quiet (calls : nat -> list Command) (packet : Packet)
  (ip_packet : IP) (block_type : string) (domain : option string)
  (n : nat) (h : Threads.Shared) :
  (forall n, forallb (fun c => negb (Threads.is_reset c)) (calls n) = true) ->
  transport ip_packet <> NoTransport ->
  exists m r res t n',
    Threads.exec (Threads._block_packet packet ip_packet block_type domain) calls n h
    = (res,
       {| Threads.sim :=
            set_running r (set_mode m
              (set_stats (record_block (now packet) (metrics_key domain) block_type)
                 (Threads.sim h)));
          Threads.stats_id := Threads.stats_id h |},
       t, n').
Proof.
  intros Hq Ht.
  unfold Threads._block_packet, Threads.ports.
  unfold mbind, Threads.Prog_bind.
  change (match domain with Some (String c d) => String c d | _ => "unknown" end)
    with (metrics_key domain).
  destruct (transport ip_packet) as [tcp|udp|] eqn:Et; [| |contradiction];
    cbn -[Threads._update_domain_metrics]; quieten Hq;
    rewrite exec_bind;
    match goal with
    | |- context [Threads.exec (Threads._update_domain_metrics ?a ?b true (Some ?c))
                    calls ?k ?x] =>
        destruct (exec_update_quiet calls a b c k x Hq) as (m1 & r1 & n1 & ->)
    end;
    destruct h as [[B st md rn mr td] id]; cbn;
    repeat (quieten Hq; cbn;
            match goal with
            | |- context [match ?m with DROP => _ | _ => _ end] => is_var m; destruct m
            end; cbn);
    quieten Hq; cbn;
    unfold Threads._send_rst, Threads.send, Threads.sleep; rewrite ?Et; cbn;
    try destruct (send_raises packet); cbn;
    try match goal with
        | |- context [sleep_takes ?l ?d] => destruct (sleep_takes l d)
        end; cbn;
    eexists _, _, _, _, _; reflexivity.
Qed.

Ltac run_block_quiet Hq Et :=
  rewrite exec_try_catch, ?exec_bind;
  match goal with
  | |- context [Threads.exec (Threads._block_packet ?p ?ip ?bt ?dom) ?calls ?n ?h] =>
      let m := fresh "m" in
      let r := fresh "r" in
      let res := fresh "res" in
      let t := fresh "t" in
      let n' := fresh "n" in
      destruct (exec_block_packet_quiet calls p ip bt dom n h Hq)
        as (m & r & res & t & n' & ->);
      [rewrite Et; discriminate|];
      destruct res as [[]|?]; cbn; eexists _, _, _, _; reflexivity
  end.

Ltac step_quiet Hq := cbn -[Threads._block_packet]; quieten Hq; cbn -[Threads._block_packet].

(** The calls that come in while a packet is processed, resets apart,
    do not show in the statistics: these are the statistics that
    [process_packet] leaves when it runs in one step, and the calls
    have at most changed the mode and the running flag. *)
Lemma exec_process_packet_quiet (calls : nat -> list Command) (packet : Packet)
  (h : Threads.Shared) :
  (forall n, forallb (fun c => negb (Threads.is_reset c)) (calls n) = true) ->
  exists m r t n',
    Threads.exec (Threads.process_packet packet) calls 0 h
    = (Ret tt,
       {| Threads.sim :=
            set_running r (set_mode m (state_of (process_packet packet (Threads.sim h))));
          Threads.stats_id := Threads.stats_id h |},
       t, n').
Proof.
  intros Hq. rewrite process_packet_run.
  unfold process_packet_result, classify, name_hit, state_of.
  unfold Threads.process_packet, Threads.check_domain, Threads.pass_packet.
  unfold mbind, Threads.Prog_bind, mret, Threads.Prog_ret.
  destruct h as [[B st md rn mr td] id]. step_quiet Hq.
  destruct (get_payload_IP packet) as [ip_packet|e]; step_quiet Hq;
    [|eexists _, _, _, _; reflexivity].
  destruct (transport ip_packet) as [tcp|udp|] eqn:Et; step_quiet Hq;
    [| |eexists _, _, _, _; reflexivity].
  - destruct (raw_load ip_packet) as [payload|]; step_quiet Hq;
      [|eexists _, _, _, _; reflexivity].
    destruct (extract_sni_returns payload) as [sni ->].
    destruct (extract_http_host_returns payload) as [host ->].
    destruct (tcp_dport tcp =? 443)%Z; step_quiet Hq.
    + destruct sni as [[|c d]|]; step_quiet Hq.
      2: destruct (_is_domain_blocked B (String c d)); step_quiet Hq;
           [run_block_quiet Hq Et|].
      all: destruct (tcp_dport tcp =? 80)%Z; step_quiet Hq;
        try (eexists _, _, _, _; reflexivity).
      all: destruct host as [[|c' d']|]; step_quiet Hq;
        try (eexists _, _, _, _; reflexivity).
      all: destruct (_is_domain_blocked B (String c' d')); step_quiet Hq;
        [run_block_quiet Hq Et|eexists _, _, _, _; reflexivity].
    + destruct (tcp_dport tcp =? 80)%Z; step_quiet Hq;
        [|eexists _, _, _, _; reflexivity].
      destruct host as [[|c' d']|]; step_quiet Hq;
        try (eexists _, _, _, _; reflexivity).
      destruct (_is_domain_blocked B (String c' d')); step_quiet Hq;
        [run_block_quiet Hq Et|eexists _, _, _, _; reflexivity].
  - destruct (raw_load ip_packet) as [payload|];
      (destruct (udp_dport udp =? 443)%Z; step_quiet Hq;
       [|eexists _, _, _, _; reflexivity]); [|eexists _, _, _, _; reflexivity].
    destruct (is_quic_initial_returns payload) as [[|] ->]; step_quiet Hq;
      [|eexists _, _, _, _; reflexivity].
    run_block_quiet Hq Et.
Qed.

Lemma process_packet_same_data (packet : Packet) (self self' : DPISimulator) :
  stats self = stats self' ->
  blocked_domains self = blocked_domains self' ->
  stats (state_of (process_packet packet self))
  = stats (state_of (process_packet packet self'))
  /\ blocked_domains (state_of (process_packet packet self)) = blocked_domains self.
Proof.
  intros Hs Hb. rewrite !process_packet_run. unfold process_packet_result.
  rewrite <- Hb. destruct self, self'. cbn in *. subst.
  destruct (get_payload_IP packet) as [ip_packet|e]; [|split; reflexivity].
  destruct (classify _ ip_packet) as [[[bt incr] dom]|]; split; reflexivity.
Qed.

(** As long as no reset comes in while a packet is processed, the
    statistics of a run are those of the run in which every packet is
    processed in one step. *)
Lemma run_sequential_stats (moves : list Threads.Move) (h : Threads.Shared)
  (self : DPISimulator) :
  Forall Threads.resets_between_packets moves ->
  stats (Threads.sim h) = stats self ->
  blocked_domains (Threads.sim h) = blocked_domains self ->
  stats (Threads.sim (Threads.run h moves))
  = stats (run_steps self (map Threads.sequential moves)).
Proof.
  intros Hm. revert h self. induction Hm as [|mv moves Hq _ IH]; intros h self Hs Hb;
    [exact Hs|].
  cbn. apply IH; destruct mv as [packet calls|c]; cbn [Threads.move Threads.sequential step].
  - destruct (exec_process_packet_quiet calls packet h Hq) as (m & r & t & n' & ->).
    cbn. apply process_packet_same_data; assumption.
  - destruct c as [[[|ch v]|]| |t]; cbn; try exact Hs.
    + destruct (BlockMode_of_value (String ch v)); exact Hs.
    + reflexivity.
  - destruct (exec_process_packet_quiet calls packet h Hq) as (m & r & t & n' & ->).
    cbn.
    rewrite (proj2 (process_packet_same_data packet (Threads.sim h) self Hs Hb)).
    rewrite Hb. symmetry.
    exact (proj2 (process_packet_same_data packet self self eq_refl eq_refl)).
  - destruct c as [[[|ch v]|]| |t]; cbn; try exact Hb.
    destruct (BlockMode_of_value (String ch v)); exact Hb.
Qed.

Lemma failures_since_reset_nonneg (steps : list Step) (b : Z) :
  (0 <= b)%Z -> (0 <= failures_since_reset steps b)%Z.
Proof.
  revert b. induction steps as [|[p|[| |]] l IHl]; intros b Hb0; cbn;
    try (apply IHl; lia); [exact Hb0|].
  destruct (get_payload_IP p); apply IHl; lia.
Qed.

(** X5. Over any run of packets and calls from a new simulator in
    which no reset comes in while a packet is processed (any other call
    may), [total_packets] is the number of packets intercepted since
    the last reset, and it exceeds [blocked_sni + blocked_http +
    blocked_quic + passed] by exactly the number of those packets on
    which parsing raised; so the sum never exceeds [total_packets]. *)
Theorem counters_account (domains : list string) (m : BlockMode)
  (delay : PyFloat) (t0 : string) (moves : list Threads.Move) :
  Forall Threads.resets_between_packets moves ->
  let s := stats (Threads.sim (Threads.run (Threads.new domains m delay t0) moves)) in
  let steps := map Threads.sequential moves in
  total_packets s = packets_since_reset steps 0
  /\ total_packets s
     = (blocked_sni s + blocked_http s + blocked_quic s + passed s
        + failures_since_reset steps 0)%Z
  /\ (blocked_sni s + blocked_http s + blocked_quic s + passed s <= total_packets s)%Z.
Proof.
  intros Hm. cbv zeta.
  rewrite (run_sequential_stats moves (Threads.new domains m delay t0)
             (DPISimulator_new domains m delay t0) Hm eq_refl eq_refl).
  destruct (run_steps_accounting (map Threads.sequential moves)
              (DPISimulator_new domains m delay t0) 0 0 eq_refl eq_refl) as [Ha Hb].
  unfold blocked_count in Hb.
  pose proof (failures_since_reset_nonneg (map Threads.sequential moves) 0%Z ltac:(lia)).
  repeat split; [exact Ha|lia|lia].
Qed.

Lemma counters_account_witness :
  total_packets (stats (Threads.sim (Threads.run
    (Threads.new ["example.com"] DROP (Finite 2) "t0")
    [Threads.Process (intercepted sample_http_packet false)
       (fun n => if n =? 3 then [PostMode (Some "throttle"); PostStop] else []);
     Threads.Call (PostResetStats "t1");
     Threads.Process (intercepted sample_quic_packet false) Threads.alone]))) = 1%Z.
Proof.
  apply (counters_account ["example.com"] DROP (Finite 2) "t0"
           [Threads.Process (intercepted sample_http_packet false)
              (fun n => if n =? 3 then [PostMode (Some "throttle"); PostStop] else []);
            Threads.Call (PostResetStats "t1");
            Threads.Process (intercepted sample_quic_packet false) Threads.alone]).
  repeat constructor. intros n. cbn. destruct (n =? 3); reflexivity.
Defined.

Lemma run_steps_domains_blocked (steps : list Step) (self : DPISimulator) :
  domains_blocked (domain_metrics (stats self)) = blocked_count (stats self) ->
  domains_blocked (domain_metrics (stats (run_steps self steps)))
  = blocked_count (stats (run_steps self steps)).
Proof.
  revert self. induction steps as [|s steps IH]; intros self Hs; [exact Hs|].
  cbn. apply IH. now apply step_domains_blocked.
Qed.

(** X6. Over any run from a new simulator in which no reset comes in
    while a packet is processed, the [blocked] counts of the per-domain
    records add up to [blocked_sni + blocked_http + blocked_quic]. *)
Theorem domains_blocked_total (domains : list string) (m : BlockMode)
  (delay : PyFloat) (t0 : string) (moves : list Threads.Move) :
  Forall Threads.resets_between_packets moves ->
  let s := stats (Threads.sim (Threads.run (Threads.new domains m delay t0) moves)) in
  domains_blocked (domain_metrics s)
  = (blocked_sni s + blocked_http s + blocked_quic s)%Z.
Proof.
  intros Hm. cbv zeta.
  rewrite (run_sequential_stats moves (Threads.new domains m delay t0)
             (DPISimulator_new domains m delay t0) Hm eq_refl eq_refl).
  apply (run_steps_domains_blocked (map Threads.sequential moves)
           (DPISimulator_new domains m delay t0)).
  reflexivity.
Qed.

Lemma domains_blocked_total_witness :
  let s := stats (Threads.sim (Threads.run
    (Threads.new ["example.com"] DROP (Finite 2) "t0")
    [Threads.Process (intercepted sample_http_packet false)
       (fun n => if n =? 5 then [PostMode (Some "rst")] else []);
     Threads.Process (intercepted sample_quic_packet false) Threads.alone])) in
  domains_blocked (domain_metrics s)
  = (blocked_sni s + blocked_http s + blocked_quic s)%Z.
Proof.
  apply (domains_blocked_total ["example.com"] DROP (Finite 2) "t0"
           [Threads.Process (intercepted sample_http_packet false)
              (fun n => if n =? 5 then [PostMode (Some "rst")] else []);
            Threads.Process (intercepted sample_quic_packet false) Threads.alone]).
  repeat constructor. intros n. cbn. destruct (n =? 5); reflexivity.
Defined.



(** X21. A reset that comes in while a packet is processed breaks the
    accounting.  For a packet without payload, which is let through: a
    reset between [total_packets += 1] and [passed += 1] leaves
    statistics in which the packet counts as passed and [total_packets]
    is 0, so that the four counters add up to more than
    [total_packets]. *)
Theorem reset_inside_packet (packet : Packet) (ip_packet : IP) (t : string)
  (h : Threads.Shared) :
  get_payload_IP packet = Ret ip_packet ->
  raw_load ip_packet = None ->
  let calls := fun n => if n =? 1 then [PostResetStats t] else [] in
  let s := stats (Threads.sim (Threads.move h (Threads.Process packet calls))) in
  total_packets s = 0%Z
  /\ passed s = 1%Z
  /\ blocked_sni s = 0%Z /\ blocked_http s = 0%Z /\ blocked_quic s = 0%Z
  /\ (total_packets s < blocked_sni s + blocked_http s + blocked_quic s + passed s)%Z.
Proof.
  intros H Hr. cbv zeta. unfold Threads.move, Threads.process_packet.
  unfold mbind, Threads.Prog_bind. cbn. rewrite H. cbn.
  destruct (transport ip_packet) as [tcp|udp|]; rewrite ?Hr; cbn;
    try (destruct (udp_dport udp =? 443)%Z; cbn); repeat split; lia.
Qed.

Lemma reset_inside_packet_witness :
  let ack := {| ip_src := "10.0.0.2"; ip_dst := "93.184.216.34";
                transport := HasTCP {| tcp_sport := 50000; tcp_dport := 443;
                                       tcp_seq := 1001; tcp_ack := Some 2001%Z |};
                raw_load := None |} in
  let s := stats (Threads.sim (Threads.move
             (Threads.new ["example.com"] DROP (Finite 2) "t0")
             (Threads.Process (intercepted ack false)
                (fun n => if n =? 1 then [PostResetStats "t1"] else [])))) in
  total_packets s = 0%Z /\ passed s = 1%Z.
Proof.
  cbv zeta.
  destruct (reset_inside_packet
              (intercepted
                 {| ip_src := "10.0.0.2"; ip_dst := "93.184.216.34";
                    transport := HasTCP {| tcp_sport := 50000; tcp_dport := 443;
                                           tcp_seq := 1001; tcp_ack := Some 2001%Z |};
                    raw_load := None |} false)
              {| ip_src := "10.0.0.2"; ip_dst := "93.184.216.34";
                 transport := HasTCP {| tcp_sport := 50000; tcp_dport := 443;
                                        tcp_seq := 1001; tcp_ack := Some 2001%Z |};
                 raw_load := None |}
              "t1" (Threads.new ["example.com"] DROP (Finite 2) "t0")
              eq_refl eq_refl) as (Ht & Hp & _).
  split; [exact Ht|exact Hp].
Defined.

(** X22. A reset that comes in while the block of a packet is
    recorded lets the packet through.  For an HTTP request to a blocked
    host that has a record already: with a reset between the test
    [domain not in self.stats.domain_metrics] and the lookup
    [self.stats.domain_metrics[domain]], the lookup raises [KeyError],
    the handler of [process_packet] accepts the packet, whatever the
    mode, and the new statistics count it nowhere. *)
Theorem reset_inside_record (packet : Packet) (ip_packet : IP) (tcp : TCP)
  (payload : bytes) (host : string) (t : string) (h : Threads.Shared) :
  get_payload_IP packet = Ret ip_packet ->
  transport ip_packet = HasTCP tcp ->
  raw_load ip_packet = Some payload ->
  tcp_dport tcp = 80%Z ->
  _extract_http_host payload = Ret (Some host) ->
  host <> "" ->
  _is_domain_blocked (blocked_domains (Threads.sim h)) host = true ->
  is_Some (domain_metrics (stats (Threads.sim h)) !! host) ->
  let calls := fun n => if n =? 5 then [PostResetStats t] else [] in
  let run := Threads.exec (Threads.process_packet packet) calls 0 h in
  run.1.1.1 = Ret tt
  /\ verdicts run.1.2 = [Accept]
  /\ In (EvLogError KeyError) run.1.2
  /\ stats (Threads.sim run.1.1.2) = SimulatorStats_new t.
Proof.
  intros H Ht Hr Hp He Hne Hb [metrics Hl]. cbv zeta.
  unfold Threads.process_packet, Threads.check_domain, Threads._block_packet,
    Threads.ports, Threads._log_block_event, Threads._update_domain_metrics.
  unfold mbind, Threads.Prog_bind.
  destruct h as [[B st md rn mr td] id]. cbn in Hb, Hl. cbn.
  rewrite H. cbn. rewrite Ht, Hr. cbn. rewrite Hp, He. cbn.
  destruct host as [|c d]; [contradiction|]. cbn. rewrite Hb. cbn.
  rewrite ?Ht. cbn. rewrite ?Hl. cbn.
  repeat split. right. now left.
Qed.

Lemma reset_inside_record_witness :
  let seen := Threads.move (Threads.new ["example.com"] DROP (Finite 2) "t0")
                (Threads.Process (intercepted sample_http_packet false) Threads.alone) in
  let run := Threads.exec (Threads.process_packet (intercepted sample_http_packet false))
               (fun n => if n =? 5 then [PostResetStats "t1"] else []) 0 seen in
  mode (Threads.sim seen) = DROP
  /\ verdicts run.1.2 = [Accept]
  /\ stats (Threads.sim run.1.1.2) = SimulatorStats_new "t1".
Proof.
  cbv zeta.
  destruct (reset_inside_record (intercepted sample_http_packet false)
              sample_http_packet
              {| tcp_sport := 50000; tcp_dport := 80;
                 tcp_seq := 1000; tcp_ack := Some 2000%Z |}
              sample_http_request "Example.com" "t1"
              (Threads.move (Threads.new ["example.com"] DROP (Finite 2) "t0")
                 (Threads.Process (intercepted sample_http_packet false) Threads.alone)))
    as (_ & Hv & _ & Hs).
  - reflexivity.
  - reflexivity.
  - reflexivity.
  - reflexivity.
  - vm_compute. reflexivity.
  - discriminate.
  - vm_compute. reflexivity.
  - vm_compute. eexists. reflexivity.
  - split; [vm_compute; reflexivity|]. split; [exact Hv|exact Hs].
Defined.

Lemma acts_keep_bind {A B} (P : Threads.Shared -> Prop) (p : Threads.Prog A)
  (f : A -> Threads.Prog B) :
  Threads.acts_keep P p -> (forall a, Threads.acts_keep P (f a)) ->
  Threads.acts_keep P (Threads.bind p f).
Proof.
  intros Hp Hf. induction p as [[a|e]|a k IH|k IH|ev k IH]; cbn in *.
  - apply Hf.
  - exact I.
  - split; [apply Hp|apply IH, Hp].
  - intros h. apply IH, Hp.
  - apply IH, Hp.
Qed.

Lemma acts_keep_try_catch {A} (P : Threads.Shared -> Prop) (p : Threads.Prog A)
  (handler : exn -> Threads.Prog A) :
  Threads.acts_keep P p -> (forall e, Threads.acts_keep P (handler e)) ->
  Threads.acts_keep P (Threads.try_catch p handler).
Proof.
  intros Hp Hf. induction p as [[a|e]|a k IH|k IH|ev k IH]; cbn in *.
  - exact I.
  - apply Hf.
  - split; [apply Hp|apply IH, Hp].
  - intros h. apply IH, Hp.
  - apply IH, Hp.
Qed.

(** What every write of the packet thread and every call keeps holds
    after the packet, whatever calls come in and wherever. *)
Lemma exec_keeps {A} (P : Threads.Shared -> Prop) (p : Threads.Prog A)
  (calls : nat -> list Command) (n : nat) (h : Threads.Shared) :
  Threads.acts_keep P p ->
  (forall c h, P h -> P (Threads.call c h)) ->
  P h -> P (Threads.exec p calls n h).1.1.2.
Proof.
  intros Hp Hc. 
  assert (forall cs h, P h -> P (Threads.calls_run cs h)) as Hcs.
  { induction cs as [|c cs IH]; intros h0 Hh; [exact Hh|].
    apply IH, Hc, Hh. }
  revert n h. induction p as [r|a k IH|k IH|ev k IH]; intros n h Hh; cbn in *.
  - exact Hh.
  - apply IH; [apply Hp|]. apply Hp, Hcs, Hh.
  - apply IH; [apply Hp|]. apply Hcs, Hh.
  - specialize (IH Hp n h Hh).
    now destruct (Threads.exec k calls n h) as [[[r h'] t] n'].
Qed.

Lemma alter_no_domain_passed (f : DomainMetrics -> DomainMetrics) (key : string)
  (s : SimulatorStats) :
  (forall metrics, dm_passed (f metrics) = dm_passed metrics) ->
  no_domain_passed s -> no_domain_passed (Threads.update_record key f s).
Proof.
  unfold no_domain_passed, Threads.update_record. cbn. intros Hf Hs k metrics Hl.
  destruct (decide (key = k)) as [<-|Hne].
  - rewrite lookup_alter_eq in Hl.
    destruct (domain_metrics s !! key) as [x|] eqn:E; [|discriminate].
    cbn in Hl. injection Hl as <-. rewrite Hf. exact (Hs _ _ E).
  - rewrite lookup_alter_ne in Hl by exact Hne. exact (Hs _ _ Hl).
Qed.

Lemma process_packet_keeps (packet : Packet) :
  Threads.acts_keep (fun h => no_domain_passed (stats (Threads.sim h)))
    (Threads.process_packet packet).
Proof.
  set (P := fun h => no_domain_passed (stats (Threads.sim h))).
  assert (forall incr,
             (forall s, domain_metrics (incr s) = domain_metrics s) ->
             Threads.acts_keep P (Threads.write (set_stats incr))) as Hincr.
  { intros incr Hi. cbn. split; [|exact I]. intros h Hh. unfold P, no_domain_passed in *.
    cbn. now rewrite Hi. }
  assert (forall id key f,
             (forall metrics, dm_passed (f metrics) = dm_passed metrics) ->
             Threads.acts_keep P (Threads.write_object id (Threads.update_record key f)))
    as Hobj.
  { intros id key f Hf. cbn. split; [|exact I]. intros h Hh.
    destruct (Threads.stats_id h =? id); [|exact Hh].
    unfold P. cbn. now apply alter_no_domain_passed. }
  assert (Threads.acts_keep P Threads.read) as Hread by (cbn; intros; exact I).
  assert (forall ev, Threads.acts_keep P (Threads.emit ev)) as Hemit
    by (intros; exact I).
  assert (forall now key bt,
             Threads.acts_keep P (Threads._update_domain_metrics now key true bt)) as Hupd.
  { intros now key bt. unfold Threads._update_domain_metrics.
    unfold mbind, Threads.Prog_bind.
    apply acts_keep_bind; [exact Hread|]. intros h.
    apply acts_keep_bind.
    - destruct (domain_metrics (stats (Threads.sim h)) !! key); [exact I|].
      split; [|exact I]. intros h0 Hh. unfold P, no_domain_passed in *. cbn.
      apply map_Forall_insert_2; [reflexivity|exact Hh].
    - intros _. apply acts_keep_bind; [exact Hread|]. intros h0.
      destruct (domain_metrics (stats (Threads.sim h0)) !! key); [|exact I].
      cbv zeta.
      apply acts_keep_bind; [now apply Hobj|]. intros _.
      apply acts_keep_bind; [now apply Hobj|]. intros _.
      destruct bt as [[|c b]|]; try exact I. now apply Hobj. }
  assert (forall ip_packet bt dom,
             Threads.acts_keep P (Threads._block_packet packet ip_packet bt dom)) as Hblock.
  { intros ip_packet bt dom. unfold Threads._block_packet.
    unfold mbind, Threads.Prog_bind.
    apply acts_keep_bind.
    { unfold Threads.ports. destruct (transport ip_packet); exact I. }
    intros sd. cbv zeta.
    apply acts_keep_bind.
    { unfold Threads._log_block_event, mbind, Threads.Prog_bind.
      apply acts_keep_bind; [exact Hread|]. intros h. apply Hemit. }
    intros _. apply acts_keep_bind; [apply Hupd|]. intros _.
    apply acts_keep_bind; [exact Hread|]. intros h1.
    destruct (mode (Threads.sim h1)); try apply Hemit;
      (apply acts_keep_bind; [exact Hread|]; intros h2;
       destruct (mode (Threads.sim h2)); try apply Hemit);
      try (apply acts_keep_bind; [|intros _; apply Hemit];
           unfold Threads._send_rst; apply acts_keep_try_catch; [|intros e; apply Hemit];
           destruct (transport ip_packet); try exact I;
           unfold Threads.send, mbind, Threads.Prog_bind;
           apply acts_keep_bind; [apply Hemit|]; intros _;
           destruct (send_raises packet); exact I);
      (apply acts_keep_bind; [exact Hread|]; intros h3;
       destruct (mode (Threads.sim h3)); try apply Hemit);
      (apply acts_keep_bind; [exact Hread|]; intros h4;
       destruct (mode (Threads.sim h4)); try apply Hemit);
      (apply acts_keep_bind; [|intros _; apply Hemit];
       unfold Threads._apply_throttle, mbind, Threads.Prog_bind;
       apply acts_keep_bind; [exact Hread|]; intros h5;
       unfold Threads.sleep; destruct (sleep_takes _ _); exact I). }
  assert (Threads.acts_keep P Threads.pass_packet) as Hpass.
  { unfold Threads.pass_packet. apply acts_keep_bind; [now apply Hincr|].
    intros _. exact I. }
  assert (forall ip_packet bt incr name,
             (forall s, domain_metrics (incr s) = domain_metrics s) ->
             Threads.acts_keep P (Threads.check_domain packet ip_packet bt incr name))
    as Hcheck.
  { intros ip_packet bt incr name Hi. unfold Threads.check_domain.
    destruct name as [[|c d]|]; try exact I.
    unfold mbind, Threads.Prog_bind.
    apply acts_keep_bind; [exact Hread|]. intros h.
    destruct (_is_domain_blocked _ _); [|exact I].
    apply acts_keep_bind; [now apply Hincr|]. intros _.
    apply acts_keep_bind; [apply Hblock|]. intros _. exact I. }
  unfold Threads.process_packet. unfold mbind, Threads.Prog_bind.
  apply acts_keep_bind; [now apply Hincr|]. intros _.
  apply acts_keep_try_catch; [|intros e; exact I].
  apply acts_keep_bind; [exact I|]. intros ip_packet.
  destruct (transport ip_packet) as [tcp|udp|]; [| |exact Hpass].
  - destruct (raw_load ip_packet) as [payload|]; [|exact Hpass].
    apply acts_keep_bind.
    + destruct (tcp_dport tcp =? 443)%Z; [|exact I].
      apply acts_keep_bind; [exact I|]. intros sni. now apply Hcheck.
    + intros [|]; [exact I|]. apply acts_keep_bind.
      * destruct (tcp_dport tcp =? 80)%Z; [|exact I].
        apply acts_keep_bind; [exact I|]. intros host. now apply Hcheck.
      * intros [|]; [exact I|exact Hpass].
  - destruct (udp_dport udp =? 443)%Z; [|exact Hpass].
    destruct (raw_load ip_packet) as [payload|]; [|exact Hpass].
    apply acts_keep_bind; [exact I|]. intros [|]; [|exact Hpass].
    apply acts_keep_bind; [now apply Hincr|]. intros _. apply Hblock.
Qed.

(** X23. Whatever packets are processed and whatever calls come in,
    resets and calls in the middle of a packet included, every record
    of the per-domain map has [passed = 0]. *)
Theorem domain_passed_zero_threads (domains : list string) (m : BlockMode)
  (delay : PyFloat) (t0 : string) (moves : list Threads.Move) :
  map_Forall (fun _ metrics => dm_passed metrics = 0%Z)
    (domain_metrics (stats (Threads.sim
       (Threads.run (Threads.new domains m delay t0) moves)))).
Proof.
  assert (forall h, no_domain_passed (stats (Threads.sim h)) ->
                    no_domain_passed (stats (Threads.sim (Threads.run h moves)))) as Hrun.
  { induction moves as [|mv moves IH]; intros h Hh; [exact Hh|].
    cbn. apply IH. destruct mv as [packet calls|c]; cbn [Threads.move].
    - apply (exec_keeps (fun h => no_domain_passed (stats (Threads.sim h))));
        [apply process_packet_keeps| |exact Hh].
      intros c h0 Hh0. now apply do_POST_no_domain_passed.
    - now apply do_POST_no_domain_passed. }
  apply Hrun. apply map_Forall_empty.
Qed.

(** ** Complete records under any interleaving *)

Lemma ends_in_bind {A B} (P R Q E : Threads.Shared -> Prop) (p : Threads.Prog A)
  (f : A -> Threads.Prog B) :
  ends_in P p R E -> (forall a, ends_in R (f a) Q E) ->
  ends_in P (Threads.bind p f) Q E.
Proof.
  intros Hp Hf calls n h Hh. rewrite exec_bind. specialize (Hp calls n h Hh).
  destruct (Threads.exec p calls n h) as [[[[a|e] h1] t1] n1]; cbn in Hp |- *.
  - specialize (Hf a calls n1 h1 Hp).
    now destruct (Threads.exec (f a) calls n1 h1) as [[[r h2] t2] n2].
  - exact Hp.
Qed.

Lemma ends_in_try_catch {A} (P Q E E' : Threads.Shared -> Prop) (p : Threads.Prog A)
  (handler : exn -> Threads.Prog A) :
  ends_in P p Q E' -> (forall e, ends_in E' (handler e) Q E) ->
  ends_in P (Threads.try_catch p handler) Q E.
Proof.
  intros Hp Hf calls n h Hh. rewrite exec_try_catch. specialize (Hp calls n h Hh).
  destruct (Threads.exec p calls n h) as [[[[a|e] h1] t1] n1]; cbn in Hp |- *.
  - exact Hp.
  - specialize (Hf e calls n1 h1 Hp).
    now destruct (Threads.exec (handler e) calls n1 h1) as [[[r h2] t2] n2].
Qed.

Lemma stable_calls_run (P : Threads.Shared -> Prop) (cs : list Command)
  (h : Threads.Shared) :
  stable P -> P h -> P (Threads.calls_run cs h).
Proof.
  intros Hs. revert h. induction cs as [|c cs IH]; intros h Hh; [exact Hh|].
  apply IH, Hs, Hh.
Qed.

Lemma ends_in_done {A} (P Q E : Threads.Shared -> Prop) (r : exc A) :
  (forall h, P h -> match r with Ret _ => Q h | Raise _ => E h end) ->
  ends_in P (Threads.Done r) Q E.
Proof. intros H calls n h Hh. cbn. destruct r; now apply H. Qed.

Lemma ends_in_read {A} (P Q E : Threads.Shared -> Prop) (k : Threads.Shared -> Threads.Prog A) :
  stable P ->
  (forall h0, P h0 -> exists P' : Threads.Shared -> Prop, P' h0 /\ ends_in P' (k h0) Q E) ->
  ends_in P (Threads.Read k) Q E.
Proof.
  intros Hs Hk calls n h Hh. cbn.
  destruct (Hk _ (stable_calls_run P (calls n) h Hs Hh)) as (P' & Hh' & Hk').
  exact (Hk' calls (S n) _ Hh').
Qed.

Lemma ends_in_act {A} (P P' Q E : Threads.Shared -> Prop)
  (a : Threads.Shared -> Threads.Shared) (k : Threads.Prog A) :
  stable P -> (forall h, P h -> P' (a h)) -> ends_in P' k Q E ->
  ends_in P (Threads.Act a k) Q E.
Proof.
  intros Hs Ha Hk calls n h Hh. cbn.
  exact (Hk calls (S n) _ (Ha _ (stable_calls_run P (calls n) h Hs Hh))).
Qed.

Lemma ends_in_emit {A} (P Q E : Threads.Shared -> Prop) (ev : Event) (k : Threads.Prog A) :
  ends_in P k Q E -> ends_in P (Threads.Emit ev k) Q E.
Proof.
  intros Hk calls n h Hh. cbn. specialize (Hk calls n h Hh).
  now destruct (Threads.exec k calls n h) as [[[r h'] t] n'].
Qed.

(** A program whose writes all keep [P] ends where [P] holds. *)
Lemma ends_in_keeps {A} (P : Threads.Shared -> Prop) (p : Threads.Prog A) :
  stable P -> Threads.acts_keep P p -> ends_in P p P P.
Proof.
  intros Hs Hp calls n h Hh.
  pose proof (exec_keeps P p calls n h Hp Hs Hh) as H.
  now destruct ((Threads.exec p calls n h).1.1.1).
Qed.

Lemma stable_records_ok : stable records_ok.
Proof.
  intros c h Hh. unfold records_ok in *.
  destruct c as [[[|ch v]|]| |t]; cbn; try exact Hh.
  - destruct (BlockMode_of_value (String ch v)); exact Hh.
  - apply map_Forall_empty.
Qed.

Lemma stable_records_ok_but (key : string) (stage : nat) :
  stable (records_ok_but key stage).
Proof.
  intros c h Hh. unfold records_ok_but in *.
  destruct c as [[[|ch v]|]| |t]; cbn; try exact Hh.
  - destruct (BlockMode_of_value (String ch v)); exact Hh.
  - intros k metrics Hk. rewrite lookup_empty in Hk. discriminate.
Qed.

Lemma stable_writing (id : nat) (key : string) (stage : nat) :
  stable (writing id key stage).
Proof.
  intros c h Hh.
  assert (forall t, writing id key stage
                      (Threads.call (PostResetStats t) h)) as Hreset.
  { intros t. right. split.
    - cbn. destruct Hh as [(<- & _)|(Hlt & _)]; lia.
    - unfold records_ok. cbn. apply map_Forall_empty. }
  destruct c as [[[|ch v]|]| |t]; try apply Hreset;
    try (destruct h as [[] ?]; exact Hh).
  unfold Threads.call. cbn.
  destruct (BlockMode_of_value (String ch v)); destruct h as [[] ?]; exact Hh.
Qed.

Lemma records_ok_but_ok (key : string) (h : Threads.Shared) :
  records_ok h -> records_ok_but key 0 h.
Proof.
  intros Hh k metrics Hk. destruct (decide (k = key)); [right|]; exact (Hh _ _ Hk).
Qed.

Lemma writing_step (id : nat) (key : string) (stage : nat)
  (f : DomainMetrics -> DomainMetrics) (h : Threads.Shared) :
  (forall metrics, record_stage stage metrics -> record_stage (S stage) (f metrics)) ->
  writing id key stage h ->
  writing id key (S stage)
    (if Threads.stats_id h =? id
     then {| Threads.sim := set_stats (Threads.update_record key f) (Threads.sim h);
             Threads.stats_id := Threads.stats_id h |}
     else h).
Proof.
  intros Hf [(Hid & Hsome & Hbut)|(Hlt & Hok)].
  - rewrite (proj2 (Nat.eqb_eq _ _) Hid). left. cbn. split; [exact Hid|]. split.
    + rewrite lookup_alter_eq. destruct Hsome as [x ->]. cbn. eauto.
    + intros k metrics Hk. cbn in Hk. specialize (Hbut k).
      destruct (decide (k = key)) as [->|Hne].
      * rewrite lookup_alter_eq in Hk.
        destruct (domain_metrics (stats (Threads.sim h)) !! key) as [x|]; [|discriminate].
        cbn in Hk. injection Hk as <-. apply Hf. exact (Hbut x eq_refl).
      * rewrite lookup_alter_ne in Hk by congruence. exact (Hbut metrics Hk).
  - destruct (Nat.eqb_spec (Threads.stats_id h) id) as [Heq|_]; [lia|].
    right. split; assumption.
Qed.

Lemma histogram_total_empty : histogram_total ∅ = 0%Z.
Proof. reflexivity. Qed.

(** The record operation ends with complete records, whatever calls
    come in between its steps. *)
Lemma update_ends_ok (now key block_type : string) :
  block_type <> "" ->
  ends_in records_ok
    (Threads._update_domain_metrics now key true (Some block_type))
    records_ok records_ok.
Proof.
  intros Hbt. destruct block_type as [|c bt]; [contradiction|].
  unfold Threads._update_domain_metrics, mbind, Threads.Prog_bind, Threads.read.
  cbn [Threads.bind].
  apply ends_in_read; [exact stable_records_ok|]. intros h0 H0.
  exists (records_ok_but key 0). split; [now apply records_ok_but_ok|].
  assert (ends_in (records_ok_but key 0)
            (Threads.Read (fun h =>
               match domain_metrics (stats (Threads.sim h)) !! key with
               | Some _ =>
                   Threads.bind
                     (Threads.write_object (Threads.stats_id h)
                        (Threads.update_record key dm_incr_blocked))
                     (fun _ =>
                        Threads.bind
                          (Threads.write_object (Threads.stats_id h)
                             (Threads.update_record key (dm_set_last_blocked now)))
                          (fun _ =>
                             Threads.write_object (Threads.stats_id h)
                               (Threads.update_record key
                                  (dm_bump_block_type (String c bt)))))
               | None => Threads.raise KeyError
               end))
            records_ok records_ok) as Hrest.
  { apply ends_in_read; [apply stable_records_ok_but|]. intros h2 H2.
    destruct (domain_metrics (stats (Threads.sim h2)) !! key) as [x|] eqn:E2.
    - exists (writing (Threads.stats_id h2) key 0). split.
      { left. split; [reflexivity|]. split; [rewrite E2; eauto|exact H2]. }
      unfold Threads.write_object. cbn [Threads.bind].
      apply (ends_in_act _ (writing (Threads.stats_id h2) key 1));
        [apply stable_writing| |].
      { intros h. apply writing_step. intros metrics [->|(H1 & _ & H3)]; cbn.
        - split; [lia|reflexivity].
        - split; lia. }
      apply (ends_in_act _ (writing (Threads.stats_id h2) key 2));
        [apply stable_writing| |].
      { intros h. apply writing_step. intros metrics (H1 & H3); cbn.
        split; [exact H1|]. split; [exact H3|eauto]. }
      apply (ends_in_act _ (writing (Threads.stats_id h2) key 3));
        [apply stable_writing| |].
      { intros h. apply writing_step. intros metrics (H1 & H3 & H2').
        unfold record_stage, record_ok, dm_bump_block_type.
        cbn [dm_blocked last_blocked block_types].
        split; [exact H1|]. split; [exact H2'|].
        rewrite histogram_total_bump. exact H3. }
      apply ends_in_done. intros h [(_ & _ & Hbut)|(_ & Hok)]; [|exact Hok].
      intros k metrics Hk. specialize (Hbut k metrics Hk).
      now destruct (decide (k = key)).
    - exists records_ok. split.
      { intros k metrics Hk. specialize (H2 k metrics Hk).
        destruct (decide (k = key)) as [->|]; [congruence|exact H2]. }
      apply ends_in_done. now intros h Hh. }
  destruct (domain_metrics (stats (Threads.sim h0)) !! key) as [x|].
  - exact Hrest.
  - unfold Threads.write. cbn [Threads.bind].
    apply (ends_in_act _ (records_ok_but key 0));
      [apply stable_records_ok_but| |exact Hrest].
    intros h Hh k metrics Hk. cbn in Hk.
    destruct (decide (k = key)) as [->|Hne].
    + rewrite lookup_insert_eq in Hk. injection Hk as <-. now left.
    + rewrite lookup_insert_ne in Hk by congruence.
      specialize (Hh k metrics Hk). now destruct (decide (k = key)).
Qed.

Ltac no_acts :=
  unfold Threads._log_block_event, Threads._send_rst, Threads.send,
    Threads._apply_throttle, Threads.sleep, Threads.ports, Threads.emit, Threads.read,
    Threads.raise, mbind, mret, Threads.Prog_bind, Threads.Prog_ret;
  repeat first
    [ exact I
    | progress cbn
    | intro
    | match goal with
      | |- context [match mode ?x with _ => _ end] => destruct (mode x)
      | |- context [match transport ?x with _ => _ end] => destruct (transport x)
      | |- context [if ?b then _ else _] => destruct b
      end ].

Lemma write_counter_ends_ok (incr : SimulatorStats -> SimulatorStats) :
  (forall s, domain_metrics (incr s) = domain_metrics s) ->
  ends_in records_ok (Threads.write (set_stats incr)) records_ok records_ok.
Proof.
  intros Hi. apply ends_in_keeps; [exact stable_records_ok|].
  cbn. split; [|exact I]. intros h Hh. unfold records_ok in *. cbn. now rewrite Hi.
Qed.

Lemma block_packet_ends_ok (packet : Packet) (ip_packet : IP) (block_type : string)
  (domain : option string) :
  block_type <> "" ->
  ends_in records_ok (Threads._block_packet packet ip_packet block_type domain)
    records_ok records_ok.
Proof.
  intros Hbt. unfold Threads._block_packet. unfold mbind at 1, Threads.Prog_bind at 1.
  apply (ends_in_bind _ records_ok).
  { apply ends_in_keeps; [exact stable_records_ok|]. no_acts. }
  intros sd. cbv zeta. unfold mbind at 1, Threads.Prog_bind at 1.
  apply (ends_in_bind _ records_ok).
  { apply ends_in_keeps; [exact stable_records_ok|]. no_acts. }
  intros _. unfold mbind at 1, Threads.Prog_bind at 1.
  apply (ends_in_bind _ records_ok); [now apply update_ends_ok|].
  intros _. apply ends_in_keeps; [exact stable_records_ok|]. no_acts.
Qed.

Lemma check_domain_ends_ok (packet : Packet) (ip_packet : IP) (block_type : string)
  (incr : SimulatorStats -> SimulatorStats) (name : option string) :
  block_type <> "" ->
  (forall s, domain_metrics (incr s) = domain_metrics s) ->
  ends_in records_ok (Threads.check_domain packet ip_packet block_type incr name)
    records_ok records_ok.
Proof.
  intros Hbt Hi. unfold Threads.check_domain.
  destruct name as [[|c d]|]; try (apply ends_in_done; now intros h Hh).
  unfold mbind at 1, Threads.Prog_bind at 1. unfold Threads.read. cbn [Threads.bind].
  apply ends_in_read; [exact stable_records_ok|]. intros h Hh.
  exists records_ok. split; [exact Hh|].
  destruct (_is_domain_blocked _ _); [|apply ends_in_done; now intros h0 Hh0].
  unfold mbind at 1, Threads.Prog_bind at 1.
  apply (ends_in_bind _ records_ok); [now apply write_counter_ends_ok|]. intros _.
  unfold mbind at 1, Threads.Prog_bind at 1.
  apply (ends_in_bind _ records_ok); [now apply block_packet_ends_ok|]. intros _.
  apply ends_in_done. now intros h0 Hh0.
Qed.

Lemma pass_packet_ends_ok : ends_in records_ok Threads.pass_packet records_ok records_ok.
Proof.
  unfold Threads.pass_packet. unfold mbind at 1, Threads.Prog_bind at 1.
  apply (ends_in_bind _ records_ok); [now apply write_counter_ends_ok|]. intros _.
  apply ends_in_emit, ends_in_done. now intros h Hh.
Qed.

(** Processing a packet ends with complete records, whatever calls
    come in on the way. *)
Lemma process_packet_ends_ok (packet : Packet) :
  ends_in records_ok (Threads.process_packet packet) records_ok records_ok.
Proof.
  unfold Threads.process_packet. unfold mbind at 1, Threads.Prog_bind at 1.
  apply (ends_in_bind _ records_ok); [now apply write_counter_ends_ok|]. intros _.
  apply (ends_in_try_catch _ _ _ records_ok).
  2: { intros e. apply ends_in_keeps; [exact stable_records_ok|]. no_acts. }
  unfold mbind at 1, Threads.Prog_bind at 1.
  apply (ends_in_bind _ records_ok); [apply ends_in_done; now destruct (get_payload_IP packet)|].
  intros ip_packet.
  destruct (transport ip_packet) as [tcp|udp|]; [| |exact pass_packet_ends_ok].
  - destruct (raw_load ip_packet) as [payload|]; [|exact pass_packet_ends_ok].
    unfold mbind at 1, Threads.Prog_bind at 1.
    apply (ends_in_bind _ records_ok).
    + destruct (tcp_dport tcp =? 443)%Z; [|apply ends_in_done; now intros h Hh].
      unfold mbind at 1, Threads.Prog_bind at 1.
      apply (ends_in_bind _ records_ok);
        [apply ends_in_done; now destruct (_extract_sni payload)|].
      intros sni. now apply check_domain_ends_ok.
    + intros [|]; [apply ends_in_done; now intros h Hh|].
      unfold mbind at 1, Threads.Prog_bind at 1.
      apply (ends_in_bind _ records_ok).
      * destruct (tcp_dport tcp =? 80)%Z; [|apply ends_in_done; now intros h Hh].
        unfold mbind at 1, Threads.Prog_bind at 1.
        apply (ends_in_bind _ records_ok);
          [apply ends_in_done; now destruct (_extract_http_host payload)|].
        intros host. now apply check_domain_ends_ok.
      * intros [|]; [apply ends_in_done; now intros h Hh|exact pass_packet_ends_ok].
  - destruct (udp_dport udp =? 443)%Z; [|exact pass_packet_ends_ok].
    destruct (raw_load ip_packet) as [payload|]; [|exact pass_packet_ends_ok].
    unfold mbind at 1, Threads.Prog_bind at 1.
    apply (ends_in_bind _ records_ok);
      [apply ends_in_done; now destruct (_is_quic_initial payload)|].
    intros [|]; [|exact pass_packet_ends_ok].
    unfold mbind at 1, Threads.Prog_bind at 1.
    apply (ends_in_bind _ records_ok); [now apply write_counter_ends_ok|]. intros _.
    now apply block_packet_ends_ok.
Qed.

(** X24. Whatever packets are processed and whatever calls come in,
    resets and calls in the middle of a packet included, every
    per-domain record that is in place between two packets has been
    blocked at least once, carries the time of its last block, and its
    block-type counts add up to its [blocked] count. *)
Theorem domain_records_consistent_threads (domains : list string) (m : BlockMode)
  (delay : PyFloat) (t0 : string) (moves : list Threads.Move) :
  map_Forall (fun _ metrics =>
                (1 <= dm_blocked metrics)%Z
                /\ is_Some (last_blocked metrics)
                /\ histogram_total (block_types metrics) = dm_blocked metrics)
    (domain_metrics (stats (Threads.sim
       (Threads.run (Threads.new domains m delay t0) moves)))).
Proof.
  assert (forall h, records_ok h -> records_ok (Threads.run h moves)) as Hrun.
  { induction moves as [|mv moves IH]; intros h Hh; [exact Hh|].
    cbn. apply IH. destruct mv as [packet calls|c]; cbn [Threads.move].
    - pose proof (process_packet_ends_ok packet calls 0 h Hh) as H.
      now destruct ((Threads.exec (Threads.process_packet packet) calls 0 h).1.1.1).
    - now apply stable_records_ok. }
  apply (Hrun (Threads.new domains m delay t0)). apply map_Forall_empty.
Qed.
